(** * MediSync AI doctor dashboard: a shallow embedding of the scheduling code

    The development follows the layout of the repository:

    - [Js]        the JavaScript primitives the code relies on (string
                  comparison, [split], [parseInt], [toString], [padStart]);
    - [Types]     [types/index.ts];
    - [AiModel]   [services/aiModel.ts], the integration layer that talks to
                  the scheduling backend through [fetch];
    - [Calendar]  the day view of [components/CalendarView.tsx];
    - [App]       the drag-and-drop handler of [App.tsx];
    - [Schema]    the conflict trigger of [docs/DATABASE_SCHEMA.md];
    - [Detector]  the gap rule of the conflict detector, which the repository
                  only declares and calls.

    Definitions come first, the theorems about them follow. *)

From Stdlib Require Import ZArith QArith List String Ascii Bool Lia.
From Stdlib Require Import Permutation Sorted.
Import ListNotations.

Local Open Scope string_scope.
Local Open Scope Z_scope.

(* ===================================================================== *)
(** ** JavaScript primitives *)
(* ===================================================================== *)

Module Js.

(** A JavaScript string is a sequence of code units; the strings of this
    program (ids, ISO dates, clock times) are ASCII, so [string] is used and
    [code] is the code unit of a character. *)
Definition code (c : ascii) : Z := Z.of_N (N_of_ascii c).

(** [x < y] on strings (ECMAScript IsLessThan): a proper prefix is smaller,
    otherwise the first differing code unit decides. *)
Fixpoint lt (x y : string) : bool :=
  match x, y with
  | _, EmptyString => false
  | EmptyString, String _ _ => true
  | String a x', String b y' =>
      if code a =? code b then lt x' y' else code a <? code b
  end.

(** [x > y] is [y < x]; [x <= y] is [!(y < x)]; [x >= y] is [!(x < y)]. *)
Definition gt (x y : string) : bool := lt y x.
Definition le (x y : string) : bool := negb (lt y x).
Definition ge (x y : string) : bool := negb (lt x y).

(** A number is NaN or an integer.  The source computes with doubles, which
    are exact on integers below 2^53; every number of this program (minutes
    of a day, small counters) is far inside that range. *)
Inductive number : Type :=
| NaN
| Int (z : Z).

Definition add (a b : number) : number :=
  match a, b with
  | Int x, Int y => Int (x + y)
  | _, _ => NaN
  end.

Definition sub (a b : number) : number :=
  match a, b with
  | Int x, Int y => Int (x - y)
  | _, _ => NaN
  end.

Definition mul (a b : number) : number :=
  match a, b with
  | Int x, Int y => Int (x * y)
  | _, _ => NaN
  end.

(** [Math.floor(a / k)] for a positive integer constant [k]. *)
Definition floorDiv (a : number) (k : Z) : number :=
  match a with
  | Int x => Int (x / k)
  | NaN => NaN
  end.

(** [a % k]: the remainder takes the sign of the dividend. *)
Definition rem (a : number) (k : Z) : number :=
  match a with
  | Int x => Int (Z.rem x k)
  | NaN => NaN
  end.

(** *** [String.prototype.split] with a one-character separator *)
Fixpoint split (sep : ascii) (s : string) : list string :=
  match s with
  | EmptyString => [EmptyString]
  | String c r =>
      if code c =? code sep then EmptyString :: split sep r
      else match split sep r with
           | p :: ps => String c p :: ps
           | [] => [String c EmptyString]
           end
  end.

(** *** [parseInt] without a radix argument *)
Definition isWhite (c : ascii) : bool :=
  let n := code c in
  (n =? 32) || ((9 <=? n) && (n <=? 13)) || (n =? 160).

Fixpoint trimStart (s : string) : string :=
  match s with
  | String c r => if isWhite c then trimStart r else s
  | EmptyString => EmptyString
  end.

Definition digitVal (c : ascii) : option Z :=
  let n := code c in
  if (48 <=? n) && (n <=? 57) then Some (n - 48)
  else if (97 <=? n) && (n <=? 122) then Some (n - 87)
  else if (65 <=? n) && (n <=? 90) then Some (n - 55)
  else None.

(** The longest prefix of digits of the radix, read left to right; [acc] is
    [None] until a first digit has been read. *)
Fixpoint parseDigits (radix : Z) (s : string) (acc : option Z) : option Z :=
  match s with
  | EmptyString => acc
  | String c r =>
      match digitVal c with
      | Some d =>
          if d <? radix
          then parseDigits radix r
                 (Some (match acc with Some a => a * radix + d | None => d end))
          else acc
      | None => acc
      end
  end.

Definition parseUnsigned (s : string) : option Z :=
  match s with
  | String z (String x r) =>
      if (code z =? 48) && ((code x =? 120) || (code x =? 88))
      then parseDigits 16 r None
      else parseDigits 10 s None
  | _ => parseDigits 10 s None
  end.

Definition parseIntString (s : string) : number :=
  match trimStart s with
  | String c r =>
      if code c =? 45 then
        match parseUnsigned r with Some v => Int (- v) | None => NaN end
      else if code c =? 43 then
        match parseUnsigned r with Some v => Int v | None => NaN end
      else
        match parseUnsigned (String c r) with Some v => Int v | None => NaN end
  | EmptyString => NaN
  end.

(** [parseInt(x)] where [x] may be [undefined] (an array index out of range):
    [undefined] is first turned into the string "undefined", which has no
    digit. *)
Definition parseInt (x : option string) : number :=
  match x with
  | Some s => parseIntString s
  | None => NaN
  end.

(** A decimal digit, as a code unit. *)
Definition isDigit (c : ascii) : bool := (48 <=? code c) && (code c <=? 57).

Fixpoint allDigits (s : string) : bool :=
  match s with
  | EmptyString => true
  | String c r => isDigit c && allDigits r
  end.

(** [a < b] on numbers: false as soon as one side is NaN. *)
Definition ltNum (a b : number) : bool :=
  match a, b with
  | Int x, Int y => x <? y
  | _, _ => false
  end.

(** Truthiness of a string: every string but the empty one. *)
Definition truthy (s : string) : bool :=
  match s with
  | EmptyString => false
  | String _ _ => true
  end.

(** *** [Number.prototype.toString] on integers *)
Definition digitChar (d : Z) : ascii := ascii_of_N (Z.to_N (48 + d)).

Fixpoint digitsAcc (fuel : nat) (n : Z) (acc : string) : string :=
  match fuel with
  | O => acc
  | S f =>
      let acc' := String (digitChar (n mod 10)) acc in
      if n <? 10 then acc' else digitsAcc f (n / 10) acc'
  end.

(** Decimal digits of a natural number; [log2 n + 1] steps are enough. *)
Definition digits (n : Z) : string :=
  digitsAcc (S (Z.to_nat (Z.log2 n))) n EmptyString.

Definition toString (a : number) : string :=
  match a with
  | NaN => "NaN"
  | Int z => if z <? 0 then String "-" (digits (- z)) else digits z
  end.

(** *** [String.prototype.padStart] with a one-character filler *)
Fixpoint repeat (c : ascii) (n : nat) : string :=
  match n with
  | O => EmptyString
  | S k => String c (repeat c k)
  end.

Definition padStart (len : nat) (fill : ascii) (s : string) : string :=
  repeat fill (len - String.length s) ++ s.

End Js.

(* ===================================================================== *)
(** ** [types/index.ts] *)
(* ===================================================================== *)

Module Types.

(** Optional fields are options; a field name that several interfaces share
    keeps its name in [Appointment] and is prefixed elsewhere. *)

Inductive Priority : Type := emergency | urgent | normal.

Inductive AppointmentStatus : Type :=
| scheduled | completed | cancelled | no_show.

Inductive ActionStatus : Type := pending | accepted | rejected.

Inductive RiskLevel : Type := risk_high | risk_medium | risk_low | risk_none.

Inductive Severity : Type := high | medium | low.

Inductive ConflictType : Type :=
| overlap | overbook | double_booking | gap_too_small.

Record Appointment : Type := mkAppointment {
  id : string;
  patientId : string;
  patientName : string;
  doctorId : string;
  date : string;        (* ISO date string *)
  startTime : string;   (* HH:mm format *)
  endTime : string;     (* HH:mm format *)
  priority : Priority;
  status : AppointmentStatus;
  type : string;
  notes : option string;
  location : option string
}.

Inductive Gender : Type := male | female | other.

Record Patient : Type := mkPatient {
  patient_id : string;
  patient_name : string;
  patient_age : Z;
  patient_gender : Gender;
  patient_condition : string;
  patient_conditionSummary : string;
  patient_lastVisit : string;
  patient_nextVisit : option string;
  patient_riskLevel : RiskLevel;
  patient_phone : string;
  patient_email : string;
  patient_bloodType : option string;
  patient_allergies : option (list string);
  patient_medications : option (list string);
  patient_avatar : option string
}.

Record AIScheduleSuggestion : Type := mkSuggestion {
  suggestion_id : string;
  suggestion_doctorId : string;
  suggestion_patientId : string;
  suggestion_patientName : string;
  suggestedDate : string;
  suggestedStartTime : string;
  suggestedEndTime : string;
  suggestion_priority : Priority;
  suggestion_reason : string;   (* AI explanation for the suggestion *)
  suggestion_confidence : Q;    (* 0-1 *)
  suggestion_status : ActionStatus;
  suggestion_conflicts : option (list string);
  suggestion_createdAt : string
}.

Record ScheduleConflict : Type := mkConflict {
  conflict_id : string;
  conflict_type : ConflictType;
  conflict_appointments : list string;   (* appointment IDs involved *)
  conflict_description : string;
  suggestedResolution : option string;
  severity : Severity
}.

End Types.

(* ===================================================================== *)
(** ** [App.tsx]: rescheduling an appointment by drag and drop *)
(* ===================================================================== *)

Module App.
Import Types.

(** [parseInt(parts[0]) * 60 + parseInt(parts[1])] for [parts] the pieces of
    a clock time split at the colon. *)
Definition minutesOf (parts : list string) : Js.number :=
  Js.add (Js.mul (Js.parseInt (nth_error parts 0)) (Js.Int 60))
         (Js.parseInt (nth_error parts 1)).

(** [appointments.find(apt => apt.id === appointmentId)] *)
Definition findAppointment (appointments : list Appointment)
    (appointmentId : string) : option Appointment :=
  find (fun apt => String.eqb (id apt) appointmentId) appointments.

(** The end time the handler computes for the moved appointment. *)
Definition newEndTimeOf (appointment : Appointment) (newStartTime : string)
    : string :=
  let startParts := Js.split ":" (startTime appointment) in
  let endParts := Js.split ":" (endTime appointment) in
  let duration := Js.sub (minutesOf endParts) (minutesOf startParts) in
  let newStartParts := Js.split ":" newStartTime in
  let newEndMinutes := Js.add (minutesOf newStartParts) duration in
  Js.padStart 2 "0" (Js.toString (Js.floorDiv newEndMinutes 60))
    ++ ":" ++ Js.padStart 2 "0" (Js.toString (Js.rem newEndMinutes 60)).

(** [{ ...apt, date: newDate, startTime: newStartTime, endTime: newEndTime }] *)
Definition withSchedule (apt : Appointment)
    (newDate newStartTime newEndTime : string) : Appointment :=
  {| id := id apt; patientId := patientId apt; patientName := patientName apt;
     doctorId := doctorId apt; date := newDate; startTime := newStartTime;
     endTime := newEndTime; priority := priority apt; status := status apt;
     type := type apt; notes := notes apt; location := location apt |}.

(** What the handler leaves behind: the appointments state, the toasts shown
    and the request sent to the backend, if any. *)
Record DropPatch : Type := mkPatch {
  patch_date : string;
  patch_startTime : string;
  patch_endTime : string
}.

Record DropResult : Type := mkDropResult {
  appointments_after : list Appointment;
  toasts : list string;
  backendCall : option (string * DropPatch)
}.

(** [handleAppointmentDrop].  [appointments] is the state the handler closed
    over, [prev] the state the updater of [setAppointments] receives (the
    same list unless another update is queued), [currentDoctorId] is
    [currentDoctor?.id] and [updateAppointment] tells whether the backend
    call resolves ([true]) or rejects. *)
Definition handleAppointmentDrop
    (updateAppointment : string -> DropPatch -> bool)
    (currentDoctorId : option string)
    (appointments prev : list Appointment)
    (appointmentId newDate newStartTime : string) : DropResult :=
  match findAppointment appointments appointmentId with
  | None => mkDropResult prev [] None
  | Some appointment =>
      let newEndTime := newEndTimeOf appointment newStartTime in
      (* Update locally first (optimistic update) *)
      let updated :=
        map (fun apt =>
               if String.eqb (id apt) appointmentId
               then withSchedule apt newDate newStartTime newEndTime
               else apt) prev in
      (* Skip backend call in demo mode *)
      let demoMode :=
        match currentDoctorId with
        | Some doctor => String.eqb doctor "demo-doctor-1"
        | None => false
        end in
      if demoMode then
        mkDropResult updated ["Appointment rescheduled (Demo Mode)"] None
      else
        let patch := mkPatch newDate newStartTime newEndTime in
        if updateAppointment appointmentId patch
        then mkDropResult updated ["Appointment rescheduled"]
               (Some (appointmentId, patch))
        else (* Keep the optimistic update *)
             mkDropResult updated ["Appointment rescheduled (Demo Mode)"]
               (Some (appointmentId, patch))
  end.

(** The clock time of an appointment field in minutes, as the handler reads
    it. *)
Definition timeToMinutes (t : string) : Js.number :=
  minutesOf (Js.split ":" t).

(** The HH:mm format of the [Appointment] type: two digits, a colon, two
    digits, hours below 24 and minutes below 60. *)
Definition isHHmm (t : string) : bool :=
  match t with
  | String h1 (String h2 (String c (String m1 (String m2 EmptyString)))) =>
      Js.isDigit h1 && Js.isDigit h2 && (Js.code c =? 58)
      && Js.isDigit m1 && Js.isDigit m2
      && ((Js.code h1 - 48) * 10 + (Js.code h2 - 48) <? 24)
      && ((Js.code m1 - 48) * 10 + (Js.code m2 - 48) <? 60)
  | _ => false
  end.

End App.

(* ===================================================================== *)
(** ** [services/aiModel.ts]: the AI model integration service *)
(* ===================================================================== *)

Module AiModel.
Import Types.

Definition AI_MODEL_BASE_URL : string := "http://localhost:8000/api/ai".

(** *** Doctor preferences *)

Record WorkingDay : Type := mkDay {
  start : string;
  end_ : string;
  enabled : bool
}.

Record WorkingHours : Type := mkWorkingHours {
  monday : WorkingDay;
  tuesday : WorkingDay;
  wednesday : WorkingDay;
  thursday : WorkingDay;
  friday : WorkingDay;
  saturday : WorkingDay;
  sunday : WorkingDay
}.

Record BreakTime : Type := mkBreak {
  break_start : string;
  break_end : string
}.

Record Constraints : Type := mkConstraints {
  maxPatientsPerDay : Js.number;
  defaultConsultationDuration : Js.number;     (* minutes *)
  emergencyConsultationDuration : Js.number;   (* minutes *)
  breakTimes : list BreakTime;
  bufferBetweenAppointments : Js.number;       (* minutes *)
  minNoticeForAppointment : Js.number;         (* hours *)
  maxAdvanceBooking : Js.number                (* days *)
}.

Record AiPreferences : Type := mkAiPreferences {
  prioritizeUrgentCases : bool;
  autoAcceptHighConfidenceSuggestions : bool;
  considerPatientHistory : bool;
  optimizeForMinimalWaitTime : bool;
  allowOverbooking : bool;
  notifyOnConflicts : bool
}.

Inductive ExaminationTime : Type := morning | afternoon | any.

Record SpecialtySettings : Type := mkSpecialty {
  followUpInterval : option Js.number;
  requiresLabResults : option bool;
  preferredExaminationTime : option ExaminationTime
}.

Record DoctorPreferences : Type := mkPreferences {
  doctorId : string;
  workingHours : WorkingHours;
  constraints : Constraints;
  aiPreferences : AiPreferences;
  specialtySettings : option SpecialtySettings
}.

(** [Object.values(workingHours)], in the order the keys are declared. *)
Definition Object_values (w : WorkingHours) : list WorkingDay :=
  [monday w; tuesday w; wednesday w; thursday w; friday w; saturday w;
   sunday w].

(** *** The outside world

    The functions of this file reach the backend with [fetch], read the
    token from [localStorage] and the time from [new Date()].  An [Env]
    fixes what the world answers during one call. *)

Inductive Endpoint : Type :=
| GenerateSuggestions | DetectConflicts | OptimalTime.

Definition path (e : Endpoint) : string :=
  match e with
  | GenerateSuggestions => "/generate-suggestions"
  | DetectConflicts => "/detect-conflicts"
  | OptimalTime => "/optimal-time"
  end.

Record SuggestionsRequest : Type := mkSuggestionsRequest {
  req_preferences : DoctorPreferences;
  req_currentAppointments : list Appointment;
  req_pendingPatients : list Patient;
  req_timestamp : string
}.

Record ConflictsRequest : Type := mkConflictsRequest {
  creq_doctorId : string;
  creq_appointments : list Appointment;
  creq_preferences : DoctorPreferences
}.

Record OptimalTimeRequest : Type := mkOptimalTimeRequest {
  oreq_patientId : string;
  oreq_priority : Priority;
  oreq_preferences : DoctorPreferences;
  oreq_currentSchedule : list Appointment
}.

Record OptimalTimeResult : Type := mkOptimalTime {
  optimal_suggestedDate : string;
  optimal_suggestedStartTime : string;
  optimal_suggestedEndTime : string;
  optimal_confidence : Q;
  optimal_reason : string
}.

(** What [JSON.stringify] is given, and what [response.json()] is declared
    to resolve to, for each endpoint. *)
Definition RequestBody (e : Endpoint) : Type :=
  match e with
  | GenerateSuggestions => SuggestionsRequest
  | DetectConflicts => ConflictsRequest
  | OptimalTime => OptimalTimeRequest
  end.

Definition ResponseBody (e : Endpoint) : Type :=
  match e with
  | GenerateSuggestions => list AIScheduleSuggestion
  | DetectConflicts => list ScheduleConflict
  | OptimalTime => OptimalTimeResult
  end.

Record Request (e : Endpoint) : Type := mkRequest {
  url : string;
  method : string;
  headers : list (string * string);
  body : RequestBody e
}.
Arguments mkRequest {e}.
Arguments url {e}.
Arguments method {e}.
Arguments headers {e}.
Arguments body {e}.

(** A response: its [ok] flag and its body, [None] when the body is not
    JSON and [response.json()] rejects. *)
Record Response (B : Type) : Type := mkResponse {
  ok : bool;
  json : option B
}.
Arguments mkResponse {B}.
Arguments ok {B}.
Arguments json {B}.

(** [fetch] rejects (the backend cannot be reached) or resolves. *)
Inductive FetchOutcome (B : Type) : Type :=
| Rejected
| Resolved (response : Response B).
Arguments Rejected {B}.
Arguments Resolved {B}.

Record Env : Type := mkEnv {
  authToken : option string;   (* localStorage.getItem('authToken') *)
  now : string;                (* new Date().toISOString() *)
  fetch : forall e : Endpoint, Request e -> FetchOutcome (ResponseBody e)
}.

(** *** Exceptions and the console *)

Inductive JsError : Type :=
| Error (message : string)
| TypeError (message : string)
| SyntaxError (message : string).

Inductive Completion (A : Type) : Type :=
| Return (a : A)
| Throw (e : JsError).
Arguments Return {A}.
Arguments Throw {A}.

(** A line of [console.error]: its label and the error printed after it. *)
Definition Console : Type := list (string * JsError).

(** An asynchronous function body, run to completion: it ends by returning
    or throwing, and appends to the console on the way. *)
Definition Async (A : Type) : Type := Console -> Completion A * Console.

Definition ret {A} (a : A) : Async A := fun c => (Return a, c).

Definition throw {A} (e : JsError) : Async A := fun c => (Throw e, c).

Definition bind {A B} (m : Async A) (k : A -> Async B) : Async B :=
  fun c =>
    match m c with
    | (Return a, c') => k a c'
    | (Throw e, c') => (Throw e, c')
    end.

Definition try_catch {A} (m : Async A) (handler : JsError -> Async A)
    : Async A :=
  fun c =>
    match m c with
    | (Return a, c') => (Return a, c')
    | (Throw e, c') => handler e c'
    end.

Definition console_error (label : string) (e : JsError) : Async unit :=
  fun c => (Return tt, (c ++ [(label, e)])%list).

Notation "x <- m ;; k" := (bind m (fun x => k))
  (at level 61, m at next level, right associativity).
Notation "m ;;; k" := (bind m (fun _ => k))
  (at level 61, right associativity).

(** [await fetch(...)]; a rejected [fetch] throws a [TypeError] whose message
    is the browser's. *)
Definition await_fetch (env : Env) {e : Endpoint} (r : Request e)
    : Async (Response (ResponseBody e)) :=
  match fetch env e r with
  | Rejected => throw (TypeError "Failed to fetch")
  | Resolved response => ret response
  end.

(** [await response.json()] *)
Definition await_json {B} (response : Response B) : Async B :=
  match json response with
  | Some b => ret b
  | None => throw (SyntaxError "Unexpected token in JSON")
  end.

(** Running a call on an empty console. *)
Definition run {A} (m : Async A) : Completion A * Console := m [].

Definition result {A} (m : Async A) : Completion A := fst (run m).

(** *** Helper functions *)

Definition getAuthToken (env : Env) : string :=
  match authToken env with
  | Some t => if Js.truthy t then t else EmptyString
  | None => EmptyString
  end.

Definition postRequest (env : Env) (e : Endpoint) (b : RequestBody e)
    : Request e :=
  {| url := AI_MODEL_BASE_URL ++ path e;
     method := "POST";
     headers := [("Content-Type", "application/json");
                 ("Authorization", "Bearer " ++ getAuthToken env)];
     body := b |}.

(** *** AI model functions *)

Definition generateAIScheduleSuggestions (env : Env)
    (preferences : DoctorPreferences)
    (currentAppointments : list Appointment)
    (pendingPatients : list Patient) : Async (list AIScheduleSuggestion) :=
  try_catch
    (response <- await_fetch env
        (postRequest env GenerateSuggestions
           (mkSuggestionsRequest preferences currentAppointments
              pendingPatients (now env))) ;;
     if negb (ok response) then throw (Error "AI model request failed")
     else
       suggestions <- await_json response ;;
       ret suggestions)
    (fun error =>
       console_error "Error generating AI suggestions:" error ;;;
       (* Return empty array if AI model is not available *)
       ret []).

Definition detectScheduleConflicts (env : Env)
    (doctorId : string)
    (appointments : list Appointment)
    (preferences : DoctorPreferences) : Async (list ScheduleConflict) :=
  try_catch
    (response <- await_fetch env
        (postRequest env DetectConflicts
           (mkConflictsRequest doctorId appointments preferences)) ;;
     if negb (ok response) then throw (Error "Conflict detection failed")
     else await_json response)
    (fun error =>
       console_error "Error detecting conflicts:" error ;;;
       ret []).

Definition getOptimalAppointmentTime (env : Env)
    (patientId : string)
    (priority : Priority)
    (preferences : DoctorPreferences)
    (currentSchedule : list Appointment) : Async OptimalTimeResult :=
  try_catch
    (response <- await_fetch env
        (postRequest env OptimalTime
           (mkOptimalTimeRequest patientId priority preferences
              currentSchedule)) ;;
     if negb (ok response)
     then throw (Error "Optimal time calculation failed")
     else await_json response)
    (fun error =>
       console_error "Error getting optimal time:" error ;;;
       throw error).

(** Validate doctor preferences before sending to AI model *)
Definition validateDoctorPreferences (preferences : DoctorPreferences)
    : bool :=
  (* Check required fields *)
  if negb (Js.truthy (doctorId preferences)) then false else
  (* Validate working hours *)
  let hasWorkingDay :=
    existsb (fun day => enabled day)
      (Object_values (workingHours preferences)) in
  if negb hasWorkingDay then false else
  (* Validate constraints *)
  if Js.ltNum (maxPatientsPerDay (constraints preferences)) (Js.Int 1)
  then false else
  if Js.ltNum (defaultConsultationDuration (constraints preferences))
       (Js.Int 5)
  then false else
  true.

(** Get default doctor preferences *)
Definition getDefaultDoctorPreferences (doctorId : string)
    : DoctorPreferences :=
  {| doctorId := doctorId;
     workingHours :=
       {| monday := mkDay "09:00" "17:00" true;
          tuesday := mkDay "09:00" "17:00" true;
          wednesday := mkDay "09:00" "17:00" true;
          thursday := mkDay "09:00" "17:00" true;
          friday := mkDay "09:00" "17:00" true;
          saturday := mkDay "09:00" "13:00" false;
          sunday := mkDay "09:00" "13:00" false |};
     constraints :=
       {| maxPatientsPerDay := Js.Int 20;
          defaultConsultationDuration := Js.Int 30;
          emergencyConsultationDuration := Js.Int 45;
          breakTimes := [mkBreak "12:00" "13:00"];   (* Lunch break *)
          bufferBetweenAppointments := Js.Int 5;
          minNoticeForAppointment := Js.Int 2;
          maxAdvanceBooking := Js.Int 90 |};
     aiPreferences :=
       {| prioritizeUrgentCases := true;
          autoAcceptHighConfidenceSuggestions := false;
          considerPatientHistory := true;
          optimizeForMinimalWaitTime := true;
          allowOverbooking := false;
          notifyOnConflicts := true |};
     specialtySettings := None |}.

(** The backend yields no suggestion: it cannot be reached, answers with
    an error status, sends a body that is not JSON, or sends an empty
    list. *)
Definition yieldsNoSuggestion
    (o : FetchOutcome (list AIScheduleSuggestion)) : bool :=
  match o with
  | Rejected => true
  | Resolved response =>
      negb (ok response)
      || match json response with
         | None => true
         | Some [] => true
         | Some (_ :: _) => false
         end
  end.

End AiModel.

(* ===================================================================== *)
(** ** [components/CalendarView.tsx]: the day view *)
(* ===================================================================== *)

Module Calendar.
Import Types.

(** [filterAppointmentsByDate(date)], with [dateStr] standing for
    [date.toISOString().split('T')[0]]. *)
Definition filterAppointmentsByDate (appointments : list Appointment)
    (dateStr : string) : list Appointment :=
  filter (fun apt => String.eqb (date apt) dateStr) appointments.

(** [Array.from({ length: 12 }, (_, i) => ...)]: 8 AM to 8 PM. *)
Definition timeSlots : list string :=
  map (fun i =>
         let hour := Z.of_nat i + 8 in
         Js.padStart 2 "0" (Js.toString (Js.Int hour)) ++ ":00")
      (seq 0 12).

(** The appointments shown in the row of one time slot. *)
Definition aptsAtTime (todayAppointments : list Appointment) (time : string)
    : list Appointment :=
  filter (fun apt => Js.le (startTime apt) time && Js.gt (endTime apt) time)
         todayAppointments.

(** [renderDayView]: one row per time slot, holding the slot label and the
    appointments drawn in it. *)
Definition renderDayView (appointments : list Appointment)
    (currentDateStr : string) : list (string * list Appointment) :=
  let todayAppointments :=
    filterAppointmentsByDate appointments currentDateStr in
  map (fun time => (time, aptsAtTime todayAppointments time)) timeSlots.

(** [handleDrop]: the arguments handed to [onAppointmentDrop]; a drop on a
    week or month cell carries no time slot and falls back to 09:00. *)
Definition handleDrop (appointmentId dateStr : string)
    (timeSlot : option string) : string * string * string :=
  let newStartTime :=
    match timeSlot with
    | Some t => if Js.truthy t then t else "09:00"
    | None => "09:00"
    end in
  (appointmentId, dateStr, newStartTime).

End Calendar.

(* ===================================================================== *)
(** ** [docs/DATABASE_SCHEMA.md]: the trigger [detect_schedule_conflicts] *)
(* ===================================================================== *)

Module Schema.
Import Types.

(** The two TIME columns of an appointment row, each as its offset from
    midnight. *)
Record TimeWindow : Type := mkWindow {
  start_time : Z;
  end_time : Z
}.

Record appointments_row : Type := mkRow {
  row_id : string;
  doctor_id : string;
  row_date : string;
  window : TimeWindow;
  row_status : option AppointmentStatus   (* the column is nullable *)
}.

Record schedule_conflicts_row : Type := mkConflictRow {
  conflict_doctor_id : string;
  conflict_type : ConflictType;
  appointment_ids : list string;
  description : string;
  conflict_severity : Severity
}.

(** The interval test of the trigger's WHERE clause, [a] being the stored
    row and [b] the row that fired the trigger:
    [start_time < NEW.end_time AND end_time > NEW.start_time]. *)
Definition overlaps (a b : TimeWindow) : bool :=
  (start_time a <? end_time b) && (end_time a >? start_time b).

Definition is_scheduled (s : option AppointmentStatus) : bool :=
  match s with
  | Some scheduled => true
  | _ => false
  end.

(** The rows the SELECT of the trigger aggregates. *)
Definition conflicting_rows (appointments : list appointments_row)
    (NEW : appointments_row) : list appointments_row :=
  filter (fun r =>
            String.eqb (doctor_id r) (doctor_id NEW)
            && String.eqb (row_date r) (row_date NEW)
            && is_scheduled (row_status r)
            && negb (String.eqb (row_id r) (row_id NEW))
            && overlaps (window r) (window NEW))
         appointments.

(** [detect_schedule_conflicts()], fired after an insert or update of [NEW]:
    the row it inserts into [schedule_conflicts], if any. *)
Definition detect_schedule_conflicts (appointments : list appointments_row)
    (NEW : appointments_row) : option schedule_conflicts_row :=
  let found := conflicting_rows appointments NEW in
  let conflict_count := Z.of_nat (List.length found) in
  let conflict_appointments := map row_id found in
  if conflict_count >? 0 then
    Some {| conflict_doctor_id := doctor_id NEW;
            conflict_type := overlap;
            appointment_ids := (conflict_appointments ++ [row_id NEW])%list;
            description :=
              "Appointment overlaps with "
              ++ Js.toString (Js.Int conflict_count)
              ++ " other appointment(s)";
            conflict_severity := high |}
  else None.

End Schema.

(* ===================================================================== *)
(** ** The gap rule of the conflict detector *)
(* ===================================================================== *)

Module Detector.
Import Types.

(** Modelled from the spec: the data model of the conflict detector.  The
    repository declares the detector's result type ([ScheduleConflict]) and
    fetches its output from the backend ([detectScheduleConflicts]); the
    detector itself is not among the sources.  A [TimeWindow] is a half-open
    interval in minutes since midnight. *)
Record TimeWindow : Type := mkWindow {
  start : Z;
  end_ : Z
}.

(** Modelled from the spec: the appointment record of the missing detector
    (identity, patient, doctor, calendar day, window, priority, status). *)
Record AppointmentRecord : Type := mkRecord {
  id : string;
  patientId : string;
  doctorId : string;
  date : string;
  window : TimeWindow;
  priority : Priority;
  status : AppointmentStatus
}.

(** Modelled from the spec: the derived conflict record of the missing
    detector. *)
Record ConflictRecord : Type := mkConflictRecord {
  kind : ConflictType;
  involvedAppointmentIds : list string;
  severity : Severity;
  description : string;
  suggestedResolution : option string
}.

(** Modelled from the spec: [gap] of the missing interval model, the signed
    distance between the earlier interval's end and the later interval's
    start. *)
Definition gap (a b : TimeWindow) : Z := start b - end_ a.

(** Modelled from the spec: only records whose status is scheduled take part
    in the missing detector's computation. *)
Definition isScheduled (a : AppointmentRecord) : bool :=
  match status a with
  | scheduled => true
  | _ => false
  end.

(** Modelled from the spec: the grouping key of the missing detector,
    (doctorId, date). *)
Definition sameGroup (doctor day : string) (a : AppointmentRecord) : bool :=
  String.eqb (doctorId a) doctor && String.eqb (date a) day.

(** Modelled from the spec: the group of the missing detector for one
    doctor and day, restricted to scheduled records. *)
Definition dayGroup (appointments : list AppointmentRecord)
    (doctor day : string) : list AppointmentRecord :=
  filter (fun a => isScheduled a && sameGroup doctor day a) appointments.

(** Modelled from the spec: the order of the missing detector's sweep, by
    start time, ties broken by appointment id, ascending. *)
Definition before (a b : AppointmentRecord) : bool :=
  (start (window a) <? start (window b))
  || ((start (window a) =? start (window b)) && Js.le (id a) (id b)).


(** Modelled from the spec: the sort of a group of the missing detector,
    written as an insertion sort along [before]. *)
Fixpoint insert (a : AppointmentRecord) (l : list AppointmentRecord)
    : list AppointmentRecord :=
  match l with
  | [] => [a]
  | b :: r => if before a b then a :: b :: r else b :: insert a r
  end.

(** Modelled from the spec: a group of the missing detector sorted by start
    time, then id. *)
Definition sortDay (l : list AppointmentRecord) : list AppointmentRecord :=
  fold_right insert [] l.

(** Modelled from the spec: the gap-too-small rule of the missing detector;
    two chronologically adjacent appointments whose gap is positive but less
    than [bufferMinutes] yield a record of severity medium. *)
Definition gapRecord (a b : AppointmentRecord) : ConflictRecord :=
  {| kind := gap_too_small;
     involvedAppointmentIds := [id a; id b];
     severity := medium;
     description := "Gap between appointments is smaller than the buffer";
     suggestedResolution :=
       Some "Move the later appointment to the next available slot of equal duration" |}.

(** Modelled from the spec: the sweep of the missing detector over the
    neighbours of a sorted group, for the gap-too-small rule. *)
Fixpoint sweepGaps (bufferMinutes : Z) (sorted : list AppointmentRecord)
    : list ConflictRecord :=
  match sorted with
  | a :: rest =>
      match rest with
      | b :: _ =>
          let g := gap (window a) (window b) in
          (if (0 <? g) && (g <? bufferMinutes) then [gapRecord a b] else [])
          ++ sweepGaps bufferMinutes rest
      | [] => []
      end
  | [] => []
  end%list.

(** Modelled from the spec: the (doctorId, date) keys by which the missing
    detector groups a batch, each once, in order of first appearance. *)
Fixpoint groupKeys (l : list AppointmentRecord) (seen : list (string * string))
    : list (string * string) :=
  match l with
  | [] => []
  | a :: r =>
      let k := (doctorId a, date a) in
      if existsb (fun k' => String.eqb (fst k') (fst k)
                            && String.eqb (snd k') (snd k)) seen
      then groupKeys r seen
      else k :: groupKeys r (k :: seen)
  end.

(** Modelled from the spec: the gap-too-small part of [detectConflicts] of
    the missing detector; group by (doctorId, date), sort each group, sweep
    the neighbours. *)
Definition detectGapConflicts (appointments : list AppointmentRecord)
    (bufferMinutes : Z) : list ConflictRecord :=
  flat_map (fun k =>
              sweepGaps bufferMinutes
                (sortDay (dayGroup appointments (fst k) (snd k))))
           (groupKeys appointments []).

End Detector.

(* ===================================================================== *)
(** ** Sample data: the demo records of [App.tsx] and a few backends *)
(* ===================================================================== *)

Module Demo.
Import Types AiModel.

Definition today : string := "2025-10-02".
Definition tomorrowStr : string := "2025-10-03".

Definition apt_001 : Appointment :=
  {| id := "apt-001"; patientId := "pat-002"; patientName := "Priya Sharma";
     Types.doctorId := "demo-doctor-1"; date := today;
     startTime := "09:00"; endTime := "09:30";
     priority := urgent; status := scheduled; type := "Follow-up";
     notes := Some "Review insulin dosage and blood sugar logs";
     location := Some "Room 203" |}.

Definition apt_002 : Appointment :=
  {| id := "apt-002"; patientId := "pat-001"; patientName := "John Anderson";
     Types.doctorId := "demo-doctor-1"; date := today;
     startTime := "14:00"; endTime := "14:30";
     priority := normal; status := scheduled; type := "Consultation";
     notes := Some "Blood pressure monitoring and medication review";
     location := Some "Room 203" |}.

Definition apt_003 : Appointment :=
  {| id := "apt-003"; patientId := "pat-003"; patientName := "Michael Chen";
     Types.doctorId := "demo-doctor-1"; date := tomorrowStr;
     startTime := "09:30"; endTime := "10:00";
     priority := normal; status := scheduled; type := "Follow-up";
     notes := Some "Asthma control assessment";
     location := Some "Room 204" |}.

Definition demoAppointments : list Appointment :=
  [apt_001; apt_002; apt_003].

Definition ai_001 : AIScheduleSuggestion :=
  {| suggestion_id := "ai-001"; suggestion_doctorId := "demo-doctor-1";
     suggestion_patientId := "pat-002";
     suggestion_patientName := "Priya Sharma";
     suggestedDate := tomorrowStr;
     suggestedStartTime := "16:00"; suggestedEndTime := "16:30";
     suggestion_priority := urgent;
     suggestion_reason := "Blood sugar levels showing concerning trends.";
     suggestion_confidence := (92 # 100)%Q;
     suggestion_status := pending;
     suggestion_conflicts := None;
     suggestion_createdAt := "2025-10-02T08:00:00.000Z" |}.

(** An appointment that overlaps [apt_001], and one whose start is not
    before its end. *)
Definition apt_overlapping : Appointment :=
  {| id := "apt-004"; patientId := "pat-003"; patientName := "Michael Chen";
     Types.doctorId := "demo-doctor-1"; date := today;
     startTime := "09:15"; endTime := "09:45";
     priority := normal; status := scheduled; type := "Consultation";
     notes := None; location := None |}.

Definition apt_malformed : Appointment :=
  {| id := "apt-005"; patientId := "pat-001"; patientName := "John Anderson";
     Types.doctorId := "demo-doctor-1"; date := today;
     startTime := "11:00"; endTime := "10:30";
     priority := normal; status := scheduled; type := "Consultation";
     notes := None; location := None |}.


(** Preferences with a corrupt constraint ([maxPatientsPerDay] is 0), and
    preferences with every working day switched off. *)
Definition withMaxPatients (p : DoctorPreferences) (n : Js.number)
    : DoctorPreferences :=
  let c := constraints p in
  {| AiModel.doctorId := AiModel.doctorId p;
     workingHours := workingHours p;
     constraints :=
       {| maxPatientsPerDay := n;
          defaultConsultationDuration := defaultConsultationDuration c;
          emergencyConsultationDuration := emergencyConsultationDuration c;
          breakTimes := breakTimes c;
          bufferBetweenAppointments := bufferBetweenAppointments c;
          minNoticeForAppointment := minNoticeForAppointment c;
          maxAdvanceBooking := maxAdvanceBooking c |};
     aiPreferences := aiPreferences p;
     specialtySettings := specialtySettings p |}.

Definition corruptPreferences : DoctorPreferences :=
  withMaxPatients (getDefaultDoctorPreferences "demo-doctor-1") (Js.Int 0).

Definition closedDay : WorkingDay := mkDay "09:00" "17:00" false.

Definition closedPreferences : DoctorPreferences :=
  let p := getDefaultDoctorPreferences "demo-doctor-1" in
  {| AiModel.doctorId := AiModel.doctorId p;
     workingHours :=
       mkWorkingHours closedDay closedDay closedDay closedDay closedDay
         closedDay closedDay;
     constraints := constraints p;
     aiPreferences := aiPreferences p;
     specialtySettings := specialtySettings p |}.

Definition conflict_001 : ScheduleConflict :=
  {| conflict_id := "conflict-001";
     conflict_type := overlap;
     conflict_appointments := ["apt-001"; "apt-004"];
     conflict_description := "Appointments overlap by 15 minutes";
     suggestedResolution := Some "Move second appointment to 2:00 PM";
     severity := medium |}.

(** A backend that answers every request with success, [ai_001] being its
    one suggestion and [conflict_001] its one conflict. *)
Definition backendUp : Env :=
  {| authToken := Some "token";
     now := "2025-10-02T08:00:00.000Z";
     fetch := fun e _ =>
       match e return FetchOutcome (ResponseBody e) with
       | GenerateSuggestions => Resolved (mkResponse true (Some [ai_001]))
       | DetectConflicts => Resolved (mkResponse true (Some [conflict_001]))
       | OptimalTime =>
           Resolved (mkResponse true
             (Some (mkOptimalTime tomorrowStr "16:00" "16:30" (92 # 100)%Q
                      "Earliest available slot")))
       end |}.




(** A backend that answers every request with an error status and no
    body. *)
Definition backendRefusing : Env :=
  {| authToken := Some "token";
     now := "2025-10-02T08:00:00.000Z";
     fetch := fun _ _ => Resolved (mkResponse false None) |}.

(** Three records of the detector's data model on one day: 09:00-09:30,
    09:35-10:00 and 09:45-10:00. *)
Definition rec_0900 : Detector.AppointmentRecord :=
  Detector.mkRecord "apt-a" "pat-001" "demo-doctor-1" today
    (Detector.mkWindow 540 570) normal scheduled.

Definition rec_0935 : Detector.AppointmentRecord :=
  Detector.mkRecord "apt-b" "pat-002" "demo-doctor-1" today
    (Detector.mkWindow 575 600) normal scheduled.

Definition rec_0945 : Detector.AppointmentRecord :=
  Detector.mkRecord "apt-c" "pat-003" "demo-doctor-1" today
    (Detector.mkWindow 585 600) normal scheduled.

End Demo.

(* ===================================================================== *)
(** ** Clock times as strings *)
(* ===================================================================== *)

Module Clock.

(** A clock time the way the drop handler prints it: two digits, a colon,
    two digits, the minutes below 60; the hours may pass 23. *)
Definition isClock (t : string) : bool :=
  match t with
  | String h1 (String h2 (String c (String m1 (String m2 EmptyString)))) =>
      Js.isDigit h1 && Js.isDigit h2 && (Js.code c =? 58)
      && Js.isDigit m1 && Js.isDigit m2
      && ((Js.code m1 - 48) * 10 + (Js.code m2 - 48) <? 60)
  | _ => false
  end.

(** The minutes since midnight such a string stands for. *)
Definition clockValue (t : string) : Z :=
  match t with
  | String h1 (String h2 (String _ (String m1 (String m2 _)))) =>
      ((Js.code h1 - 48) * 10 + (Js.code h2 - 48)) * 60
      + ((Js.code m1 - 48) * 10 + (Js.code m2 - 48))
  | _ => 0
  end.

(** The text of [newEndTime] for a given number of minutes. *)
Definition printClock (minutes : Js.number) : string :=
  Js.padStart 2 "0" (Js.toString (Js.floorDiv minutes 60))
  ++ ":" ++ Js.padStart 2 "0" (Js.toString (Js.rem minutes 60)).

End Clock.

(* ===================================================================== *)
(** ** [types/index.ts], the remaining interfaces *)
(* ===================================================================== *)

Module Records.
Import Types.

#[local] Unset Elimination Schemes.

(** A value of type [any] or [Record<string, any>]: whatever JSON holds. *)
Inductive Json : Type :=
| JNull
| JBool (b : bool)
| JNumber (q : Q)
| JString (s : string)
| JArray (items : list Json)
| JObject (fields : list (string * Json)).

#[local] Set Elimination Schemes.

Record Doctor : Type := mkDoctor {
  doctor_id : string;
  doctor_name : string;
  doctor_email : string;
  specialization : string;
  doctor_avatar : option string;
  doctor_phone : option string;
  hasCompletedSetup : option bool
}.

Record AiFlags : Type := mkAiFlags {
  hasEmergencyIndicators : bool;
  aiFlags_riskLevel : RiskLevel;
  extractedData : option (list (string * Json));
  summary : option string
}.

Record MedicalDocument : Type := mkDocument {
  document_id : string;
  document_patientId : string;
  fileName : string;
  fileType : string;
  uploadDate : string;
  size : Z;
  document_url : string;
  aiFlags : option AiFlags
}.

Inductive HealthEventType : Type :=
| vital | note | lab_result | device_feed.

Record HealthReviewEvent : Type := mkHealthEvent {
  event_id : string;
  event_patientId : string;
  event_timestamp : string;
  event_type : HealthEventType;
  event_data : list (string * Json);
  aiInsight : option string;
  flagged : bool
}.

Inductive NotificationType : Type :=
| notification_urgent | notification_info | notification_success
| notification_warning.

Record Notification : Type := mkNotification {
  notification_id : string;
  notification_doctorId : string;
  notification_type : NotificationType;
  title : string;
  message : string;
  notification_timestamp : string;
  read : bool;
  actionable : bool;
  actionLink : option string;
  relatedPatientId : option string;
  relatedAppointmentId : option string
}.

Record ParsedCommand : Type := mkParsed {
  action : string;
  entities : list (string * Json);
  parsed_confidence : Q
}.

Record NLPCommand : Type := mkCommand {
  command_id : string;
  command_doctorId : string;
  input : string;
  command_timestamp : string;
  parsed : ParsedCommand;
  preview : option string;
  command_status : ActionStatus;
  acceptedBy : option string;
  acceptedAt : option string
}.

Record DashboardStats : Type := mkStats {
  totalPatientsToday : Z;
  emergencyCases : Z;
  pendingFollowUps : Z;
  completedAppointments : Z;
  upcomingAppointments : Z;
  aiSuggestionsPending : Z
}.

Inductive SourceType : Type := manual | nlp | ai_suggestion.

Record AuditLogEntry : Type := mkAuditLogEntry {
  audit_id : string;
  audit_doctorId : string;
  audit_action : string;
  details : string;
  audit_timestamp : string;
  sourceType : SourceType;
  sourceId : option string
}.

End Records.

(* ===================================================================== *)
(** ** [components/CalendarView.tsx]: the week and month grids *)
(* ===================================================================== *)

Module CalendarGrid.
Import Types Calendar.

(** A cell of the week view: every appointment of the day, whatever its
    time.  [dayStr] stands for [day.toISOString().split('T')[0]]. *)
Definition weekCell (appointments : list Appointment) (dayStr : string)
    : list Appointment :=
  filterAppointmentsByDate appointments dayStr.

(** A cell of the month view: the first two appointments of the day
    ([slice(0, 2)]) and, when there are more than two, the number in the
    "+n more" line. *)
Definition monthCell (appointments : list Appointment) (dayStr : string)
    : list Appointment * option Z :=
  let dayAppointments := filterAppointmentsByDate appointments dayStr in
  (firstn 2 dayAppointments,
   if Z.of_nat (List.length dayAppointments) >? 2
   then Some (Z.of_nat (List.length dayAppointments) - 2)
   else None).

End CalendarGrid.

(* ===================================================================== *)
(** ** [components/NotificationPanel.tsx] *)
(* ===================================================================== *)

Module NotificationPanel.
Import Records.

(** [notifications.filter(n => !n.read).length] *)
Definition unreadCount (notifications : list Notification) : Z :=
  Z.of_nat (List.length (filter (fun n => negb (read n)) notifications)).

(** [handleNotificationClick]: the calls it makes, first to [onMarkAsRead]
    (for an unread notification only), then to [onNotificationClick] when
    that prop is given. *)
Inductive PanelCall : Type :=
| MarkAsRead (id : string)
| NotificationClick (notification : Notification).

Definition handleNotificationClick (hasOnNotificationClick : bool)
    (notification : Notification) : list PanelCall :=
  ((if negb (read notification)
    then [MarkAsRead (notification_id notification)] else [])
   ++ (if hasOnNotificationClick
       then [NotificationClick notification] else []))%list.

End NotificationPanel.

(* ===================================================================== *)
(** ** [components/PatientManagementPanel.tsx] *)
(* ===================================================================== *)

Module PatientPanel.
Import Types.

(** [toLowerCase] on one code unit below 256: A-Z, and the capital letters
    of Latin-1 (all of C0-DE but the multiplication sign).  On such strings
    [toLowerCase] lowers each code unit by itself; beyond Latin-1 it does
    not (a capital sigma is lowered by its place in the word), and those
    strings are outside [string]. *)
Definition lowerChar (c : ascii) : ascii :=
  let n := Js.code c in
  if ((65 <=? n) && (n <=? 90))
     || ((192 <=? n) && (n <=? 222) && negb (n =? 215))
  then ascii_of_N (Z.to_N (n + 32))
  else c.

Fixpoint toLowerCase (s : string) : string :=
  match s with
  | EmptyString => EmptyString
  | String c r => String (lowerChar c) (toLowerCase r)
  end.

(** Every code unit of [s] is below 128. *)
Fixpoint isAscii (s : string) : bool :=
  match s with
  | EmptyString => true
  | String c r => (Js.code c <? 128) && isAscii r
  end.

(** [s.includes(q)]: [q] occurs in [s] at some position. *)
Fixpoint includes (s q : string) : bool :=
  String.prefix q s
  || match s with
     | EmptyString => false
     | String _ r => includes r q
     end.

Definition matches (searchQuery : string) (patient : Patient) : bool :=
  includes (toLowerCase (patient_name patient)) (toLowerCase searchQuery)
  || includes (toLowerCase (patient_condition patient))
       (toLowerCase searchQuery)
  || includes (toLowerCase (patient_email patient))
       (toLowerCase searchQuery).

Definition filteredPatients (patients : list Patient) (searchQuery : string)
    : list Patient :=
  filter (matches searchQuery) patients.

(** [const riskOrder = { high: 0, medium: 1, low: 2, none: 3 }] *)
Definition riskOrder (r : RiskLevel) : Z :=
  match r with
  | risk_high => 0
  | risk_medium => 1
  | risk_low => 2
  | risk_none => 3
  end.


(** The comparator handed to [sort]. *)
Definition compareRisk (a b : Patient) : Z :=
  riskOrder (patient_riskLevel a) - riskOrder (patient_riskLevel b).

(** [Array.prototype.sort] with a comparator.  The language fixes the result
    for a comparator that orders consistently, as [compareRisk] does: the
    elements in ascending order, equal ones in their original order.  An
    insertion from the right that stops at the first element not smaller
    computes it. *)
Fixpoint insertSorted {A} (compare : A -> A -> Z) (x : A) (l : list A)
    : list A :=
  match l with
  | [] => [x]
  | y :: r =>
      if compare x y <=? 0 then x :: y :: r
      else y :: insertSorted compare x r
  end.

Definition sort {A} (compare : A -> A -> Z) (l : list A) : list A :=
  fold_right (insertSorted compare) [] l.

(** Sort by risk level (high first) *)
Definition sortedPatients (patients : list Patient) (searchQuery : string)
    : list Patient :=
  sort compareRisk (filteredPatients patients searchQuery).

End PatientPanel.

(* ===================================================================== *)
(** ** [components/NLPCommandInterface.tsx] *)
(* ===================================================================== *)

Module NlpInterface.
Import Types Records AiModel.

Fixpoint reverse (s acc : string) : string :=
  match s with
  | EmptyString => acc
  | String c r => reverse r (String c acc)
  end.

(** [String.prototype.trim] *)
Definition trim (s : string) : string :=
  reverse (Js.trimStart (reverse (Js.trimStart s) EmptyString)) EmptyString.

Record PanelState : Type := mkPanelState {
  panel_input : string;
  isProcessing : bool;
  currentCommand : option NLPCommand;
  commandHistory : list NLPCommand
}.

(** What a handler of the panel leaves behind: the state, the lines written
    with [console.error] and the calls made to the props. *)
Inductive PropCall : Type :=
| CommandSubmit (command : string)
| CommandAccept (commandId : string)
| CommandReject (commandId : string).

Record Outcome : Type := mkOutcome {
  state : PanelState;
  console : Console;
  calls : list PropCall
}.

(** [handleSubmit]; [onCommandSubmit] gives the completion of the prop of
    that name for a command text. *)
Definition handleSubmit (onCommandSubmit : string -> Completion NLPCommand)
    (st : PanelState) : Outcome :=
  if negb (Js.truthy (trim (panel_input st))) || isProcessing st
  then mkOutcome st [] []
  else
    match onCommandSubmit (panel_input st) with
    | Return parsedCommand =>
        mkOutcome
          {| panel_input := EmptyString;
             isProcessing := false;
             currentCommand := Some parsedCommand;
             commandHistory :=
               firstn 10 (parsedCommand :: commandHistory st) |}
          [] [CommandSubmit (panel_input st)]
    | Throw error =>
        mkOutcome
          {| panel_input := panel_input st;
             isProcessing := false;
             currentCommand := currentCommand st;
             commandHistory := commandHistory st |}
          [("Error processing command:", error)]
          [CommandSubmit (panel_input st)]
    end.

Definition handleAccept (st : PanelState) : Outcome :=
  match currentCommand st with
  | None => mkOutcome st [] []
  | Some command =>
      mkOutcome
        {| panel_input := panel_input st;
           isProcessing := isProcessing st;
           currentCommand := None;
           commandHistory := commandHistory st |}
        [] [CommandAccept (command_id command)]
  end.

Definition handleReject (st : PanelState) : Outcome :=
  match currentCommand st with
  | None => mkOutcome st [] []
  | Some command =>
      mkOutcome
        {| panel_input := panel_input st;
           isProcessing := isProcessing st;
           currentCommand := None;
           commandHistory := commandHistory st |}
        [] [CommandReject (command_id command)]
  end.

(** Setting the input, by typing or by a click on an example. *)
Definition setInput (st : PanelState) (text : string) : PanelState :=
  {| panel_input := text;
     isProcessing := isProcessing st;
     currentCommand := currentCommand st;
     commandHistory := commandHistory st |}.

(** The state the panel starts in. *)
Definition initial : PanelState :=
  {| panel_input := EmptyString;
     isProcessing := false;
     currentCommand := None;
     commandHistory := [] |}.

(** The states the panel can be brought into. *)
Inductive reachable : PanelState -> Prop :=
| reach_initial : reachable initial
| reach_input st text : reachable st -> reachable (setInput st text)
| reach_submit st onCommandSubmit :
    reachable st -> reachable (state (handleSubmit onCommandSubmit st))
| reach_accept st : reachable st -> reachable (state (handleAccept st))
| reach_reject st : reachable st -> reachable (state (handleReject st)).

(** Every character is white space. *)
Fixpoint allWhite (s : string) : bool :=
  match s with
  | EmptyString => true
  | String c r => Js.isWhite c && allWhite r
  end.


End NlpInterface.

(* ===================================================================== *)
(** ** [components/DoctorSettingsPanel.tsx] *)
(* ===================================================================== *)

Module Settings.
Import AiModel.

Record PanelState : Type := mkPanelState {
  preferences : DoctorPreferences;
  isSaving : bool;
  hasChanges : bool
}.

(** [const days = ['monday', ..., 'sunday'] as const] *)
Inductive Day : Type :=
| Monday | Tuesday | Wednesday | Thursday | Friday | Saturday | Sunday.

Definition days : list Day :=
  [Monday; Tuesday; Wednesday; Thursday; Friday; Saturday; Sunday].

(** [workingHours[day]] *)
Definition dayOf (w : WorkingHours) (day : Day) : WorkingDay :=
  match day with
  | Monday => monday w
  | Tuesday => tuesday w
  | Wednesday => wednesday w
  | Thursday => thursday w
  | Friday => friday w
  | Saturday => saturday w
  | Sunday => sunday w
  end.

(** [{ ...workingHours, [day]: d }] *)
Definition withDay (w : WorkingHours) (day : Day) (d : WorkingDay)
    : WorkingHours :=
  {| monday := match day with Monday => d | _ => monday w end;
     tuesday := match day with Tuesday => d | _ => tuesday w end;
     wednesday := match day with Wednesday => d | _ => wednesday w end;
     thursday := match day with Thursday => d | _ => thursday w end;
     friday := match day with Friday => d | _ => friday w end;
     saturday := match day with Saturday => d | _ => saturday w end;
     sunday := match day with Sunday => d | _ => sunday w end |}.

(** The field of a day and its new value, as the three call sites pass
    them. *)
Inductive DayField : Type :=
| field_start (value : string)
| field_end (value : string)
| field_enabled (value : bool).

(** [{ ...day, [field]: value }] *)
Definition withDayField (d : WorkingDay) (f : DayField) : WorkingDay :=
  match f with
  | field_start v => mkDay v (end_ d) (enabled d)
  | field_end v => mkDay (start d) v (enabled d)
  | field_enabled v => mkDay (start d) (end_ d) v
  end.

Definition withWorkingHours (p : DoctorPreferences) (w : WorkingHours)
    : DoctorPreferences :=
  {| doctorId := doctorId p; workingHours := w;
     constraints := constraints p; aiPreferences := aiPreferences p;
     specialtySettings := specialtySettings p |}.

Definition withConstraints (p : DoctorPreferences) (c : Constraints)
    : DoctorPreferences :=
  {| doctorId := doctorId p; workingHours := workingHours p;
     constraints := c; aiPreferences := aiPreferences p;
     specialtySettings := specialtySettings p |}.

Definition withAiPreferences (p : DoctorPreferences) (a : AiPreferences)
    : DoctorPreferences :=
  {| doctorId := doctorId p; workingHours := workingHours p;
     constraints := constraints p; aiPreferences := a;
     specialtySettings := specialtySettings p |}.

Definition handleWorkingHoursChange (st : PanelState) (day : Day)
    (f : DayField) : PanelState :=
  let prev := preferences st in
  {| preferences :=
       withWorkingHours prev
         (withDay (workingHours prev) day
            (withDayField (dayOf (workingHours prev) day) f));
     isSaving := isSaving st;
     hasChanges := true |}.

(** The numeric constraints, by the key the call sites pass. *)
Inductive ConstraintField : Type :=
| key_maxPatientsPerDay
| key_defaultConsultationDuration
| key_emergencyConsultationDuration
| key_bufferBetweenAppointments
| key_minNoticeForAppointment
| key_maxAdvanceBooking.

(** [{ ...constraints, [field]: value }] *)
Definition withConstraintField (c : Constraints) (field : ConstraintField)
    (value : Js.number) : Constraints :=
  {| maxPatientsPerDay :=
       match field with
       | key_maxPatientsPerDay => value | _ => maxPatientsPerDay c end;
     defaultConsultationDuration :=
       match field with
       | key_defaultConsultationDuration => value
       | _ => defaultConsultationDuration c end;
     emergencyConsultationDuration :=
       match field with
       | key_emergencyConsultationDuration => value
       | _ => emergencyConsultationDuration c end;
     breakTimes := breakTimes c;
     bufferBetweenAppointments :=
       match field with
       | key_bufferBetweenAppointments => value
       | _ => bufferBetweenAppointments c end;
     minNoticeForAppointment :=
       match field with
       | key_minNoticeForAppointment => value
       | _ => minNoticeForAppointment c end;
     maxAdvanceBooking :=
       match field with
       | key_maxAdvanceBooking => value | _ => maxAdvanceBooking c end |}.

(** [constraints[field]] *)
Definition readConstraint (c : Constraints) (field : ConstraintField)
    : Js.number :=
  match field with
  | key_maxPatientsPerDay => maxPatientsPerDay c
  | key_defaultConsultationDuration => defaultConsultationDuration c
  | key_emergencyConsultationDuration => emergencyConsultationDuration c
  | key_bufferBetweenAppointments => bufferBetweenAppointments c
  | key_minNoticeForAppointment => minNoticeForAppointment c
  | key_maxAdvanceBooking => maxAdvanceBooking c
  end.

Definition handleConstraintChange (st : PanelState)
    (field : ConstraintField) (value : Js.number) : PanelState :=
  let prev := preferences st in
  {| preferences :=
       withConstraints prev
         (withConstraintField (constraints prev) field value);
     isSaving := isSaving st;
     hasChanges := true |}.

(** The [onChange] of a number input: the text of the input goes through
    [parseInt]. *)
Definition onNumberInput (st : PanelState) (field : ConstraintField)
    (text : string) : PanelState :=
  handleConstraintChange st field (Js.parseInt (Some text)).

Definition withBreakTimes (c : Constraints) (b : list BreakTime)
    : Constraints :=
  {| maxPatientsPerDay := maxPatientsPerDay c;
     defaultConsultationDuration := defaultConsultationDuration c;
     emergencyConsultationDuration := emergencyConsultationDuration c;
     breakTimes := b;
     bufferBetweenAppointments := bufferBetweenAppointments c;
     minNoticeForAppointment := minNoticeForAppointment c;
     maxAdvanceBooking := maxAdvanceBooking c |}.

Definition addBreakTime (st : PanelState) : PanelState :=
  let prev := preferences st in
  {| preferences :=
       withConstraints prev
         (withBreakTimes (constraints prev)
            (breakTimes (constraints prev) ++ [mkBreak "12:00" "13:00"]));
     isSaving := isSaving st;
     hasChanges := true |}.

(** [breakTimes.filter((_, i) => i !== index)] *)
Fixpoint removeAt {A} (index : nat) (l : list A) : list A :=
  match l with
  | [] => []
  | x :: r =>
      match index with
      | O => r
      | S i => x :: removeAt i r
      end
  end.

Definition removeBreakTime (st : PanelState) (index : nat) : PanelState :=
  let prev := preferences st in
  {| preferences :=
       withConstraints prev
         (withBreakTimes (constraints prev)
            (removeAt index (breakTimes (constraints prev))));
     isSaving := isSaving st;
     hasChanges := true |}.

End Settings.

(* ===================================================================== *)
(** ** Handler bodies with state *)
(* ===================================================================== *)

Module Fx.
Import AiModel.

(** The body of a handler or of an asynchronous function, run to completion
    over a state [S]: it ends by returning or throwing. *)
Definition M (S A : Type) : Type := S -> Completion A * S.

Definition pure {S A} (a : A) : M S A := fun s => (Return a, s).


Definition bind {S A B} (m : M S A) (k : A -> M S B) : M S B :=
  fun s =>
    match m s with
    | (Return a, s') => k a s'
    | (Throw e, s') => (Throw e, s')
    end.

(** [try { m } catch (error) { handler }] *)
Definition catch {S A} (m : M S A) (handler : JsError -> M S A) : M S A :=
  fun s =>
    match m s with
    | (Return a, s') => (Return a, s')
    | (Throw e, s') => handler e s'
    end.

(** [try { m } finally { cleanup }] *)
Definition finally {S A} (m : M S A) (cleanup : M S unit) : M S A :=
  fun s =>
    match m s with
    | (r, s') =>
        match cleanup s' with
        | (Return _, s'') => (r, s'')
        | (Throw e, s'') => (Throw e, s'')
        end
    end.

Definition modify {S} (f : S -> S) : M S unit := fun s => (Return tt, f s).

(** [promise.catch(() => fallback)] *)
Definition orElse {S A} (m : M S A) (fallback : A) : M S A :=
  catch m (fun _ => pure fallback).

(** A body over a part [S] of the state [T], run over [T]. *)
Definition zoom {S T A} (get : T -> S) (set : S -> T -> T) (m : M S A)
    : M T A :=
  fun t => match m (get t) with (r, s') => (r, set s' t) end.

Notation "x <-- m ;; k" := (bind m (fun x => k))
  (at level 61, m at next level, right associativity).
Notation "m >>> k" := (bind m (fun _ => k))
  (at level 61, right associativity).

End Fx.

(* ===================================================================== *)
(** ** [lib/api.ts] *)
(* ===================================================================== *)

Module Api.
Import Types Records AiModel Fx.

Definition API_BASE_URL : string := "http://localhost:8000/api".

(** The functions of the file that go through [apiRequest], and
    [uploadDocument], which calls [fetch] itself. *)
Inductive Call : Type :=
| call_login | call_getCurrentDoctor | call_logout
| call_getDashboardStats
| call_getAppointments | call_getAppointmentById | call_deleteAppointment
| call_getPatients | call_getPatientById
| call_getAISuggestions | call_acceptAISuggestion | call_rejectAISuggestion
| call_getScheduleConflicts
| call_getPatientDocuments | call_uploadDocument
| call_parseNLPCommand | call_executeNLPCommand | call_getAuditLog
| call_getNotifications | call_markNotificationAsRead
| call_getHealthReviewEvents
| call_getDoctorPreferences | call_saveDoctorPreferences.

Record LoginResult : Type := mkLoginResult {
  token : string;
  doctor : Doctor
}.

(** [File]: what the program reads of it. *)
Record File : Type := mkFile {
  file_name : string;
  file_type : string;
  file_size : Z
}.

(** What [response.json()] is declared to resolve to; [Json] where the
    function is declared [Promise<void>] and the value is not looked at. *)
Definition Result (c : Call) : Type :=
  match c with
  | call_login => LoginResult
  | call_getCurrentDoctor => Doctor
  | call_logout => Json
  | call_getDashboardStats => DashboardStats
  | call_getAppointments => list Appointment
  | call_getAppointmentById => option Appointment
  | call_deleteAppointment => Json
  | call_getPatients => list Patient
  | call_getPatientById => option Patient
  | call_getAISuggestions => list AIScheduleSuggestion
  | call_acceptAISuggestion => AIScheduleSuggestion
  | call_rejectAISuggestion => AIScheduleSuggestion
  | call_getScheduleConflicts => list ScheduleConflict
  | call_getPatientDocuments => list MedicalDocument
  | call_uploadDocument => MedicalDocument
  | call_parseNLPCommand => NLPCommand
  | call_executeNLPCommand => Json
  | call_getAuditLog => list AuditLogEntry
  | call_getNotifications => list Notification
  | call_markNotificationAsRead => Json
  | call_getHealthReviewEvents => list HealthReviewEvent
  | call_getDoctorPreferences => DoctorPreferences
  | call_saveDoctorPreferences => Json
  end.

(** What is handed to [JSON.stringify], or the form data of an upload. *)
Inductive Payload : Type :=
| LoginPayload (email password : string)
| ParsePayload (command doctorId : string)
| ExecutePayload (commandId : string)
| PreferencesPayload (preferences : DoctorPreferences)
| FormData (file : File).

Record RequestInit : Type := mkInit {
  init_method : option string;
  init_body : option Payload
}.

(** [options = {}] *)
Definition noOptions : RequestInit := mkInit None None.

Record ApiRequest : Type := mkApiRequest {
  api_url : string;
  api_method : option string;
  api_headers : list (string * string);
  api_body : option Payload
}.

(** A response: its [ok] flag, its status text and its body, [None] when
    the body is not JSON and [response.json()] rejects. *)
Record ApiResponse (B : Type) : Type := mkApiResponse {
  api_ok : bool;
  statusText : string;
  api_json : option B
}.
Arguments mkApiResponse {B}.
Arguments api_ok {B}.
Arguments statusText {B}.
Arguments api_json {B}.

(** [fetch] rejects (the backend cannot be reached) or resolves. *)
Inductive FetchResult (B : Type) : Type :=
| Unreachable
| Answered (response : ApiResponse B).
Arguments Unreachable {B}.
Arguments Answered {B}.

(** What the backend answers to a request. *)
Definition Backend : Type :=
  forall c : Call, ApiRequest -> FetchResult (Result c).

(** The browser, as far as this file touches it: the token kept in
    [localStorage], and the requests that went out. *)
Record Browser : Type := mkBrowser {
  authTokenItem : option string;   (* localStorage.getItem('authToken') *)
  sent : list ApiRequest
}.

(** [localStorage.getItem('authToken') || ''] *)
Definition getAuthToken (b : Browser) : string :=
  match authTokenItem b with
  | Some t => if Js.truthy t then t else EmptyString
  | None => EmptyString
  end.

(** [await fetch(...)], [if (!response.ok) throw new Error(message)],
    [return response.json()] *)
Definition fetchJson (backend : Backend) (c : Call) (request : ApiRequest)
    (message : ApiResponse (Result c) -> string) : M Browser (Result c) :=
  fun b =>
    let b' := {| authTokenItem := authTokenItem b;
                 sent := (sent b ++ [request])%list |} in
    match backend c request with
    | Unreachable => (Throw (TypeError "Failed to fetch"), b')
    | Answered response =>
        if negb (api_ok response)
        then (Throw (Error (message response)), b')
        else
          match api_json response with
          | Some value => (Return value, b')
          | None => (Throw (SyntaxError "Unexpected token in JSON"), b')
          end
    end.

Definition apiRequest (backend : Backend) (c : Call) (endpoint : string)
    (options : RequestInit) : M Browser (Result c) :=
  fun b =>
    fetchJson backend c
      {| api_url := API_BASE_URL ++ endpoint;
         api_method := init_method options;
         api_headers :=
           [("Content-Type", "application/json");
            ("Authorization", "Bearer " ++ getAuthToken b)];
         api_body := init_body options |}
      (fun response => "API request failed: " ++ statusText response)
      b.

(** *** Authentication *)

Definition login (backend : Backend) (email password : string)
    : M Browser LoginResult :=
  apiRequest backend call_login "/auth/login"
    (mkInit (Some "POST") (Some (LoginPayload email password))).

Definition getCurrentDoctor (backend : Backend) : M Browser Doctor :=
  apiRequest backend call_getCurrentDoctor "/auth/me" noOptions.

Definition logout (backend : Backend) : M Browser unit :=
  apiRequest backend call_logout "/auth/logout"
    (mkInit (Some "POST") None) >>>
  (* localStorage.removeItem('authToken') *)
  modify (fun b => {| authTokenItem := None; sent := sent b |}).

(** *** Dashboard, appointments, patients *)

Definition getDashboardStats (backend : Backend) (doctorId : string)
    : M Browser DashboardStats :=
  apiRequest backend call_getDashboardStats
    ("/dashboard/stats?doctorId=" ++ doctorId) noOptions.

Definition getAppointments (backend : Backend)
    (doctorId startDate endDate : string) : M Browser (list Appointment) :=
  apiRequest backend call_getAppointments
    ("/appointments?doctorId=" ++ doctorId ++ "&startDate=" ++ startDate
     ++ "&endDate=" ++ endDate)
    noOptions.

Definition getAppointmentById (backend : Backend) (id : string)
    : M Browser (option Appointment) :=
  apiRequest backend call_getAppointmentById ("/appointments/" ++ id)
    noOptions.

Definition deleteAppointment (backend : Backend) (id : string)
    : M Browser Json :=
  apiRequest backend call_deleteAppointment ("/appointments/" ++ id)
    (mkInit (Some "DELETE") None).

Definition getPatients (backend : Backend) (doctorId : string)
    : M Browser (list Patient) :=
  apiRequest backend call_getPatients ("/patients?doctorId=" ++ doctorId)
    noOptions.

Definition getPatientById (backend : Backend) (id : string)
    : M Browser (option Patient) :=
  apiRequest backend call_getPatientById ("/patients/" ++ id) noOptions.

(** *** AI scheduling *)

Definition getAISuggestions (backend : Backend) (doctorId : string)
    (status : option string) : M Browser (list AIScheduleSuggestion) :=
  let query :=
    match status with
    | Some s =>
        if Js.truthy s
        then "?doctorId=" ++ doctorId ++ "&status=" ++ s
        else "?doctorId=" ++ doctorId
    | None => "?doctorId=" ++ doctorId
    end in
  apiRequest backend call_getAISuggestions ("/ai-suggestions" ++ query)
    noOptions.

Definition acceptAISuggestion (backend : Backend) (id : string)
    : M Browser AIScheduleSuggestion :=
  apiRequest backend call_acceptAISuggestion
    ("/ai-suggestions/" ++ id ++ "/accept") (mkInit (Some "PUT") None).

Definition rejectAISuggestion (backend : Backend) (id : string)
    : M Browser AIScheduleSuggestion :=
  apiRequest backend call_rejectAISuggestion
    ("/ai-suggestions/" ++ id ++ "/reject") (mkInit (Some "PUT") None).

Definition getScheduleConflicts (backend : Backend) (doctorId : string)
    : M Browser (list ScheduleConflict) :=
  apiRequest backend call_getScheduleConflicts
    ("/schedule-conflicts?doctorId=" ++ doctorId) noOptions.

(** *** Documents *)

Definition getPatientDocuments (backend : Backend) (patientId : string)
    : M Browser (list MedicalDocument) :=
  apiRequest backend call_getPatientDocuments
    ("/patients/" ++ patientId ++ "/documents") noOptions.

Definition uploadDocument (backend : Backend) (patientId : string)
    (file : File) : M Browser MedicalDocument :=
  fun b =>
    fetchJson backend call_uploadDocument
      {| api_url :=
           API_BASE_URL ++ "/patients/" ++ patientId ++ "/documents/upload";
         api_method := Some "POST";
         api_headers := [("Authorization", "Bearer " ++ getAuthToken b)];
         api_body := Some (FormData file) |}
      (fun _ => "Document upload failed")
      b.

(** *** Commands, audit log, notifications, health events, preferences *)

Definition parseNLPCommand (backend : Backend) (command doctorId : string)
    : M Browser NLPCommand :=
  apiRequest backend call_parseNLPCommand "/nlp/parse"
    (mkInit (Some "POST") (Some (ParsePayload command doctorId))).

Definition executeNLPCommand (backend : Backend) (commandId : string)
    : M Browser Json :=
  apiRequest backend call_executeNLPCommand "/nlp/execute"
    (mkInit (Some "POST") (Some (ExecutePayload commandId))).

Definition getAuditLog (backend : Backend) (doctorId : string)
    : M Browser (list AuditLogEntry) :=
  apiRequest backend call_getAuditLog ("/nlp/audit-log?doctorId=" ++ doctorId)
    noOptions.

Definition getNotifications (backend : Backend) (doctorId : string)
    : M Browser (list Notification) :=
  apiRequest backend call_getNotifications
    ("/notifications?doctorId=" ++ doctorId) noOptions.

Definition markNotificationAsRead (backend : Backend) (id : string)
    : M Browser Json :=
  apiRequest backend call_markNotificationAsRead
    ("/notifications/" ++ id ++ "/read") (mkInit (Some "PUT") None).

Definition getHealthReviewEvents (backend : Backend) (patientId : string)
    : M Browser (list HealthReviewEvent) :=
  apiRequest backend call_getHealthReviewEvents
    ("/patients/" ++ patientId ++ "/health-events") noOptions.

Definition getDoctorPreferences (backend : Backend) (doctorId : string)
    : M Browser DoctorPreferences :=
  apiRequest backend call_getDoctorPreferences
    ("/doctors/" ++ doctorId ++ "/preferences") noOptions.

Definition saveDoctorPreferences (backend : Backend) (doctorId : string)
    (preferences : DoctorPreferences) : M Browser Json :=
  apiRequest backend call_saveDoctorPreferences
    ("/doctors/" ++ doctorId ++ "/preferences")
    (mkInit (Some "PUT") (Some (PreferencesPayload preferences))).

End Api.

(* ===================================================================== *)
(** ** [services/aiModel.ts]: commands, documents, no-shows *)
(* ===================================================================== *)

Module AiService.
Import Types Records AiModel.

Inductive ServiceEndpoint : Type :=
| ParseCommand | AnalyzeDocument | PredictNoShow.

Definition servicePath (e : ServiceEndpoint) : string :=
  match e with
  | ParseCommand => "/parse-command"
  | AnalyzeDocument => "/analyze-document"
  | PredictNoShow => "/predict-no-show"
  end.

Record CommandContext : Type := mkContext {
  context_patients : list Patient;
  context_appointments : list Appointment
}.

Record ParseCommandRequest : Type := mkParseCommandRequest {
  preq_command : string;
  preq_doctorId : string;
  preq_context : CommandContext
}.

Record AnalyzeDocumentRequest : Type := mkAnalyzeDocumentRequest {
  areq_patientId : string;
  areq_fileUrl : string;
  areq_fileType : string
}.

Record PredictNoShowRequest : Type := mkPredictNoShowRequest {
  nreq_patientId : string;
  nreq_appointmentDate : string;
  nreq_appointmentTime : string
}.

Record DocumentAnalysis : Type := mkAnalysis {
  analysis_hasEmergencyIndicators : bool;
  analysis_riskLevel : RiskLevel;
  analysis_extractedData : list (string * Json);
  analysis_summary : string
}.

(** The body of a no-show prediction, of which [probability] is read. *)
Record NoShowPrediction : Type := mkPrediction {
  probability : Q
}.

Definition ServiceRequestBody (e : ServiceEndpoint) : Type :=
  match e with
  | ParseCommand => ParseCommandRequest
  | AnalyzeDocument => AnalyzeDocumentRequest
  | PredictNoShow => PredictNoShowRequest
  end.

Definition ServiceResponseBody (e : ServiceEndpoint) : Type :=
  match e with
  | ParseCommand => NLPCommand
  | AnalyzeDocument => DocumentAnalysis
  | PredictNoShow => NoShowPrediction
  end.

Record ServiceRequest (e : ServiceEndpoint) : Type := mkServiceRequest {
  service_url : string;
  service_method : string;
  service_headers : list (string * string);
  service_body : ServiceRequestBody e
}.
Arguments mkServiceRequest {e}.
Arguments service_url {e}.
Arguments service_method {e}.
Arguments service_headers {e}.
Arguments service_body {e}.

Record ServiceEnv : Type := mkServiceEnv {
  service_authToken : option string;  (* localStorage.getItem('authToken') *)
  service_fetch :
    forall e : ServiceEndpoint,
      ServiceRequest e -> FetchOutcome (ServiceResponseBody e)
}.

Definition serviceToken (env : ServiceEnv) : string :=
  match service_authToken env with
  | Some t => if Js.truthy t then t else EmptyString
  | None => EmptyString
  end.

Definition servicePost (env : ServiceEnv) (e : ServiceEndpoint)
    (b : ServiceRequestBody e) : ServiceRequest e :=
  {| service_url := AI_MODEL_BASE_URL ++ servicePath e;
     service_method := "POST";
     service_headers :=
       [("Content-Type", "application/json");
        ("Authorization", "Bearer " ++ serviceToken env)];
     service_body := b |}.

Definition await_service (env : ServiceEnv) {e : ServiceEndpoint}
    (r : ServiceRequest e) : Async (Response (ServiceResponseBody e)) :=
  match service_fetch env e r with
  | Rejected => throw (TypeError "Failed to fetch")
  | Resolved response => ret response
  end.


Definition analysisUnavailable : DocumentAnalysis :=
  {| analysis_hasEmergencyIndicators := false;
     analysis_riskLevel := risk_none;
     analysis_extractedData := [];
     analysis_summary := "Analysis unavailable" |}.

Definition analyzeDocument (env : ServiceEnv)
    (patientId fileUrl fileType : string) : Async DocumentAnalysis :=
  try_catch
    (response <- await_service env
        (servicePost env AnalyzeDocument
           (mkAnalyzeDocumentRequest patientId fileUrl fileType)) ;;
     if negb (ok response) then throw (Error "Document analysis failed")
     else await_json response)
    (fun error =>
       console_error "Error analyzing document:" error ;;;
       ret analysisUnavailable).

Definition predictNoShowProbability (env : ServiceEnv)
    (patientId appointmentDate appointmentTime : string) : Async Q :=
  try_catch
    (response <- await_service env
        (servicePost env PredictNoShow
           (mkPredictNoShowRequest patientId appointmentDate
              appointmentTime)) ;;
     if negb (ok response) then throw (Error "No-show prediction failed")
     else
       result <- await_json response ;;
       ret (probability result))
    (fun error =>
       console_error "Error predicting no-show:" error ;;;
       ret 0%Q).

End AiService.
(* ===================================================================== *)
(** ** [App.tsx]: the state of the dashboard and its handlers *)
(* ===================================================================== *)

Module Dashboard.
Import Types Records AiModel Fx Api AiService.

(** *** State

    The [useState] cells of [App], in the three groups of the source. *)

Record Session : Type := mkSession {
  isLoading : bool;
  currentDoctor : option Doctor;
  doctorPreferences : option DoctorPreferences;
  showSettings : bool;
  activeTab : string
}.

Record Data : Type := mkData {
  stats : option DashboardStats;
  appointments : list Appointment;
  patients : list Patient;
  aiSuggestions : list AIScheduleSuggestion;
  conflicts : list ScheduleConflict;
  notifications : list Notification;
  auditLog : list AuditLogEntry
}.

Record Sheet : Type := mkSheet {
  selectedPatient : option Patient;
  patientSheetOpen : bool;
  patientDocuments : list MedicalDocument;
  patientHealthEvents : list HealthReviewEvent;
  patientAppointments : list Appointment
}.

Record State : Type := mkState {
  session : Session;
  data : Data;
  sheet : Sheet
}.

(** The values the cells are created with. *)
Definition initialState : State :=
  {| session :=
       {| isLoading := true; currentDoctor := None;
          doctorPreferences := None; showSettings := false;
          activeTab := "dashboard" |};
     data :=
       {| stats := None; appointments := []; patients := [];
          aiSuggestions := []; conflicts := []; notifications := [];
          auditLog := [] |};
     sheet :=
       {| selectedPatient := None; patientSheetOpen := false;
          patientDocuments := []; patientHealthEvents := [];
          patientAppointments := [] |} |}.

Definition onSession (f : Session -> Session) (s : State) : State :=
  {| session := f (session s); data := data s; sheet := sheet s |}.

Definition onData (f : Data -> Data) (s : State) : State :=
  {| session := session s; data := f (data s); sheet := sheet s |}.

Definition onSheet (f : Sheet -> Sheet) (s : State) : State :=
  {| session := session s; data := data s; sheet := f (sheet s) |}.

(** The setters; those that the source calls with a function take one. *)
Definition setIsLoading (v : bool) : State -> State :=
  onSession (fun s =>
    {| isLoading := v; currentDoctor := currentDoctor s;
       doctorPreferences := doctorPreferences s;
       showSettings := showSettings s; activeTab := activeTab s |}).

Definition setCurrentDoctor (v : option Doctor) : State -> State :=
  onSession (fun s =>
    {| isLoading := isLoading s; currentDoctor := v;
       doctorPreferences := doctorPreferences s;
       showSettings := showSettings s; activeTab := activeTab s |}).

Definition setDoctorPreferences (v : option DoctorPreferences)
    : State -> State :=
  onSession (fun s =>
    {| isLoading := isLoading s; currentDoctor := currentDoctor s;
       doctorPreferences := v;
       showSettings := showSettings s; activeTab := activeTab s |}).

Definition setShowSettings (v : bool) : State -> State :=
  onSession (fun s =>
    {| isLoading := isLoading s; currentDoctor := currentDoctor s;
       doctorPreferences := doctorPreferences s;
       showSettings := v; activeTab := activeTab s |}).

Definition setStats (v : option DashboardStats) : State -> State :=
  onData (fun d =>
    {| stats := v; appointments := appointments d; patients := patients d;
       aiSuggestions := aiSuggestions d; conflicts := conflicts d;
       notifications := notifications d; auditLog := auditLog d |}).

Definition setAppointments (f : list Appointment -> list Appointment)
    : State -> State :=
  onData (fun d =>
    {| stats := stats d; appointments := f (appointments d);
       patients := patients d;
       aiSuggestions := aiSuggestions d; conflicts := conflicts d;
       notifications := notifications d; auditLog := auditLog d |}).

Definition setPatients (v : list Patient) : State -> State :=
  onData (fun d =>
    {| stats := stats d; appointments := appointments d; patients := v;
       aiSuggestions := aiSuggestions d; conflicts := conflicts d;
       notifications := notifications d; auditLog := auditLog d |}).

Definition setAISuggestions
    (f : list AIScheduleSuggestion -> list AIScheduleSuggestion)
    : State -> State :=
  onData (fun d =>
    {| stats := stats d; appointments := appointments d;
       patients := patients d;
       aiSuggestions := f (aiSuggestions d); conflicts := conflicts d;
       notifications := notifications d; auditLog := auditLog d |}).

Definition setConflicts (v : list ScheduleConflict) : State -> State :=
  onData (fun d =>
    {| stats := stats d; appointments := appointments d;
       patients := patients d;
       aiSuggestions := aiSuggestions d; conflicts := v;
       notifications := notifications d; auditLog := auditLog d |}).

Definition setNotifications (f : list Notification -> list Notification)
    : State -> State :=
  onData (fun d =>
    {| stats := stats d; appointments := appointments d;
       patients := patients d;
       aiSuggestions := aiSuggestions d; conflicts := conflicts d;
       notifications := f (notifications d); auditLog := auditLog d |}).

Definition setAuditLog (v : list AuditLogEntry) : State -> State :=
  onData (fun d =>
    {| stats := stats d; appointments := appointments d;
       patients := patients d;
       aiSuggestions := aiSuggestions d; conflicts := conflicts d;
       notifications := notifications d; auditLog := v |}).

Definition setSelectedPatient (v : option Patient) : State -> State :=
  onSheet (fun s =>
    {| selectedPatient := v; patientSheetOpen := patientSheetOpen s;
       patientDocuments := patientDocuments s;
       patientHealthEvents := patientHealthEvents s;
       patientAppointments := patientAppointments s |}).

Definition setPatientSheetOpen (v : bool) : State -> State :=
  onSheet (fun s =>
    {| selectedPatient := selectedPatient s; patientSheetOpen := v;
       patientDocuments := patientDocuments s;
       patientHealthEvents := patientHealthEvents s;
       patientAppointments := patientAppointments s |}).

Definition setPatientDocuments
    (f : list MedicalDocument -> list MedicalDocument) : State -> State :=
  onSheet (fun s =>
    {| selectedPatient := selectedPatient s;
       patientSheetOpen := patientSheetOpen s;
       patientDocuments := f (patientDocuments s);
       patientHealthEvents := patientHealthEvents s;
       patientAppointments := patientAppointments s |}).

Definition setPatientHealthEvents (v : list HealthReviewEvent)
    : State -> State :=
  onSheet (fun s =>
    {| selectedPatient := selectedPatient s;
       patientSheetOpen := patientSheetOpen s;
       patientDocuments := patientDocuments s;
       patientHealthEvents := v;
       patientAppointments := patientAppointments s |}).

Definition setPatientAppointments (v : list Appointment) : State -> State :=
  onSheet (fun s =>
    {| selectedPatient := selectedPatient s;
       patientSheetOpen := patientSheetOpen s;
       patientDocuments := patientDocuments s;
       patientHealthEvents := patientHealthEvents s;
       patientAppointments := v |}).

(** *** The world a handler runs in

    A handler is a closure of one render: it reads the cells as they were
    at that render (its snapshot, the argument [snap] below) and writes
    through the setters, which act on the live state [ui]. *)

Inductive ToastKind : Type := toast_success | toast_info | toast_error.

Record World : Type := mkWorld {
  ui : State;
  browser : Browser;
  errors : Console;                     (* console.error *)
  logged : list string;                 (* console.log *)
  toasts : list (ToastKind * string)
}.

(** What lies outside the page during one run of a handler: the backends
    and the readings of the clock. *)
Record Outside : Type := mkOutside {
  backend : Backend;
  aiFetch :
    forall e : Endpoint, Request e -> FetchOutcome (ResponseBody e);
  serviceFetch :
    forall e : ServiceEndpoint,
      ServiceRequest e -> FetchOutcome (ServiceResponseBody e);
  dateNow : Z;              (* Date.now() *)
  isoNow : string;          (* new Date().toISOString() *)
  isoTomorrow : string;     (* the same, one day on *)
  monthStart : string;      (* first day of this month, as an ISO date *)
  monthEnd : string;        (* last day of this month, as an ISO date *)
  createObjectURL : File -> string     (* URL.createObjectURL *)
}.

Definition Handler (A : Type) : Type := M World A.

Definition withUi (v : State) (w : World) : World :=
  {| ui := v; browser := browser w; errors := errors w;
     logged := logged w; toasts := toasts w |}.

Definition withBrowser (b : Browser) (w : World) : World :=
  {| ui := ui w; browser := b; errors := errors w;
     logged := logged w; toasts := toasts w |}.

Definition withErrors (lines : Console) (w : World) : World :=
  {| ui := ui w; browser := browser w; errors := lines;
     logged := logged w; toasts := toasts w |}.

Definition set (f : State -> State) : Handler unit :=
  modify (fun w => withUi (f (ui w)) w).

Definition toast (kind : ToastKind) (text : string) : Handler unit :=
  modify (fun w =>
    {| ui := ui w; browser := browser w; errors := errors w;
       logged := logged w;
       toasts := (toasts w ++ [(kind, text)])%list |}).

Definition console_log (text : string) : Handler unit :=
  modify (fun w =>
    {| ui := ui w; browser := browser w; errors := errors w;
       logged := (logged w ++ [text])%list; toasts := toasts w |}).

Definition console_error (label : string) (e : JsError) : Handler unit :=
  modify (fun w => withErrors (errors w ++ [(label, e)])%list w).

(** A call of [lib/api.ts]. *)
Definition api {A} (m : M Browser A) : Handler A :=
  zoom browser withBrowser m.

(** A call of [AIModelService]: it reads the token of the browser and
    writes to the console. *)
Definition aiEnv (out : Outside) (w : World) : Env :=
  {| authToken := authTokenItem (browser w);
     now := isoNow out;
     fetch := aiFetch out |}.


Definition onConsole {A} (m : World -> Async A) : Handler A :=
  fun w =>
    match m w (errors w) with
    | (r, lines) => (r, withErrors lines w)
    end.

(** [currentDoctor?.id === 'demo-doctor-1'] *)
Definition isDemo (snap : State) : bool :=
  match currentDoctor (session snap) with
  | Some doctor => String.eqb (doctor_id doctor) "demo-doctor-1"
  | None => false
  end.

(** [!doctor.hasCompletedSetup] *)
Definition setupPending (doctor : Doctor) : bool :=
  match hasCompletedSetup doctor with
  | Some true => false
  | _ => true
  end.

(** [{ ...currentDoctor, hasCompletedSetup: true }] *)
Definition withCompletedSetup (doctor : Doctor) : Doctor :=
  {| doctor_id := doctor_id doctor; doctor_name := doctor_name doctor;
     doctor_email := doctor_email doctor;
     specialization := specialization doctor;
     doctor_avatar := doctor_avatar doctor;
     doctor_phone := doctor_phone doctor;
     hasCompletedSetup := Some true |}.

(** *** Demo data *)

(** [currentDoctor?.id || 'demo-doctor-1'] *)
Definition demoDoctorId (snap : State) : string :=
  match currentDoctor (session snap) with
  | Some doctor =>
      if Js.truthy (doctor_id doctor) then doctor_id doctor
      else "demo-doctor-1"
  | None => "demo-doctor-1"
  end.

(** [iso.split('T')[0]] *)
Definition datePart (iso : string) : string :=
  nth 0 (Js.split "T" iso) EmptyString.

Definition demoStats : DashboardStats :=
  {| totalPatientsToday := 4; emergencyCases := 1; pendingFollowUps := 6;
     completedAppointments := 0; upcomingAppointments := 4;
     aiSuggestionsPending := 3 |}.

Definition pat_001 : Patient :=
  {| patient_id := "pat-001"; patient_name := "John Anderson";
     patient_age := 45; patient_gender := male;
     patient_condition := "Hypertension";
     patient_conditionSummary :=
       "Stage 2 hypertension, managing with medication";
     patient_lastVisit := "2025-09-28";
     patient_nextVisit := Some "2025-10-05";
     patient_riskLevel := risk_medium;
     patient_phone := "+1-555-0101";
     patient_email := "j.anderson@email.com";
     patient_bloodType := Some "A+";
     patient_allergies := Some ["Penicillin"];
     patient_medications := Some ["Lisinopril 10mg"; "Aspirin 81mg"];
     patient_avatar := None |}.

Definition pat_002 : Patient :=
  {| patient_id := "pat-002"; patient_name := "Priya Sharma";
     patient_age := 32; patient_gender := female;
     patient_condition := "Type 2 Diabetes";
     patient_conditionSummary :=
       "Recently diagnosed, starting insulin therapy";
     patient_lastVisit := "2025-09-30";
     patient_nextVisit := Some "2025-10-02";
     patient_riskLevel := risk_high;
     patient_phone := "+1-555-0102";
     patient_email := "priya.s@email.com";
     patient_bloodType := Some "B+";
     patient_allergies := Some [];
     patient_medications := Some ["Metformin 500mg"; "Insulin Glargine"];
     patient_avatar := None |}.

Definition pat_003 : Patient :=
  {| patient_id := "pat-003"; patient_name := "Michael Chen";
     patient_age := 28; patient_gender := male;
     patient_condition := "Asthma";
     patient_conditionSummary :=
       "Mild persistent asthma, well-controlled";
     patient_lastVisit := "2025-09-15";
     patient_nextVisit := Some "2025-10-15";
     patient_riskLevel := risk_low;
     patient_phone := "+1-555-0103";
     patient_email := "m.chen@email.com";
     patient_bloodType := Some "O+";
     patient_allergies := Some ["Dust mites"; "Pollen"];
     patient_medications := Some ["Albuterol inhaler"; "Fluticasone"];
     patient_avatar := None |}.

Definition demoPatients : list Patient := [pat_001; pat_002; pat_003].

Definition demoAppointments (doctor today tomorrowStr : string)
    : list Appointment :=
  [ {| id := "apt-001"; patientId := "pat-002";
       patientName := "Priya Sharma"; Types.doctorId := doctor;
       date := today; startTime := "09:00"; endTime := "09:30";
       priority := urgent; status := scheduled; type := "Follow-up";
       notes := Some "Review insulin dosage and blood sugar logs";
       location := Some "Room 203" |};
    {| id := "apt-002"; patientId := "pat-001";
       patientName := "John Anderson"; Types.doctorId := doctor;
       date := today; startTime := "14:00"; endTime := "14:30";
       priority := normal; status := scheduled; type := "Consultation";
       notes := Some "Blood pressure monitoring and medication review";
       location := Some "Room 203" |};
    {| id := "apt-003"; patientId := "pat-003";
       patientName := "Michael Chen"; Types.doctorId := doctor;
       date := tomorrowStr; startTime := "09:30"; endTime := "10:00";
       priority := normal; status := scheduled; type := "Follow-up";
       notes := Some "Asthma control assessment";
       location := Some "Room 204" |} ].

Definition suggestion_001 (doctor tomorrowStr createdAt : string)
    : AIScheduleSuggestion :=
  {| suggestion_id := "ai-001"; suggestion_doctorId := doctor;
     suggestion_patientId := "pat-002";
     suggestion_patientName := "Priya Sharma";
     suggestedDate := tomorrowStr;
     suggestedStartTime := "16:00"; suggestedEndTime := "16:30";
     suggestion_priority := urgent;
     suggestion_reason :=
       "Blood sugar levels showing concerning trends. Earlier follow-up recommended based on recent glucose readings.";
     suggestion_confidence := (92 # 100)%Q;
     suggestion_status := pending;
     suggestion_conflicts := None;
     suggestion_createdAt := createdAt |}.

Definition suggestion_002 (doctor createdAt : string)
    : AIScheduleSuggestion :=
  {| suggestion_id := "ai-002"; suggestion_doctorId := doctor;
     suggestion_patientId := "pat-001";
     suggestion_patientName := "John Anderson";
     suggestedDate := "2025-10-05";
     suggestedStartTime := "10:00"; suggestedEndTime := "10:30";
     suggestion_priority := normal;
     suggestion_reason :=
       "Routine follow-up for blood pressure management. Schedule aligns with medication review cycle.";
     suggestion_confidence := (85 # 100)%Q;
     suggestion_status := pending;
     suggestion_conflicts := None;
     suggestion_createdAt := createdAt |}.

Definition demoSuggestions (doctor tomorrowStr createdAt : string)
    : list AIScheduleSuggestion :=
  [suggestion_001 doctor tomorrowStr createdAt;
   suggestion_002 doctor createdAt].

Definition demoNotifications (doctor timestamp : string)
    : list Notification :=
  [ {| notification_id := "notif-001"; notification_doctorId := doctor;
       notification_type := notification_warning;
       title := "AI Suggestion Available";
       message :=
         "New scheduling suggestion for Priya Sharma - high priority";
       notification_timestamp := timestamp;
       read := false; actionable := true; actionLink := None;
       relatedPatientId := None; relatedAppointmentId := None |};
    {| notification_id := "notif-002"; notification_doctorId := doctor;
       notification_type := notification_info;
       title := "Demo Mode Active";
       message :=
         "Running in demo mode. Connect your backend to enable full functionality.";
       notification_timestamp := timestamp;
       read := false; actionable := false; actionLink := None;
       relatedPatientId := None; relatedAppointmentId := None |} ].

Definition createDemoData (out : Outside) (snap : State) : Handler unit :=
  set (setStats (Some demoStats)) >>>
  set (setPatients demoPatients) >>>
  set (setAppointments (fun _ =>
         demoAppointments (demoDoctorId snap) (datePart (isoNow out))
           (datePart (isoTomorrow out)))) >>>
  set (setAISuggestions (fun _ =>
         demoSuggestions (demoDoctorId snap) (datePart (isoTomorrow out))
           (isoNow out))) >>>
  set (setNotifications (fun _ =>
         demoNotifications (demoDoctorId snap) (isoNow out))) >>>
  toast toast_success "Demo data loaded successfully".

(** *** Loading *)

Definition loadAISuggestions (out : Outside) (snap : State)
    (doctorId : string) (currentAppointments : list Appointment)
    (currentPatients : list Patient) : Handler unit :=
  catch
    (match doctorPreferences (session snap) with
     | None => pure tt
     | Some preferences =>
         (* Call AI model to generate suggestions *)
         suggestions <-- onConsole (fun w =>
             generateAIScheduleSuggestions (aiEnv out w) preferences
               currentAppointments currentPatients) ;;
         set (setAISuggestions (fun _ => suggestions)) >>>
         (* Detect conflicts *)
         detectedConflicts <-- onConsole (fun w =>
             detectScheduleConflicts (aiEnv out w) doctorId
               currentAppointments preferences) ;;
         set (setConflicts detectedConflicts)
     end)
    (fun error =>
       console_error "Error loading AI suggestions:" error >>>
       (* Fallback to API if AI model not available *)
       catch
         (apiSuggestions <--
            api (getAISuggestions (backend out) doctorId (Some "pending")) ;;
          set (setAISuggestions (fun _ => apiSuggestions)) >>>
          apiConflicts <--
            api (getScheduleConflicts (backend out) doctorId) ;;
          set (setConflicts apiConflicts))
         (fun apiError =>
            console_error "Error loading from API:" apiError)).

Definition loadDashboardData (out : Outside) (snap : State)
    (doctorId : string) : Handler unit :=
  catch
    (statsData <--
       orElse
         (s <-- api (getDashboardStats (backend out) doctorId) ;;
          pure (Some s))
         None ;;
     appointmentsData <--
       orElse
         (api (getAppointments (backend out) doctorId (monthStart out)
                 (monthEnd out)))
         [] ;;
     patientsData <-- orElse (api (getPatients (backend out) doctorId)) [] ;;
     notificationsData <--
       orElse (api (getNotifications (backend out) doctorId)) [] ;;
     auditLogData <-- orElse (api (getAuditLog (backend out) doctorId)) [] ;;
     set (setStats statsData) >>>
     set (setAppointments (fun _ => appointmentsData)) >>>
     set (setPatients patientsData) >>>
     set (setNotifications (fun _ => notificationsData)) >>>
     set (setAuditLog auditLogData) >>>
     (* Generate AI suggestions if we have preferences *)
     match doctorPreferences (session snap) with
     | Some _ =>
         loadAISuggestions out snap doctorId appointmentsData patientsData
     | None => pure tt
     end)
    (fun error => console_error "Error loading dashboard data:" error).

Definition mockDoctor : Doctor :=
  {| doctor_id := "demo-doctor-1"; doctor_name := "Dr. Demo User";
     doctor_email := "demo@medisync.ai";
     specialization := "Internal Medicine";
     doctor_avatar := None; doctor_phone := None;
     hasCompletedSetup := Some false |}.

Definition initializeApp (out : Outside) (snap : State) : Handler unit :=
  finally
    (catch
       (set (setIsLoading true) >>>
        (* Get current doctor from backend (or mock auth for demo) *)
        doctor <-- api (getCurrentDoctor (backend out)) ;;
        set (setCurrentDoctor (Some doctor)) >>>
        (* Check if doctor has completed setup *)
        if setupPending doctor then
          (* Show settings panel for first-time setup *)
          set (setDoctorPreferences
                 (Some (getDefaultDoctorPreferences (doctor_id doctor)))) >>>
          set (setShowSettings true) >>>
          set (setIsLoading false)
        else
          (* Load doctor preferences *)
          preferences <--
            api (getDoctorPreferences (backend out) (doctor_id doctor)) ;;
          set (setDoctorPreferences (Some preferences)) >>>
          (* Load all data *)
          loadDashboardData out snap (doctor_id doctor))
       (fun error =>
          (* Backend not available - enter demo mode silently *)
          console_log "Backend not available, starting in demo mode" >>>
          set (setCurrentDoctor (Some mockDoctor)) >>>
          set (setDoctorPreferences
                 (Some (getDefaultDoctorPreferences
                          (doctor_id mockDoctor)))) >>>
          set (setShowSettings true)))
    (set (setIsLoading false)).

Definition handleSavePreferences (out : Outside) (snap : State)
    (preferences : DoctorPreferences) : Handler unit :=
  match currentDoctor (session snap) with
  | None => pure tt
  | Some doctor =>
      catch
        ((* Try to save to backend *)
         api (saveDoctorPreferences (backend out) (doctor_id doctor)
                preferences) >>>
         set (setDoctorPreferences (Some preferences)) >>>
         set (setShowSettings false) >>>
         toast toast_success "AI preferences saved successfully" >>>
         (* Reload AI suggestions with new preferences *)
         loadAISuggestions out snap (doctor_id doctor)
           (appointments (data snap)) (patients (data snap)) >>>
         (* If this was first-time setup, reload all data *)
         if setupPending doctor then
           set (setCurrentDoctor (Some (withCompletedSetup doctor))) >>>
           loadDashboardData out snap (doctor_id doctor)
         else pure tt)
        (fun error =>
           (* Demo mode: Save preferences locally *)
           console_log "Backend not available, running in demo mode" >>>
           set (setDoctorPreferences (Some preferences)) >>>
           set (setShowSettings false) >>>
           toast toast_success "AI preferences saved (Demo Mode)" >>>
           (* Mark setup as complete *)
           (if setupPending doctor
            then set (setCurrentDoctor (Some (withCompletedSetup doctor)))
            else pure tt) >>>
           (* Create some demo data for the dashboard *)
           createDemoData out snap)
  end.

(** *** The patient sheet *)

Definition handlePatientClick (out : Outside) (snap : State)
    (patient : Patient) : Handler unit :=
  set (setSelectedPatient (Some patient)) >>>
  set (setPatientSheetOpen true) >>>
  catch
    (docs <--
       orElse
         (api (getPatientDocuments (backend out) (patient_id patient)))
         [] ;;
     events <--
       orElse
         (api (getHealthReviewEvents (backend out) (patient_id patient)))
         [] ;;
     set (setPatientDocuments (fun _ => docs)) >>>
     set (setPatientHealthEvents events) >>>
     set (setPatientAppointments
            (filter (fun apt => String.eqb (patientId apt)
                                  (patient_id patient))
               (appointments (data snap)))))
    (fun error => console_error "Error loading patient data:" error).

Definition handleAppointmentClick (out : Outside) (snap : State)
    (appointment : Appointment) : Handler unit :=
  match find (fun p => String.eqb (patient_id p) (patientId appointment))
          (patients (data snap)) with
  | Some patient => handlePatientClick out snap patient
  | None => pure tt
  end.

(** *** AI suggestions *)

(** [prev.filter(s => s.id !== id)] *)
Definition withoutSuggestion (id : string)
    (prev : list AIScheduleSuggestion) : list AIScheduleSuggestion :=
  filter (fun s => negb (String.eqb (suggestion_id s) id)) prev.

Definition appointmentOf (out : Outside) (doctor : Doctor)
    (suggestion : AIScheduleSuggestion) : Appointment :=
  {| id := "apt-" ++ Js.toString (Js.Int (dateNow out));
     patientId := suggestion_patientId suggestion;
     patientName := suggestion_patientName suggestion;
     Types.doctorId := doctor_id doctor;
     date := suggestedDate suggestion;
     startTime := suggestedStartTime suggestion;
     endTime := suggestedEndTime suggestion;
     priority := suggestion_priority suggestion;
     status := scheduled;
     type := "AI Suggested";
     notes := Some (suggestion_reason suggestion);
     location := None |}.

Definition handleAcceptAISuggestion (out : Outside) (snap : State)
    (id : string) : Handler unit :=
  catch
    (match currentDoctor (session snap) with
     | Some doctor =>
         (* If in demo mode, just update locally *)
         if String.eqb (doctor_id doctor) "demo-doctor-1" then
           match find (fun s => String.eqb (suggestion_id s) id)
                   (aiSuggestions (data snap)) with
           | Some suggestion =>
               (* Add as appointment *)
               set (setAppointments (fun prev =>
                      (prev ++ [appointmentOf out doctor suggestion])%list))
           | None => pure tt
           end >>>
           set (setAISuggestions (withoutSuggestion id)) >>>
           toast toast_success
             "AI suggestion accepted and scheduled (Demo Mode)"
         else
           (* Real backend call *)
           api (acceptAISuggestion (backend out) id) >>>
           set (setAISuggestions (withoutSuggestion id)) >>>
           toast toast_success "AI suggestion accepted and scheduled" >>>
           loadDashboardData out snap (doctor_id doctor)
     | None =>
         api (acceptAISuggestion (backend out) id) >>>
         set (setAISuggestions (withoutSuggestion id)) >>>
         toast toast_success "AI suggestion accepted and scheduled"
     end)
    (fun error =>
       console_error "Error accepting suggestion:" error >>>
       (* Fallback to demo mode behavior *)
       set (setAISuggestions (withoutSuggestion id)) >>>
       toast toast_success "AI suggestion accepted (Demo Mode)").

Definition handleRejectAISuggestion (out : Outside) (snap : State)
    (id : string) : Handler unit :=
  catch
    (if isDemo snap then
       (* If in demo mode, just update locally *)
       set (setAISuggestions (withoutSuggestion id)) >>>
       toast toast_info "AI suggestion rejected (Demo Mode)"
     else
       (* Real backend call *)
       api (rejectAISuggestion (backend out) id) >>>
       set (setAISuggestions (withoutSuggestion id)) >>>
       toast toast_info "AI suggestion rejected")
    (fun error =>
       console_error "Error rejecting suggestion:" error >>>
       (* Fallback to demo mode behavior *)
       set (setAISuggestions (withoutSuggestion id)) >>>
       toast toast_info "AI suggestion rejected (Demo Mode)").

Definition handleEditAISuggestion (id : string) : Handler unit :=
  toast toast_info "Edit functionality - would open appointment editor".

(** *** Commands *)

(** The quotation mark of the preview. *)
Definition quote : string := String (ascii_of_nat 34) EmptyString.

Definition mockCommand (out : Outside) (doctor : Doctor) (command : string)
    : NLPCommand :=
  {| command_id := "nlp-" ++ Js.toString (Js.Int (dateNow out));
     command_doctorId := doctor_id doctor;
     input := command;
     command_timestamp := isoNow out;
     parsed :=
       {| action := "demo_action";
          entities := [("command", JString command)];
          parsed_confidence := (85 # 100)%Q |};
     preview :=
       Some ("Demo mode: Would process " ++ quote ++ command ++ quote);
     command_status := pending;
     acceptedBy := None;
     acceptedAt := None |}.


Definition handleNLPCommandAccept (out : Outside) (snap : State)
    (commandId : string) : Handler unit :=
  catch
    (match currentDoctor (session snap) with
     | Some doctor =>
         (* In demo mode, just show success *)
         if String.eqb (doctor_id doctor) "demo-doctor-1" then
           toast toast_success "Command executed successfully (Demo Mode)"
         else
           api (executeNLPCommand (backend out) commandId) >>>
           toast toast_success "Command executed successfully" >>>
           loadDashboardData out snap (doctor_id doctor)
     | None =>
         api (executeNLPCommand (backend out) commandId) >>>
         toast toast_success "Command executed successfully"
     end)
    (fun error =>
       console_error "Error executing command:" error >>>
       toast toast_success "Command executed (Demo Mode)").

Definition handleNLPCommandReject : Handler unit :=
  toast toast_info "Command cancelled".

(** *** Notifications *)

(** [n.id === id ? { ...n, read: true } : n] *)
Definition markRead (id : string) (n : Notification) : Notification :=
  if String.eqb (notification_id n) id then
    {| notification_id := notification_id n;
       notification_doctorId := notification_doctorId n;
       notification_type := notification_type n;
       title := title n; message := message n;
       notification_timestamp := notification_timestamp n;
       read := true;
       actionable := actionable n; actionLink := actionLink n;
       relatedPatientId := relatedPatientId n;
       relatedAppointmentId := relatedAppointmentId n |}
  else n.

Definition handleMarkNotificationAsRead (out : Outside) (snap : State)
    (id : string) : Handler unit :=
  catch
    ((* Update locally first (optimistic update) *)
     set (setNotifications (List.map (markRead id))) >>>
     (* Skip backend call in demo mode *)
     if isDemo snap then pure tt
     else
       (* Try backend call *)
       api (markNotificationAsRead (backend out) id) >>> pure tt)
    (fun error =>
       (* Silently fail - notification is already marked read locally *)
       console_log
         "Backend not available, notification marked read locally").

(** *** Documents *)

Definition mockDoc (out : Outside) (patient : Patient) (file : File)
    : MedicalDocument :=
  {| document_id := "doc-" ++ Js.toString (Js.Int (dateNow out));
     document_patientId := patient_id patient;
     fileName := file_name file;
     fileType := file_type file;
     uploadDate := isoNow out;
     size := file_size file;
     document_url := createObjectURL out file;
     aiFlags :=
       Some {| hasEmergencyIndicators := false;
               aiFlags_riskLevel := risk_low;
               extractedData := Some [];
               summary :=
                 Some "Demo mode: Document uploaded successfully. AI analysis unavailable." |} |}.

(** [doc.aiFlags?.hasEmergencyIndicators] *)
Definition flagsEmergency (doc : MedicalDocument) : bool :=
  match aiFlags doc with
  | Some flags => hasEmergencyIndicators flags
  | None => false
  end.

Definition handleDocumentUpload (out : Outside) (snap : State)
    (file : File) : Handler unit :=
  match selectedPatient (sheet snap) with
  | None => pure tt
  | Some patient =>
      catch
        (toast toast_info "Uploading and analyzing document..." >>>
         (* In demo mode, create mock document *)
         if isDemo snap then
           set (setPatientDocuments (fun prev =>
                  mockDoc out patient file :: prev)) >>>
           toast toast_success "Document uploaded (Demo Mode)"
         else
           doc <--
             api (uploadDocument (backend out) (patient_id patient) file) ;;
           set (setPatientDocuments (fun prev => doc :: prev)) >>>
           if flagsEmergency doc then
             toast toast_error
               ("Emergency indicators detected in " ++ file_name file)
           else
             toast toast_success
               "Document uploaded and analyzed successfully")
        (fun error =>
           console_error "Error uploading document:" error >>>
           (* Fallback to demo mode *)
           set (setPatientDocuments (fun prev =>
                  mockDoc out patient file :: prev)) >>>
           toast toast_success "Document uploaded (Demo Mode)")
  end.

End Dashboard.

(* ===================================================================== *)
(** ** [components/DoctorSettingsPanel.tsx]: editing a break in place *)
(* ===================================================================== *)

Module BreakStore.
Import AiModel.

(** The inputs of a break time assign to a field of the break object,
    [newBreakTimes[index].start = e.target.value], where [newBreakTimes] is
    a copy of the array, not of the objects in it.  The objects are shared
    with the preferences the panel was opened with, which are the state of
    [App]; so the break objects are kept in a heap here, and an array of
    breaks is a list of addresses. *)
Definition Ref : Type := nat.

Definition Heap : Type := list BreakTime.

Record Panel : Type := mkPanel {
  heap : Heap;
  initialBreaks : list Ref;   (* initialPreferences.constraints.breakTimes *)
  panelBreaks : list Ref      (* preferences.constraints.breakTimes *)
}.

(** [useState(initialPreferences)]: the state starts as the object of the
    prop. *)
Definition openPanel (h : Heap) (breaks : list Ref) : Panel :=
  {| heap := h; initialBreaks := breaks; panelBreaks := breaks |}.

(** The breaks an array shows. *)
Definition contents (h : Heap) (breaks : list Ref)
    : list (option BreakTime) :=
  List.map (nth_error h) breaks.

Fixpoint assign (h : Heap) (r : Ref) (f : BreakTime -> BreakTime) : Heap :=
  match h, r with
  | [], _ => []
  | b :: rest, O => f b :: rest
  | b :: rest, S r' => b :: assign rest r' f
  end.

Inductive Field : Type := field_start | field_end.

Definition write (field : Field) (value : string) (b : BreakTime)
    : BreakTime :=
  match field with
  | field_start => mkBreak value (break_end b)
  | field_end => mkBreak (break_start b) value
  end.

(** The [onChange] of the two inputs of break [index]. *)
Definition editBreak (p : Panel) (index : nat) (field : Field)
    (value : string) : Completion Panel :=
  let newBreakTimes := panelBreaks p in
  match nth_error newBreakTimes index with
  | None => Throw (TypeError "Cannot set properties of undefined")
  | Some r =>
      Return {| heap := assign (heap p) r (write field value);
                initialBreaks := initialBreaks p;
                panelBreaks := newBreakTimes |}
  end.

(** [addBreakTime] and [removeBreakTime] make new arrays. *)
Definition addBreak (p : Panel) : Panel :=
  {| heap := (heap p ++ [mkBreak "12:00" "13:00"])%list;
     initialBreaks := initialBreaks p;
     panelBreaks := (panelBreaks p ++ [List.length (heap p)])%list |}.

Definition removeBreak (p : Panel) (index : nat) : Panel :=
  {| heap := heap p;
     initialBreaks := initialBreaks p;
     panelBreaks := Settings.removeAt index (panelBreaks p) |}.

End BreakStore.

(* ===================================================================== *)
(** ** Sample runs of the dashboard *)
(* ===================================================================== *)

Module Samples.
Import Types Records AiModel Fx Api AiService Dashboard.

(** No backend answers. *)
Definition offline : Outside :=
  {| backend := fun _ _ => Unreachable;
     aiFetch := fun _ _ => Rejected;
     serviceFetch := fun _ _ => Rejected;
     dateNow := 1759392000000;
     isoNow := "2025-10-02T08:00:00.000Z";
     isoTomorrow := "2025-10-03T08:00:00.000Z";
     monthStart := "2025-10-01";
     monthEnd := "2025-10-31";
     createObjectURL := fun _ => "blob:http://localhost:3000/1" |}.

(** The REST backend stores preferences and answers nothing else; the AI
    service is down. *)
Definition storing : Outside :=
  {| backend :=
       fun c _ =>
         match c return FetchResult (Result c) with
         | call_saveDoctorPreferences =>
             Answered (mkApiResponse true "OK" (Some JNull))
         | _ => Unreachable
         end;
     aiFetch := fun _ _ => Rejected;
     serviceFetch := fun _ _ => Rejected;
     dateNow := 1759392000000;
     isoNow := "2025-10-02T08:00:00.000Z";
     isoTomorrow := "2025-10-03T08:00:00.000Z";
     monthStart := "2025-10-01";
     monthEnd := "2025-10-31";
     createObjectURL := fun _ => "blob:http://localhost:3000/1" |}.

Definition mounted : World :=
  mkWorld initialState (mkBrowser None []) [] [] [].

(** The page after start-up without a backend, and after the preferences
    were then saved: the demo data is loaded. *)
Definition started : World := snd (initializeApp offline initialState mounted).

Definition demo : World :=
  snd (handleSavePreferences offline (ui started)
         (getDefaultDoctorPreferences "demo-doctor-1") started).

(** A doctor of a clinic, with the data of the demo. *)
Definition clinicDoctor : Doctor :=
  {| doctor_id := "doctor-7"; doctor_name := "Dr. Asha Rao";
     doctor_email := "a.rao@clinic.example";
     specialization := "Internal Medicine";
     doctor_avatar := None; doctor_phone := None;
     hasCompletedSetup := Some true |}.

Definition clinic : World :=
  mkWorld (setCurrentDoctor (Some clinicDoctor) (ui demo))
    (mkBrowser (Some "token-7") []) [] [] [].

(** The sheet of the first patient is open. *)
Definition withSheet (w : World) : World :=
  withUi (setSelectedPatient (hd_error (patients (data (ui w)))) (ui w)) w.

Definition scan : File :=
  {| file_name := "scan.pdf"; file_type := "application/pdf";
     file_size := 52340 |}.

(** The command panel after one command was typed and submitted. *)
Definition submitted : NlpInterface.PanelState :=
  NlpInterface.state
    (NlpInterface.handleSubmit
       (fun text => Return (mockCommand offline mockDoctor text))
       (NlpInterface.setInput NlpInterface.initial "Mark Priya as urgent")).

End Samples.

(* ===================================================================== *)
(** * Theorems *)
(* ===================================================================== *)

(** ** String comparison *)

Section StringOrder.

Lemma code_inj (a b : ascii) : Js.code a = Js.code b -> a = b.
Proof.
  unfold Js.code. intros H. apply N2Z.inj in H.
  rewrite <- (ascii_N_embedding a), <- (ascii_N_embedding b).
  now f_equal.
Qed.

Lemma code_compare (a b : ascii) :
  (Js.code a ?= Js.code b) = Ascii.compare a b.
Proof. unfold Js.code, Ascii.compare. apply N2Z.inj_compare. Qed.

(** The comparison of the source is the lexicographic order of the standard
    library. *)
Lemma lt_is_ltb (x y : string) : Js.lt x y = String.ltb x y.
Proof.
  unfold String.ltb. revert y.
  induction x as [|a x IH]; intros [|b y]; simpl; try reflexivity.
  rewrite <- code_compare.
  destruct (Z.compare_spec (Js.code a) (Js.code b)) as [E|L|G].
  - rewrite E, Z.eqb_refl. apply IH.
  - replace (Js.code a =? Js.code b) with false by (symmetry; apply Z.eqb_neq; lia).
    apply Z.ltb_lt; exact L.
  - replace (Js.code a =? Js.code b) with false by (symmetry; apply Z.eqb_neq; lia).
    apply Z.ltb_ge; lia.
Qed.

Lemma le_is_leb (x y : string) : Js.le x y = String.leb x y.
Proof.
  unfold Js.le, String.leb. rewrite lt_is_ltb. unfold String.ltb.
  rewrite (String.compare_antisym x y).
  destruct (String.compare y x); reflexivity.
Qed.

Lemma lt_irrefl (x : string) : Js.lt x x = false.
Proof.
  induction x as [|a x IH]; simpl; [reflexivity|].
  now rewrite Z.eqb_refl.
Qed.


(** From [s <= t] and [t < e] follows [s < e]. *)
Lemma le_lt_trans (s t e : string) :
  Js.le s t = true -> Js.lt t e = true -> Js.lt s e = true.
Proof.
  unfold Js.le. rewrite negb_true_iff. revert s e.
  induction t as [|c t IH]; intros s e Hst Hte.
  - destruct s as [|a s]; [exact Hte|discriminate Hst].
  - destruct e as [|b e]; [discriminate Hte|].
    destruct s as [|a s]; [reflexivity|].
    cbn [Js.lt] in *.
    destruct (Z.eqb_spec (Js.code c) (Js.code a)) as [Eca|Nca];
      destruct (Z.eqb_spec (Js.code c) (Js.code b)) as [Ecb|Ncb];
      destruct (Z.eqb_spec (Js.code a) (Js.code b)) as [Eab|Nab];
      try lia;
      try (apply Z.ltb_lt; apply Z.ltb_ge in Hst; lia);
      try (apply Z.ltb_lt; apply Z.ltb_lt in Hte; lia).
    now apply IH.
Qed.

End StringOrder.

(** ** The day view of the calendar *)

Section DayView.
Import Types Calendar.

Lemma aptsAtTime_In (today : list Appointment) (t : string)
    (apt : Appointment) :
  In apt (aptsAtTime today t) <->
  In apt today
  /\ String.leb (startTime apt) t = true
  /\ String.ltb t (endTime apt) = true.
Proof.
  unfold aptsAtTime. rewrite filter_In, andb_true_iff.
  unfold Js.gt. now rewrite le_is_leb, lt_is_ltb.
Qed.

Lemma filterAppointmentsByDate_In (appointments : list Appointment)
    (d : string) (apt : Appointment) :
  In apt (filterAppointmentsByDate appointments d) <->
  In apt appointments /\ date apt = d.
Proof.
  unfold filterAppointmentsByDate. rewrite filter_In.
  now rewrite String.eqb_eq.
Qed.

(** The day view has no row for an appointment whose end is not after its
    start. *)
Lemma day_view_needs_start_before_end (today : list Appointment)
    (t : string) (apt : Appointment) :
  In apt (aptsAtTime today t) ->
  Js.lt (startTime apt) (endTime apt) = true.
Proof.
  unfold aptsAtTime. rewrite filter_In, andb_true_iff.
  intros [_ [Hle Hgt]]. exact (le_lt_trans _ _ _ Hle Hgt).
Qed.

(** C10.  The day view has a row for every hourly slot label [t], the
    twelve from 08:00 to 19:00, and one only; an appointment is drawn in the
    row of [t] exactly when it is an appointment of the displayed day with
    [startTime <= t] and [t < endTime] as strings, so that an appointment
    that ends at [t] is not drawn in that row. *)
Theorem day_view_half_open
    (appointments : list Appointment) (currentDateStr t : string)
    (Hslot : In t ["08:00"; "09:00"; "10:00"; "11:00"; "12:00"; "13:00";
                   "14:00"; "15:00"; "16:00"; "17:00"; "18:00"; "19:00"]) :
  exists shown,
    In (t, shown) (renderDayView appointments currentDateStr)
    /\ (forall other,
          In (t, other) (renderDayView appointments currentDateStr) ->
          other = shown)
    /\ forall apt,
         (In apt shown <->
            (In apt appointments /\ date apt = currentDateStr)
            /\ String.leb (startTime apt) t = true
            /\ String.ltb t (endTime apt) = true)
         /\ (In apt shown -> endTime apt <> t).
Proof.
  exists (aptsAtTime (filterAppointmentsByDate appointments currentDateStr)
            t).
  split; [|split].
  - unfold renderDayView. apply in_map_iff. exists t. split; [reflexivity|].
    exact Hslot.
  - intros other Hrow. unfold renderDayView in Hrow.
    apply in_map_iff in Hrow. destruct Hrow as [t' [E _]].
    now inversion E; subst.
  - intros apt.
    assert (M : In apt (aptsAtTime
                          (filterAppointmentsByDate appointments
                             currentDateStr) t) <->
                (In apt appointments /\ date apt = currentDateStr)
                /\ String.leb (startTime apt) t = true
                /\ String.ltb t (endTime apt) = true).
    { rewrite aptsAtTime_In, filterAppointmentsByDate_In. tauto. }
    split; [exact M|].
    intros Hin Heq. apply M in Hin. destruct Hin as [_ [_ Hlt]].
    rewrite Heq, <- lt_is_ltb, lt_irrefl in Hlt. discriminate.
Qed.

Lemma day_view_half_open_witness :
  In "14:00" ["08:00"; "09:00"; "10:00"; "11:00"; "12:00"; "13:00";
              "14:00"; "15:00"; "16:00"; "17:00"; "18:00"; "19:00"]
  /\ exists shown,
       In ("14:00", shown) (renderDayView Demo.demoAppointments Demo.today)
       /\ (forall other,
             In ("14:00", other)
                (renderDayView Demo.demoAppointments Demo.today) ->
             other = shown)
       /\ forall apt,
            (In apt shown <->
               (In apt Demo.demoAppointments /\ date apt = Demo.today)
               /\ String.leb (startTime apt) "14:00" = true
               /\ String.ltb "14:00" (endTime apt) = true)
            /\ (In apt shown -> endTime apt <> "14:00").
Proof.
  assert (H : In "14:00" ["08:00"; "09:00"; "10:00"; "11:00"; "12:00";
                          "13:00"; "14:00"; "15:00"; "16:00"; "17:00";
                          "18:00"; "19:00"]).
  { do 6 right. left. reflexivity. }
  split; [exact H|].
  exact (day_view_half_open Demo.demoAppointments Demo.today "14:00" H).
Defined.

(** Every time a drop can carry, a slot label or the 09:00 fallback, is in
    HH:mm format. *)
Lemma handleDrop_time_is_HHmm (appointmentId dateStr : string)
    (timeSlot : option string) :
  (forall t, timeSlot = Some t -> In t timeSlots) ->
  App.isHHmm (snd (handleDrop appointmentId dateStr timeSlot)) = true.
Proof.
  intros H. unfold handleDrop. cbn [snd].
  destruct timeSlot as [t|]; [|reflexivity].
  specialize (H t eq_refl). cbn in H.
  repeat (destruct H as [<-|H]; [reflexivity|]). contradiction.
Qed.

(** The slot labels are the twelve hours from 08:00 to 19:00. *)
Example timeSlots_labels :
  timeSlots = ["08:00"; "09:00"; "10:00"; "11:00"; "12:00"; "13:00";
               "14:00"; "15:00"; "16:00"; "17:00"; "18:00"; "19:00"].
Proof. reflexivity. Qed.

(** The 09:00-09:30 appointment is in the 09:00 row and in no other. *)
Example day_view_demo :
  map (fun row => (fst row, map id (snd row)))
      (renderDayView Demo.demoAppointments Demo.today)
  = [("08:00", []); ("09:00", ["apt-001"]); ("10:00", []); ("11:00", []);
     ("12:00", []); ("13:00", []); ("14:00", ["apt-002"]); ("15:00", []);
     ("16:00", []); ("17:00", []); ("18:00", []); ("19:00", [])].
Proof. reflexivity. Qed.

End DayView.

(** ** The overlap test of the conflict trigger *)

Section Overlap.
Import Schema.

Lemma overlaps_iff (a b : TimeWindow) :
  overlaps a b = true <->
  start_time a < end_time b /\ start_time b < end_time a.
Proof.
  unfold overlaps. rewrite andb_true_iff, Z.ltb_lt, Z.gtb_lt. tauto.
Qed.

(** C5.  [overlaps a b] holds exactly when [a.start < b.end] and
    [b.start < a.end]; it is symmetric, and a window that starts where
    another ends does not overlap it. *)
Theorem overlaps_half_open (a b : TimeWindow) (s m e : Z) :
  (overlaps a b = true <->
     start_time a < end_time b /\ start_time b < end_time a)
  /\ overlaps a b = overlaps b a
  /\ overlaps (mkWindow s m) (mkWindow m e) = false
  /\ overlaps (mkWindow m e) (mkWindow s m) = false.
Proof.
  split; [apply overlaps_iff|]. split.
  - apply eq_true_iff_eq. rewrite !overlaps_iff. tauto.
  - split; apply not_true_is_false; rewrite overlaps_iff; simpl; lia.
Qed.

(** The trigger records a conflict, of type overlap and severity high,
    exactly when a scheduled row of the same doctor and date, other than the
    new one, overlaps the new row. *)
Lemma trigger_reports_overlap (appointments : list appointments_row)
    (NEW : appointments_row) :
  (exists c, detect_schedule_conflicts appointments NEW = Some c
             /\ conflict_type c = Types.overlap
             /\ conflict_severity c = Types.high)
  <-> exists r, In r appointments
                /\ doctor_id r = doctor_id NEW
                /\ row_date r = row_date NEW
                /\ row_status r = Some Types.scheduled
                /\ row_id r <> row_id NEW
                /\ overlaps (window r) (window NEW) = true.
Proof.
  assert (F : forall r, In r (conflicting_rows appointments NEW) <->
                        In r appointments
                        /\ doctor_id r = doctor_id NEW
                        /\ row_date r = row_date NEW
                        /\ row_status r = Some Types.scheduled
                        /\ row_id r <> row_id NEW
                        /\ overlaps (window r) (window NEW) = true).
  { intros r. unfold conflicting_rows.
    rewrite filter_In, !andb_true_iff, negb_true_iff, !String.eqb_eq,
      String.eqb_neq.
    assert (S : is_scheduled (row_status r) = true
                <-> row_status r = Some Types.scheduled).
    { destruct (row_status r) as [[| | |]|]; cbn; split;
        congruence. }
    rewrite S. tauto. }
  unfold detect_schedule_conflicts. cbv zeta.
  destruct (conflicting_rows appointments NEW) as [|r0 rest] eqn:E.
  - cbn. split.
    + intros [c [H _]]. discriminate.
    + intros [r Hr]. apply F in Hr. contradiction.
  - replace (Z.of_nat (List.length (r0 :: rest)) >? 0) with true.
    + split.
      * intros _. exists r0. apply F. now left.
      * intros _. eexists. repeat split.
    + symmetry. apply Z.gtb_lt. cbn [List.length]. lia.
Qed.

(** [09:00,09:30) and [09:30,10:00) do not overlap. *)
Example overlaps_touching :
  overlaps (mkWindow 540 570) (mkWindow 570 600) = false.
Proof. reflexivity. Qed.

End Overlap.

(** ** Validation of doctor preferences *)

Section Validation.
Import Types AiModel.

(** What the validator checks, spelled out. *)
Lemma validateDoctorPreferences_true_iff (p : DoctorPreferences) :
  validateDoctorPreferences p = true <->
  doctorId p <> EmptyString
  /\ (exists day, In day (Object_values (workingHours p))
                  /\ enabled day = true)
  /\ Js.ltNum (maxPatientsPerDay (constraints p)) (Js.Int 1) = false
  /\ Js.ltNum (defaultConsultationDuration (constraints p)) (Js.Int 5)
     = false.
Proof.
  unfold validateDoctorPreferences.
  rewrite <- existsb_exists.
  set (hasWorkingDay := existsb _ _).
  set (m := Js.ltNum (maxPatientsPerDay _) _).
  set (d := Js.ltNum (defaultConsultationDuration _) _).
  destruct (doctorId p) as [|c r]; cbn [Js.truthy negb].
  - split; [discriminate|]. intros [H _]. now elim H.
  - destruct hasWorkingDay, m, d; cbn [negb];
      (split; [try discriminate|]);
      try (intros _; repeat split; solve [discriminate | reflexivity]);
      try (intros [_ [H0 [H1 H2]]]; solve [discriminate | reflexivity]).
Qed.

(** C9.  The default preferences of a doctor with a non-empty id pass the
    validator. *)
Theorem default_preferences_valid (doctorId : string)
    (Hid : doctorId <> EmptyString) :
  validateDoctorPreferences (getDefaultDoctorPreferences doctorId) = true.
Proof.
  destruct doctorId as [|c r]; [now elim Hid|]. reflexivity.
Qed.

Lemma default_preferences_valid_witness :
  "demo-doctor-1" <> EmptyString
  /\ validateDoctorPreferences (getDefaultDoctorPreferences "demo-doctor-1")
     = true.
Proof.
  assert (H : "demo-doctor-1" <> EmptyString) by discriminate.
  split; [exact H|].
  exact (default_preferences_valid "demo-doctor-1" H).
Defined.

(** Without an id the defaults are refused. *)
Example default_preferences_empty_id :
  validateDoctorPreferences (getDefaultDoctorPreferences EmptyString) = false.
Proof. reflexivity. Qed.

End Validation.

(** ** The calls to the backend *)

Section Backend.
Import Types AiModel.

(** What each call comes to, by the outcome of its one request. *)
Lemma generateAIScheduleSuggestions_run (env : Env)
    (preferences : DoctorPreferences)
    (currentAppointments : list Appointment)
    (pendingPatients : list Patient) :
  run (generateAIScheduleSuggestions env preferences currentAppointments
         pendingPatients)
  = let label := "Error generating AI suggestions:" in
    match fetch env GenerateSuggestions
            (postRequest env GenerateSuggestions
               (mkSuggestionsRequest preferences currentAppointments
                  pendingPatients (now env))) with
    | Rejected => (Return [], [(label, TypeError "Failed to fetch")])
    | Resolved response =>
        if ok response then
          match json response with
          | Some suggestions => (Return suggestions, [])
          | None =>
              (Return [], [(label, SyntaxError "Unexpected token in JSON")])
          end
        else (Return [], [(label, Error "AI model request failed")])
    end.
Proof.
  unfold run, generateAIScheduleSuggestions, try_catch, bind, await_fetch.
  cbv zeta.
  destruct (fetch env GenerateSuggestions _) as [|response]; [reflexivity|].
  destruct response as [[|] [b|]]; reflexivity.
Qed.

Lemma detectScheduleConflicts_run (env : Env) (doctorId : string)
    (appointments : list Appointment) (preferences : DoctorPreferences) :
  run (detectScheduleConflicts env doctorId appointments preferences)
  = let label := "Error detecting conflicts:" in
    match fetch env DetectConflicts
            (postRequest env DetectConflicts
               (mkConflictsRequest doctorId appointments preferences)) with
    | Rejected => (Return [], [(label, TypeError "Failed to fetch")])
    | Resolved response =>
        if ok response then
          match json response with
          | Some conflicts => (Return conflicts, [])
          | None =>
              (Return [], [(label, SyntaxError "Unexpected token in JSON")])
          end
        else (Return [], [(label, Error "Conflict detection failed")])
    end.
Proof.
  unfold run, detectScheduleConflicts, try_catch, bind, await_fetch.
  cbv zeta.
  destruct (fetch env DetectConflicts _) as [|response]; [reflexivity|].
  destruct response as [[|] [b|]]; reflexivity.
Qed.

Lemma getOptimalAppointmentTime_run (env : Env) (patientId : string)
    (priority : Priority) (preferences : DoctorPreferences)
    (currentSchedule : list Appointment) :
  run (getOptimalAppointmentTime env patientId priority preferences
         currentSchedule)
  = let label := "Error getting optimal time:" in
    match fetch env OptimalTime
            (postRequest env OptimalTime
               (mkOptimalTimeRequest patientId priority preferences
                  currentSchedule)) with
    | Rejected =>
        let e := TypeError "Failed to fetch" in (Throw e, [(label, e)])
    | Resolved response =>
        if ok response then
          match json response with
          | Some best => (Return best, [])
          | None =>
              let e := SyntaxError "Unexpected token in JSON" in
              (Throw e, [(label, e)])
          end
        else
          let e := Error "Optimal time calculation failed" in
          (Throw e, [(label, e)])
    end.
Proof.
  unfold run, getOptimalAppointmentTime, try_catch, bind, await_fetch.
  cbv zeta.
  destruct (fetch env OptimalTime _) as [|response]; [reflexivity|].
  destruct response as [[|] [b|]]; reflexivity.
Qed.

(** The suggestion call never throws. *)
Lemma generateAIScheduleSuggestions_returns (env : Env)
    (preferences : DoctorPreferences)
    (currentAppointments : list Appointment)
    (pendingPatients : list Patient) :
  exists suggestions,
    result (generateAIScheduleSuggestions env preferences currentAppointments
              pendingPatients) = Return suggestions.
Proof.
  unfold result. rewrite generateAIScheduleSuggestions_run. cbv zeta.
  destruct (fetch env GenerateSuggestions _) as [|response];
    [now exists []|].
  destruct response as [[|] [l|]]; cbn [ok json];
    [now exists l|now exists []..].
Qed.

(** C1, as the code has it.  Validation is a check of its own that the
    suggestion call does not make: for preferences whose [maxPatientsPerDay]
    is below 1 or whose default duration is below 5 minutes the validator
    answers [false], while the suggestion call sends these preferences to
    the backend as they are and returns a list, that of the backend or the
    empty one. *)
Theorem validation_is_a_separate_check (p : DoctorPreferences)
    (Hbad : Js.ltNum (maxPatientsPerDay (constraints p)) (Js.Int 1) = true
            \/ Js.ltNum (defaultConsultationDuration (constraints p))
                  (Js.Int 5) = true) :
  validateDoctorPreferences p = false
  /\ forall env currentAppointments pendingPatients,
       let request :=
         postRequest env GenerateSuggestions
           (mkSuggestionsRequest p currentAppointments pendingPatients
              (now env)) in
       req_preferences (body request) = p
       /\ result (generateAIScheduleSuggestions env p currentAppointments
                    pendingPatients)
          = match fetch env GenerateSuggestions request with
            | Rejected => Return []
            | Resolved response =>
                if ok response then
                  match json response with
                  | Some suggestions => Return suggestions
                  | None => Return []
                  end
                else Return []
            end.
Proof.
  split.
  - apply not_true_is_false. rewrite validateDoctorPreferences_true_iff.
    intros [_ [_ [Hm Hd]]]. destruct Hbad; congruence.
  - intros. cbv zeta. split; [reflexivity|].
    unfold result. rewrite generateAIScheduleSuggestions_run. cbv zeta.
    destruct (fetch env GenerateSuggestions _) as [|[[|] [l|]]]; reflexivity.
Qed.

Lemma validation_is_a_separate_check_witness :
  (Js.ltNum (maxPatientsPerDay (constraints Demo.corruptPreferences))
     (Js.Int 1) = true
   \/ Js.ltNum (defaultConsultationDuration
                  (constraints Demo.corruptPreferences)) (Js.Int 5) = true)
  /\ (validateDoctorPreferences Demo.corruptPreferences = false
      /\ forall env currentAppointments pendingPatients,
           let request :=
             postRequest env GenerateSuggestions
               (mkSuggestionsRequest Demo.corruptPreferences
                  currentAppointments pendingPatients (now env)) in
           req_preferences (body request) = Demo.corruptPreferences
           /\ result (generateAIScheduleSuggestions env
                        Demo.corruptPreferences currentAppointments
                        pendingPatients)
              = match fetch env GenerateSuggestions request with
                | Rejected => Return []
                | Resolved response =>
                    if ok response then
                      match json response with
                      | Some suggestions => Return suggestions
                      | None => Return []
                      end
                    else Return []
                end).
Proof.
  assert (H : Js.ltNum (maxPatientsPerDay
                          (constraints Demo.corruptPreferences))
                (Js.Int 1) = true
              \/ Js.ltNum (defaultConsultationDuration
                             (constraints Demo.corruptPreferences))
                    (Js.Int 5) = true)
    by (left; reflexivity).
  split; [exact H|].
  exact (validation_is_a_separate_check Demo.corruptPreferences H).
Defined.

(** C1 fails as stated: with [maxPatientsPerDay] set to 0 the suggestion
    call is not rejected; the request goes out and the suggestion of the
    backend comes back. *)
Lemma invalid_constraints_not_rejected :
  Js.ltNum (maxPatientsPerDay (constraints Demo.corruptPreferences))
    (Js.Int 1) = true
  /\ run (generateAIScheduleSuggestions Demo.backendUp
            Demo.corruptPreferences Demo.demoAppointments [])
     = (Return [Demo.ai_001], []).
Proof. split; reflexivity. Qed.

(** C2, as the code has it.  The conflict call validates no record: the
    whole batch goes to the backend in one request, and the answer is the
    conflict list of the backend when the request succeeds and the empty
    list in every other case. *)
Theorem detectScheduleConflicts_all_or_nothing (env : Env)
    (doctorId : string) (appointments : list Appointment)
    (preferences : DoctorPreferences) :
  let request :=
    postRequest env DetectConflicts
      (mkConflictsRequest doctorId appointments preferences) in
  creq_appointments (body request) = appointments
  /\ result (detectScheduleConflicts env doctorId appointments preferences)
     = match fetch env DetectConflicts request with
       | Rejected => Return []
       | Resolved response =>
           if ok response then
             match json response with
             | Some conflicts => Return conflicts
             | None => Return []
             end
           else Return []
       end.
Proof.
  cbv zeta. split; [reflexivity|].
  unfold result. rewrite detectScheduleConflicts_run. cbv zeta.
  destruct (fetch env DetectConflicts _) as [|[[|] [l|]]]; reflexivity.
Qed.

(** C2 fails as stated: a batch holds two appointments that overlap and one
    whose start is not before its end; the backend refuses the batch, and
    the call returns no conflict at all and names no skipped id. *)
Lemma malformed_record_hides_all_conflicts :
  Js.ge (startTime Demo.apt_malformed) (endTime Demo.apt_malformed) = true
  /\ Js.lt (startTime Demo.apt_001) (endTime Demo.apt_overlapping) = true
  /\ Js.lt (startTime Demo.apt_overlapping) (endTime Demo.apt_001) = true
  /\ run (detectScheduleConflicts Demo.backendRefusing "demo-doctor-1"
            [Demo.apt_001; Demo.apt_overlapping; Demo.apt_malformed]
            (getDefaultDoctorPreferences "demo-doctor-1"))
     = (Return [],
        [("Error detecting conflicts:", Error "Conflict detection failed")]).
Proof. repeat split; reflexivity. Qed.




(** C4, as the code has it.  When the backend yields no suggestion (it is
    unreachable, answers with an error status, sends no JSON or sends an
    empty list) the suggestion call returns the empty list and does not
    throw. *)
Theorem no_suggestion_is_empty_not_error (env : Env)
    (preferences : DoctorPreferences)
    (currentAppointments : list Appointment)
    (pendingPatients : list Patient)
    (Hnone : yieldsNoSuggestion
               (fetch env GenerateSuggestions
                  (postRequest env GenerateSuggestions
                     (mkSuggestionsRequest preferences currentAppointments
                        pendingPatients (now env)))) = true) :
  result (generateAIScheduleSuggestions env preferences currentAppointments
            pendingPatients) = Return [].
Proof.
  unfold result. rewrite generateAIScheduleSuggestions_run. cbv zeta.
  destruct (fetch env GenerateSuggestions _) as [|[[|] [[|s l]|]]];
    try reflexivity.
  discriminate Hnone.
Qed.

Lemma no_suggestion_is_empty_not_error_witness :
  yieldsNoSuggestion
    (fetch Demo.backendRefusing GenerateSuggestions
       (postRequest Demo.backendRefusing GenerateSuggestions
          (mkSuggestionsRequest Demo.closedPreferences Demo.demoAppointments
             [] (now Demo.backendRefusing)))) = true
  /\ result (generateAIScheduleSuggestions Demo.backendRefusing
               Demo.closedPreferences Demo.demoAppointments [])
     = Return [].
Proof.
  assert (H : yieldsNoSuggestion
                (fetch Demo.backendRefusing GenerateSuggestions
                   (postRequest Demo.backendRefusing GenerateSuggestions
                      (mkSuggestionsRequest Demo.closedPreferences
                         Demo.demoAppointments []
                         (now Demo.backendRefusing)))) = true)
    by reflexivity.
  split; [exact H|].
  exact (no_suggestion_is_empty_not_error Demo.backendRefusing
           Demo.closedPreferences Demo.demoAppointments [] H).
Defined.

(** C4 fails as stated for the single-slot call: with every working day
    switched off and a backend that answers with an error status,
    [getOptimalAppointmentTime] logs the error and throws it again. *)
Lemma optimal_time_raises_when_nothing_available :
  existsb (fun day => enabled day)
    (Object_values (workingHours Demo.closedPreferences)) = false
  /\ run (getOptimalAppointmentTime Demo.backendRefusing "pat-001" normal
            Demo.closedPreferences Demo.demoAppointments)
     = (Throw (Error "Optimal time calculation failed"),
        [("Error getting optimal time:",
          Error "Optimal time calculation failed")]).
Proof. split; reflexivity. Qed.

End Backend.

(** ** Reading and printing clock times *)

Section ClockTimes.

Lemma isDigit_range (c : ascii) :
  Js.isDigit c = true <-> 48 <= Js.code c <= 57.
Proof. unfold Js.isDigit. rewrite andb_true_iff, !Z.leb_le. tauto. Qed.

Lemma digitVal_digit (c : ascii) :
  Js.isDigit c = true -> Js.digitVal c = Some (Js.code c - 48).
Proof.
  intros H. unfold Js.digitVal. cbv zeta.
  unfold Js.isDigit in H. now rewrite H.
Qed.

Lemma code_digitChar (d : Z) :
  0 <= d < 10 -> Js.code (Js.digitChar d) = 48 + d.
Proof.
  intros H. unfold Js.code, Js.digitChar.
  rewrite N_ascii_embedding by lia. lia.
Qed.

Lemma isDigit_digitChar (d : Z) :
  0 <= d < 10 -> Js.isDigit (Js.digitChar d) = true.
Proof. intros H. apply isDigit_range. rewrite code_digitChar; lia. Qed.

Lemma digitsAcc_allDigits (fuel : nat) :
  forall n acc, 0 <= n -> Js.allDigits acc = true ->
                Js.allDigits (Js.digitsAcc fuel n acc) = true.
Proof.
  induction fuel as [|f IH]; intros n acc Hn Hacc; simpl; [exact Hacc|].
  assert (D : Js.allDigits (String (Js.digitChar (n mod 10)) acc) = true).
  { simpl. rewrite Hacc, isDigit_digitChar; [reflexivity|].
    apply Z.mod_pos_bound; lia. }
  destruct (n <? 10); [exact D|].
  apply IH; [apply Z.div_pos; lia|exact D].
Qed.

Lemma digitsAcc_nonempty (fuel : nat) :
  forall n acc, fuel <> O -> Js.digitsAcc fuel n acc <> EmptyString.
Proof.
  induction fuel as [|f IH]; intros n acc Hf; [now elim Hf|]. simpl.
  destruct (n <? 10); [discriminate|].
  destruct f as [|f']; [simpl; discriminate|].
  apply IH. discriminate.
Qed.

(** Reading back the digits of [n] gives [n]. *)
Lemma parseDigits_digitsAcc (fuel : nat) :
  forall n acc, 0 <= n < 2 ^ Z.of_nat fuel -> fuel <> O ->
    Js.parseDigits 10 (Js.digitsAcc fuel n acc) None
    = Js.parseDigits 10 acc (Some n).
Proof.
  induction fuel as [|f IH]; intros n acc Hn Hf; [now elim Hf|].
  cbn [Js.digitsAcc]. cbv zeta.
  assert (Hm : 0 <= n mod 10 < 10) by (apply Z.mod_pos_bound; lia).
  destruct (Z.ltb_spec n 10) as [Hlt|Hge].
  - cbn [Js.parseDigits].
    rewrite (digitVal_digit _ (isDigit_digitChar _ Hm)), code_digitChar by lia.
    rewrite Z.mod_small by lia.
    replace (48 + n - 48) with n by lia.
    destruct (Z.ltb_spec n 10); [reflexivity|lia].
  - assert (Hf' : f <> O).
    { intros ->. change (2 ^ Z.of_nat 1) with 2 in Hn. lia. }
    rewrite IH; [| |exact Hf'].
    + cbn [Js.parseDigits].
      rewrite (digitVal_digit _ (isDigit_digitChar _ Hm)), code_digitChar
        by lia.
      replace (48 + n mod 10 - 48) with (n mod 10) by lia.
      destruct (Z.ltb_spec (n mod 10) 10); [|lia].
      do 2 f_equal. pose proof (Z.div_mod n 10). lia.
    + split; [apply Z.div_pos; lia|].
      rewrite Nat2Z.inj_succ, Z.pow_succ_r in Hn by lia.
      apply Z.div_lt_upper_bound; lia.
Qed.

Lemma digits_fuel (n : Z) :
  0 <= n -> n < 2 ^ Z.of_nat (S (Z.to_nat (Z.log2 n))).
Proof.
  intros Hn. rewrite Nat2Z.inj_succ, Z2Nat.id by apply Z.log2_nonneg.
  destruct (Z.eq_dec n 0) as [->|Hz]; [reflexivity|].
  apply Z.log2_spec. lia.
Qed.

Lemma digits_allDigits (n : Z) : 0 <= n -> Js.allDigits (Js.digits n) = true.
Proof. intros Hn. now apply digitsAcc_allDigits. Qed.

Lemma digits_nonempty (n : Z) : Js.digits n <> EmptyString.
Proof. apply digitsAcc_nonempty. discriminate. Qed.

Lemma parseDigits_digits (n : Z) :
  0 <= n -> Js.parseDigits 10 (Js.digits n) None = Some n.
Proof.
  intros Hn. unfold Js.digits.
  rewrite parseDigits_digitsAcc; [reflexivity| |discriminate].
  split; [exact Hn|now apply digits_fuel].
Qed.

Lemma digit_not_white (c : ascii) :
  Js.isDigit c = true -> Js.isWhite c = false.
Proof.
  intros H. apply isDigit_range in H. unfold Js.isWhite. cbv zeta.
  repeat match goal with
         | |- context [?a =? ?b] =>
             destruct (Z.eqb_spec a b); [lia|]
         | |- context [?a <=? ?b] =>
             destruct (Z.leb_spec a b)
         end; try reflexivity; lia.
Qed.

(** On a non-empty string of digits [parseInt] reads the decimal value. *)
Lemma parseIntString_allDigits (s : string) (v : Z) :
  Js.allDigits s = true -> Js.parseDigits 10 s None = Some v ->
  Js.parseIntString s = Js.Int v.
Proof.
  destruct s as [|c r]; [discriminate 2|].
  cbn [Js.allDigits]. rewrite andb_true_iff. intros [Hc Hr] Hv.
  unfold Js.parseIntString. cbn [Js.trimStart].
  rewrite (digit_not_white _ Hc).
  pose proof (proj1 (isDigit_range c) Hc) as Rc.
  destruct (Z.eqb_spec (Js.code c) 45); [lia|].
  destruct (Z.eqb_spec (Js.code c) 43); [lia|].
  assert (U : Js.parseUnsigned (String c r)
              = Js.parseDigits 10 (String c r) None).
  { destruct r as [|x r']; [reflexivity|]. unfold Js.parseUnsigned.
    cbn [Js.allDigits] in Hr. apply andb_true_iff in Hr.
    destruct Hr as [Hx _]. apply isDigit_range in Hx.
    destruct (Z.eqb_spec (Js.code x) 120); [lia|].
    destruct (Z.eqb_spec (Js.code x) 88); [lia|].
    now rewrite andb_false_r. }
  now rewrite U, Hv.
Qed.

(** Padding a printed number to two digits keeps its value. *)
Lemma padStart_digits (s : string) :
  Js.allDigits s = true -> s <> EmptyString ->
  Js.allDigits (Js.padStart 2 "0" s) = true
  /\ Js.parseDigits 10 (Js.padStart 2 "0" s) None
     = Js.parseDigits 10 s None.
Proof.
  intros Hs Hne. destruct s as [|c [|c' r]]; [now elim Hne| |].
  - cbn [Js.allDigits] in Hs. rewrite andb_true_r in Hs.
    change (Js.padStart 2 "0" (String c EmptyString))
      with (String "0" (String c EmptyString)).
    split.
    + cbn [Js.allDigits]. now rewrite Hs.
    + cbn [Js.parseDigits]. rewrite (digitVal_digit _ Hs).
      change (Js.digitVal "0") with (Some 0). cbn [Z.ltb Z.compare].
      apply isDigit_range in Hs.
      destruct (Z.ltb_spec (Js.code c - 48) 10); [|lia].
      do 2 f_equal.
  - unfold Js.padStart. cbn [String.length Nat.sub Js.repeat String.append].
    now split.
Qed.

Lemma printed_two_digits (n : Z) :
  0 <= n ->
  let s := Js.padStart 2 "0" (Js.toString (Js.Int n)) in
  Js.allDigits s = true /\ Js.parseIntString s = Js.Int n.
Proof.
  intros Hn. cbv zeta. unfold Js.toString.
  destruct (Z.ltb_spec n 0); [lia|].
  destruct (padStart_digits (Js.digits n) (digits_allDigits n Hn)
              (digits_nonempty n)) as [Ha Hp].
  split; [exact Ha|].
  apply parseIntString_allDigits; [exact Ha|].
  rewrite Hp. now apply parseDigits_digits.
Qed.

(** Splitting at the colon. *)
Lemma split_allDigits (s : string) :
  Js.allDigits s = true -> Js.split ":" s = [s].
Proof.
  induction s as [|c r IH]; [reflexivity|].
  cbn [Js.allDigits Js.split]. rewrite andb_true_iff. intros [Hc Hr].
  apply isDigit_range in Hc. change (Js.code ":") with 58.
  destruct (Z.eqb_spec (Js.code c) 58); [lia|].
  now rewrite (IH Hr).
Qed.

Lemma split_colon (a b : string) :
  Js.allDigits a = true -> Js.allDigits b = true ->
  Js.split ":" (a ++ ":" ++ b) = [a; b].
Proof.
  intros Ha Hb. induction a as [|c r IH].
  - cbn [String.append Js.split]. change (Js.code ":") with 58.
    cbn [Z.eqb Pos.eqb]. now rewrite (split_allDigits b Hb).
  - cbn [Js.allDigits] in Ha. apply andb_true_iff in Ha.
    destruct Ha as [Hc Hr]. apply isDigit_range in Hc.
    cbn [String.append Js.split]. change (Js.code ":") with 58.
    destruct (Z.eqb_spec (Js.code c) 58); [lia|].
    cbn [String.append] in IH. now rewrite (IH Hr).
Qed.

(** The clock time the handler prints reads back as the minutes it was
    given, as long as these are not negative. *)
Lemma timeToMinutes_printed (v : Z) :
  0 <= v ->
  App.timeToMinutes
    (Js.padStart 2 "0" (Js.toString (Js.floorDiv (Js.Int v) 60))
     ++ ":" ++ Js.padStart 2 "0" (Js.toString (Js.rem (Js.Int v) 60)))
  = Js.Int v.
Proof.
  intros Hv. cbn [Js.floorDiv Js.rem].
  assert (Hq : 0 <= v / 60) by (apply Z.div_pos; lia).
  assert (Hr : 0 <= Z.rem v 60) by (apply Z.rem_nonneg; lia).
  destruct (printed_two_digits _ Hq) as [Aq Pq].
  destruct (printed_two_digits _ Hr) as [Ar Pr].
  unfold App.timeToMinutes. rewrite split_colon by assumption.
  unfold App.minutesOf. cbn [nth_error Js.parseInt].
  rewrite Pq, Pr. cbn [Js.mul Js.add]. f_equal.
  rewrite Z.rem_mod_nonneg by lia.
  pose proof (Z.div_mod v 60). lia.
Qed.

(** A time in HH:mm format reads as hours times sixty plus minutes. *)
Lemma isHHmm_minutes (t : string) :
  App.isHHmm t = true ->
  exists v, App.timeToMinutes t = Js.Int v /\ 0 <= v < 24 * 60.
Proof.
  destruct t as [|h1 [|h2 [|c [|m1 [|m2 [|x r]]]]]]; try discriminate 1.
  cbn [App.isHHmm]. rewrite !andb_true_iff, !Z.ltb_lt, Z.eqb_eq.
  intros [[[[[[H1 H2] Hc] M1] M2] Hh] Hm].
  pose proof (proj1 (isDigit_range _) H1).
  pose proof (proj1 (isDigit_range _) H2).
  pose proof (proj1 (isDigit_range _) M1).
  pose proof (proj1 (isDigit_range _) M2).
  exists (((Js.code h1 - 48) * 10 + (Js.code h2 - 48)) * 60
          + ((Js.code m1 - 48) * 10 + (Js.code m2 - 48))).
  split; [|lia].
  assert (Ec : c = ":"%char) by (apply code_inj; exact Hc). subst c.
  assert (Ah : Js.allDigits (String h1 (String h2 EmptyString)) = true)
    by (cbn [Js.allDigits]; now rewrite H1, H2).
  assert (Am : Js.allDigits (String m1 (String m2 EmptyString)) = true)
    by (cbn [Js.allDigits]; now rewrite M1, M2).
  unfold App.timeToMinutes.
  change (String h1 (String h2 (String ":" (String m1 (String m2 EmptyString)))))
    with (String h1 (String h2 EmptyString)
          ++ ":" ++ String m1 (String m2 EmptyString)).
  rewrite split_colon by assumption.
  unfold App.minutesOf. cbn [nth_error Js.parseInt].
  rewrite (parseIntString_allDigits _
             ((Js.code h1 - 48) * 10 + (Js.code h2 - 48)) Ah),
          (parseIntString_allDigits _
             ((Js.code m1 - 48) * 10 + (Js.code m2 - 48)) Am).
  - reflexivity.
  - cbn [Js.parseDigits].
    rewrite (digitVal_digit _ M1), (digitVal_digit _ M2).
    destruct (Z.ltb_spec (Js.code m1 - 48) 10); [|lia].
    destruct (Z.ltb_spec (Js.code m2 - 48) 10); [|lia]. reflexivity.
  - cbn [Js.parseDigits].
    rewrite (digitVal_digit _ H1), (digitVal_digit _ H2).
    destruct (Z.ltb_spec (Js.code h1 - 48) 10); [|lia].
    destruct (Z.ltb_spec (Js.code h2 - 48) 10); [|lia]. reflexivity.
Qed.

End ClockTimes.

(** ** Rescheduling by drag and drop *)

Section Drop.
Import Types App.

(** The end time written by the handler lies as many minutes after the new
    start as the old end lay after the old start, provided it does not fall
    before midnight. *)
Lemma newEndTimeOf_minutes (appointment : Appointment)
    (newStartTime : string) (s e n : Z) :
  timeToMinutes (startTime appointment) = Js.Int s ->
  timeToMinutes (endTime appointment) = Js.Int e ->
  timeToMinutes newStartTime = Js.Int n ->
  0 <= n + (e - s) ->
  timeToMinutes (newEndTimeOf appointment newStartTime)
  = Js.Int (n + (e - s)).
Proof.
  unfold timeToMinutes at 1 2 3. intros Hs He Hn Hpos.
  unfold newEndTimeOf. cbv zeta. rewrite Hs, He, Hn.
  cbn [Js.sub Js.add]. now apply timeToMinutes_printed.
Qed.


(** The appointments state the handler leaves behind does not depend on the
    backend or on the demo mode. *)
Lemma appointments_after_drop
    (updateAppointment : string -> DropPatch -> bool)
    (currentDoctorId : option string) (appointments prev : list Appointment)
    (appointmentId newDate newStartTime : string) :
  appointments_after
    (handleAppointmentDrop updateAppointment currentDoctorId appointments
       prev appointmentId newDate newStartTime)
  = match findAppointment appointments appointmentId with
    | None => prev
    | Some appointment =>
        map (fun apt =>
               if String.eqb (id apt) appointmentId
               then withSchedule apt newDate newStartTime
                      (newEndTimeOf appointment newStartTime)
               else apt) prev
    end.
Proof.
  unfold handleAppointmentDrop.
  destruct (findAppointment appointments appointmentId); [|reflexivity].
  cbv zeta.
  destruct (match currentDoctorId with
            | Some doctor => String.eqb doctor "demo-doctor-1"
            | None => false
            end); [reflexivity|].
  destruct (updateAppointment _ _); reflexivity.
Qed.

(** Appointments with another id are left as they are, whatever the list and
    the times. *)
Lemma drop_frame (updateAppointment : string -> DropPatch -> bool)
    (currentDoctorId : option string) (appointments prev : list Appointment)
    (appointmentId newDate newStartTime : string) (i : nat)
    (apt : Appointment) :
  nth_error prev i = Some apt -> id apt <> appointmentId ->
  nth_error (appointments_after
               (handleAppointmentDrop updateAppointment currentDoctorId
                  appointments prev appointmentId newDate newStartTime)) i
  = Some apt.
Proof.
  intros Hi Hid. rewrite appointments_after_drop.
  destruct (findAppointment appointments appointmentId) as [a|];
    [|exact Hi].
  rewrite nth_error_map, Hi. cbn [option_map].
  now destruct (String.eqb_spec (id apt) appointmentId).
Qed.



(** The demo appointment of 09:00-09:30, dropped on tomorrow 14:00. *)
Example drop_demo :
  appointments_after
    (handleAppointmentDrop (fun _ _ => false) None Demo.demoAppointments
       Demo.demoAppointments "apt-001" Demo.tomorrowStr "14:00")
  = [withSchedule Demo.apt_001 Demo.tomorrowStr "14:00" "14:30";
     Demo.apt_002; Demo.apt_003].
Proof. reflexivity. Qed.

(** A drop on the last slot of the day view runs past midnight without
    losing the duration: the end reads 24:15. *)
Example drop_past_midnight :
  newEndTimeOf
    (withSchedule Demo.apt_001 Demo.today "22:30" "23:15") "23:30" = "24:15"
  /\ timeToMinutes "24:15" = Js.Int (23 * 60 + 30 + 45).
Proof. split; reflexivity. Qed.


End Drop.

(** ** The gap rule of the conflict detector *)

Section GapRule.
Import Types Detector.



















(** Why the converse asks for unique ids: a record holds ids, not
    appointments.  When the ids of a 09:00-09:30 and a 09:45-10:00
    appointment, 15 minutes apart, are used again on the next day for two
    appointments 5 minutes apart, a record with these two ids is emitted. *)
Example repeated_ids_name_another_pair :
  exists r,
    In r (detectGapConflicts
            [Demo.rec_0900; Demo.rec_0945;
             mkRecord "apt-a" "pat-001" "demo-doctor-1" Demo.tomorrowStr
               (mkWindow 540 570) normal scheduled;
             mkRecord "apt-c" "pat-003" "demo-doctor-1" Demo.tomorrowStr
               (mkWindow 575 600) normal scheduled] 10)
    /\ involvedAppointmentIds r = [id Demo.rec_0900; id Demo.rec_0945]
    /\ gap (window Demo.rec_0900) (window Demo.rec_0945) = 15.
Proof.
  eexists. split; [left; reflexivity|]. split; reflexivity.
Qed.

(** With a buffer of 10 minutes, 09:00-09:30 followed by 09:35-10:00 is
    flagged (5 < 10) and 09:00-09:30 followed by 09:45-10:00 is not. *)
Example gap_buffer_10 :
  detectGapConflicts [Demo.rec_0900; Demo.rec_0935] 10
  = [gapRecord Demo.rec_0900 Demo.rec_0935]
  /\ detectGapConflicts [Demo.rec_0900; Demo.rec_0945] 10 = [].
Proof. split; reflexivity. Qed.

(** With a buffer of 5 minutes the gap of 5 between 09:30 and 09:35 is at
    the threshold and is not flagged. *)
Example gap_at_threshold :
  detectGapConflicts [Demo.rec_0900; Demo.rec_0935] 5 = [].
Proof. reflexivity. Qed.

End GapRule.

(** ** Clock strings and their order *)

Section ClockOrder.
Import Types App Clock.

Lemma isHHmm_isClock (t : string) : isHHmm t = true -> isClock t = true.
Proof.
  destruct t as [|h1 [|h2 [|c [|m1 [|m2 [|x r]]]]]]; try discriminate 1.
  cbn [isHHmm isClock]. rewrite !andb_true_iff. tauto.
Qed.

(** A clock string reads, the way the handler reads times, as the minutes it
    stands for. *)
Lemma isClock_timeToMinutes (t : string) :
  isClock t = true ->
  timeToMinutes t = Js.Int (clockValue t) /\ 0 <= clockValue t < 6000.
Proof.
  destruct t as [|h1 [|h2 [|c [|m1 [|m2 [|x r]]]]]]; try discriminate 1.
  cbn [isClock clockValue]. rewrite !andb_true_iff, !Z.ltb_lt, Z.eqb_eq.
  intros [[[[[H1 H2] Hc] M1] M2] Hm].
  pose proof (proj1 (isDigit_range _) H1).
  pose proof (proj1 (isDigit_range _) H2).
  pose proof (proj1 (isDigit_range _) M1).
  pose proof (proj1 (isDigit_range _) M2).
  split; [|lia].
  assert (Ec : c = ":"%char) by (apply code_inj; exact Hc). subst c.
  assert (Ah : Js.allDigits (String h1 (String h2 EmptyString)) = true)
    by (cbn [Js.allDigits]; now rewrite H1, H2).
  assert (Am : Js.allDigits (String m1 (String m2 EmptyString)) = true)
    by (cbn [Js.allDigits]; now rewrite M1, M2).
  unfold timeToMinutes.
  change (String h1 (String h2 (String ":" (String m1 (String m2 EmptyString)))))
    with (String h1 (String h2 EmptyString)
          ++ ":" ++ String m1 (String m2 EmptyString)).
  rewrite split_colon by assumption.
  unfold minutesOf. cbn [nth_error Js.parseInt].
  rewrite (parseIntString_allDigits _
             ((Js.code h1 - 48) * 10 + (Js.code h2 - 48)) Ah),
          (parseIntString_allDigits _
             ((Js.code m1 - 48) * 10 + (Js.code m2 - 48)) Am).
  - reflexivity.
  - cbn [Js.parseDigits].
    rewrite (digitVal_digit _ M1), (digitVal_digit _ M2).
    destruct (Z.ltb_spec (Js.code m1 - 48) 10); [|lia].
    destruct (Z.ltb_spec (Js.code m2 - 48) 10); [|lia]. reflexivity.
  - cbn [Js.parseDigits].
    rewrite (digitVal_digit _ H1), (digitVal_digit _ H2).
    destruct (Z.ltb_spec (Js.code h1 - 48) 10); [|lia].
    destruct (Z.ltb_spec (Js.code h2 - 48) 10); [|lia]. reflexivity.
Qed.

(** On clock strings the string order is the order of the minutes. *)
Lemma clock_lt_value (a b : string) :
  isClock a = true -> isClock b = true ->
  (Js.lt a b = true <-> clockValue a < clockValue b).
Proof.
  destruct a as [|a1 [|a2 [|ac [|a3 [|a4 [|ax ar]]]]]]; try discriminate 1.
  destruct b as [|b1 [|b2 [|bc [|b3 [|b4 [|bx br]]]]]]; try discriminate 2.
  cbn [isClock clockValue Js.lt].
  rewrite !andb_true_iff, !Z.ltb_lt, !Z.eqb_eq.
  intros [[[[[A1 A2] Ac] A3] A4] Am] [[[[[B1 B2] Bc] B3] B4] Bm].
  apply isDigit_range in A1, A2, A3, A4, B1, B2, B3, B4.
  rewrite Ac, Bc, Z.eqb_refl.
  destruct (Z.eqb_spec (Js.code a1) (Js.code b1));
    [|rewrite Z.ltb_lt; lia].
  destruct (Z.eqb_spec (Js.code a2) (Js.code b2));
    [|rewrite Z.ltb_lt; lia].
  destruct (Z.eqb_spec (Js.code a3) (Js.code b3));
    [|rewrite Z.ltb_lt; lia].
  destruct (Z.eqb_spec (Js.code a4) (Js.code b4));
    [|rewrite Z.ltb_lt; lia].
  split; [discriminate|lia].
Qed.

Lemma clock_le_value (a b : string) :
  isClock a = true -> isClock b = true ->
  (Js.le a b = true <-> clockValue a <= clockValue b).
Proof.
  intros Ha Hb. unfold Js.le. rewrite negb_true_iff.
  pose proof (clock_lt_value b a Hb Ha) as H.
  destruct (Js.lt b a); split; intros G; try reflexivity; try discriminate.
  - assert (clockValue b < clockValue a) by now apply H. lia.
  - destruct (Z.lt_ge_cases (clockValue b) (clockValue a)) as [L|L]; [|lia].
    apply H in L. discriminate.
Qed.

End ClockOrder.

(** ** Printed clock times *)

Section PrintedClock.
Import Types App Clock.

Lemma pad2_digits_table :
  forallb (fun k =>
             String.eqb
               (Js.padStart 2 "0" (Js.digits (Z.of_nat k)))
               (String (Js.digitChar (Z.of_nat k / 10))
                  (String (Js.digitChar (Z.of_nat k mod 10)) EmptyString)))
          (seq 0 100) = true.
Proof. vm_compute. reflexivity. Qed.

(** A number below 100 is printed, after padding, as its two digits. *)
Lemma pad2_digits (n : Z) :
  0 <= n < 100 ->
  Js.padStart 2 "0" (Js.digits n)
  = String (Js.digitChar (n / 10))
      (String (Js.digitChar (n mod 10)) EmptyString).
Proof.
  intros Hn. pose proof pad2_digits_table as T.
  rewrite forallb_forall in T.
  specialize (T (Z.to_nat n)). rewrite Z2Nat.id in T by lia.
  apply String.eqb_eq, T, in_seq. lia.
Qed.

Lemma printClock_shape (v : Z) :
  0 <= v < 6000 ->
  printClock (Js.Int v)
  = String (Js.digitChar (v / 60 / 10))
      (String (Js.digitChar ((v / 60) mod 10))
         (String ":"
            (String (Js.digitChar (v mod 60 / 10))
               (String (Js.digitChar ((v mod 60) mod 10)) EmptyString)))).
Proof.
  intros Hv. unfold printClock. cbn [Js.floorDiv Js.rem Js.toString].
  rewrite Z.rem_mod_nonneg by lia.
  assert (Hq : 0 <= v / 60 < 100).
  { split; [apply Z.div_pos; lia|apply Z.div_lt_upper_bound; lia]. }
  assert (Hr : 0 <= v mod 60 < 60) by (apply Z.mod_pos_bound; lia).
  destruct (Z.ltb_spec (v / 60) 0); [lia|].
  destruct (Z.ltb_spec (v mod 60) 0); [lia|].
  rewrite !pad2_digits by lia. reflexivity.
Qed.

(** The end time the handler prints is a clock string standing for the
    minutes it was given. *)
Lemma printClock_isClock (v : Z) :
  0 <= v < 6000 ->
  isClock (printClock (Js.Int v)) = true
  /\ clockValue (printClock (Js.Int v)) = v.
Proof.
  intros Hv. rewrite printClock_shape by exact Hv.
  assert (Hq : 0 <= v / 60 < 100).
  { split; [apply Z.div_pos; lia|apply Z.div_lt_upper_bound; lia]. }
  assert (Hr : 0 <= v mod 60 < 60) by (apply Z.mod_pos_bound; lia).
  assert (D1 : 0 <= v / 60 / 10 < 10).
  { split; [apply Z.div_pos; lia|apply Z.div_lt_upper_bound; lia]. }
  assert (D2 : 0 <= (v / 60) mod 10 < 10) by (apply Z.mod_pos_bound; lia).
  assert (D3 : 0 <= v mod 60 / 10 < 10).
  { split; [apply Z.div_pos; lia|apply Z.div_lt_upper_bound; lia]. }
  assert (D4 : 0 <= (v mod 60) mod 10 < 10) by (apply Z.mod_pos_bound; lia).
  cbn [isClock clockValue].
  rewrite !isDigit_digitChar, !code_digitChar by assumption.
  change (Js.code ":") with 58. cbn [Z.eqb Pos.eqb andb].
  pose proof (Z.div_mod (v / 60) 10).
  pose proof (Z.div_mod (v mod 60) 10).
  pose proof (Z.div_mod v 60).
  split.
  - apply Z.ltb_lt. lia.
  - lia.
Qed.

Lemma newEndTimeOf_printClock (appointment : Appointment)
    (newStartTime : string) :
  newEndTimeOf appointment newStartTime
  = printClock
      (Js.add (timeToMinutes newStartTime)
         (Js.sub (timeToMinutes (endTime appointment))
            (timeToMinutes (startTime appointment)))).
Proof. reflexivity. Qed.

(** For an appointment with HH:mm times that does not end before it starts,
    moved to an HH:mm start, the new end is a clock string that many minutes
    after the new start. *)
Lemma newEndTimeOf_clock (appointment : Appointment)
    (newStartTime : string) :
  isHHmm (startTime appointment) = true ->
  isHHmm (endTime appointment) = true ->
  isHHmm newStartTime = true ->
  clockValue (startTime appointment) <= clockValue (endTime appointment) ->
  newEndTimeOf appointment newStartTime
  = printClock (Js.Int (clockValue newStartTime
                        + (clockValue (endTime appointment)
                           - clockValue (startTime appointment))))
  /\ isClock (newEndTimeOf appointment newStartTime) = true
  /\ clockValue (newEndTimeOf appointment newStartTime)
     = clockValue newStartTime
       + (clockValue (endTime appointment)
          - clockValue (startTime appointment)).
Proof.
  intros Hs He Hn Hle.
  destruct (isHHmm_minutes _ Hs) as [s [Es Rs]].
  destruct (isHHmm_minutes _ He) as [e [Ee Re]].
  destruct (isHHmm_minutes _ Hn) as [n [En Rn]].
  destruct (isClock_timeToMinutes _ (isHHmm_isClock _ Hs)) as [Cs _].
  destruct (isClock_timeToMinutes _ (isHHmm_isClock _ He)) as [Ce _].
  destruct (isClock_timeToMinutes _ (isHHmm_isClock _ Hn)) as [Cn _].
  assert (s = clockValue (startTime appointment)) by congruence.
  assert (e = clockValue (endTime appointment)) by congruence.
  assert (n = clockValue newStartTime) by congruence.
  subst s e n.
  rewrite newEndTimeOf_printClock, Cs, Ce, Cn. cbn [Js.sub Js.add].
  split; [reflexivity|].
  apply printClock_isClock. lia.
Qed.

End PrintedClock.

(** ** The day view in minutes *)

Section DayViewMinutes.
Import Types App Calendar Clock.

Lemma timeSlots_hours (t : string) :
  In t timeSlots ->
  isHHmm t = true
  /\ 8 <= clockValue t / 60 <= 19
  /\ clockValue t = 60 * (clockValue t / 60).
Proof.
  intros H.
  assert (B : isHHmm t
              && (8 <=? clockValue t / 60) && (clockValue t / 60 <=? 19)
              && (clockValue t =? 60 * (clockValue t / 60)) = true).
  { cbn in H. repeat (destruct H as [<-|H]; [reflexivity|]). contradiction. }
  rewrite !andb_true_iff, !Z.leb_le, Z.eqb_eq in B. tauto.
Qed.

Lemma hour_in_timeSlots (h : Z) :
  8 <= h <= 19 ->
  exists t, In t timeSlots /\ clockValue t = 60 * h.
Proof.
  intros Hh.
  exists (Js.padStart 2 "0" (Js.toString (Js.Int h)) ++ ":00").
  assert (E : h = 8 \/ h = 9 \/ h = 10 \/ h = 11 \/ h = 12 \/ h = 13
              \/ h = 14 \/ h = 15 \/ h = 16 \/ h = 17 \/ h = 18 \/ h = 19)
    by lia.
  repeat (destruct E as [->|E]; [split; [cbn; tauto|reflexivity]|]).
  subst h. split; [cbn; tauto|reflexivity].
Qed.

(** Membership in a row of the day view, in minutes since midnight. *)
Lemma aptsAtTime_minutes (today : list Appointment) (t : string)
    (apt : Appointment) :
  isClock t = true ->
  isClock (startTime apt) = true -> isClock (endTime apt) = true ->
  (In apt (aptsAtTime today t) <->
   In apt today
   /\ clockValue (startTime apt) <= clockValue t < clockValue (endTime apt)).
Proof.
  intros Ht Hs He. unfold aptsAtTime, Js.gt.
  rewrite filter_In, andb_true_iff, (clock_le_value _ _ Hs Ht),
    (clock_lt_value _ _ Ht He).
  tauto.
Qed.

(** X1.  On times in HH:mm format the string comparison of the day view
    agrees with the minutes the drop handler reads: [a < b] as strings
    exactly when [a] is fewer minutes after midnight than [b], and likewise
    for [<=]. *)
Theorem string_order_is_minute_order (a b : string) (va vb : Z)
    (Ha : isHHmm a = true) (Hb : isHHmm b = true)
    (Va : timeToMinutes a = Js.Int va) (Vb : timeToMinutes b = Js.Int vb) :
  (Js.lt a b = true <-> va < vb) /\ (Js.le a b = true <-> va <= vb).
Proof.
  destruct (isClock_timeToMinutes _ (isHHmm_isClock _ Ha)) as [Ca _].
  destruct (isClock_timeToMinutes _ (isHHmm_isClock _ Hb)) as [Cb _].
  assert (va = clockValue a) by congruence.
  assert (vb = clockValue b) by congruence. subst va vb.
  split.
  - apply clock_lt_value; now apply isHHmm_isClock.
  - apply clock_le_value; now apply isHHmm_isClock.
Qed.

Lemma string_order_is_minute_order_witness :
  isHHmm "09:30" = true /\ isHHmm "14:00" = true
  /\ timeToMinutes "09:30" = Js.Int 570
  /\ timeToMinutes "14:00" = Js.Int 840
  /\ ((Js.lt "09:30" "14:00" = true <-> 570 < 840)
      /\ (Js.le "09:30" "14:00" = true <-> 570 <= 840)).
Proof.
  assert (H1 : isHHmm "09:30" = true) by reflexivity.
  assert (H2 : isHHmm "14:00" = true) by reflexivity.
  assert (H3 : timeToMinutes "09:30" = Js.Int 570) by reflexivity.
  assert (H4 : timeToMinutes "14:00" = Js.Int 840) by reflexivity.
  repeat (split; [assumption|]).
  exact (string_order_is_minute_order "09:30" "14:00" 570 840 H1 H2 H3 H4).
Defined.

(** X2.  An appointment of the displayed date with HH:mm times is drawn in
    some row of the day view exactly when a full hour from 08:00 to 19:00
    lies in its half-open interval; an appointment between two hour marks,
    or before 08:00, or after 19:00, is drawn in no row. *)
Theorem day_view_visible_iff (appointments : list Appointment)
    (currentDateStr : string) (apt : Appointment) (s e : Z)
    (Hin : In apt appointments) (Hdate : date apt = currentDateStr)
    (Hs : isHHmm (startTime apt) = true) (He : isHHmm (endTime apt) = true)
    (Vs : timeToMinutes (startTime apt) = Js.Int s)
    (Ve : timeToMinutes (endTime apt) = Js.Int e) :
  (exists t shown,
      In (t, shown) (renderDayView appointments currentDateStr)
      /\ In apt shown)
  <-> exists h, 8 <= h <= 19 /\ s <= 60 * h < e.
Proof.
  pose proof (isHHmm_isClock _ Hs) as Cs.
  pose proof (isHHmm_isClock _ He) as Ce.
  destruct (isClock_timeToMinutes _ Cs) as [Es _].
  destruct (isClock_timeToMinutes _ Ce) as [Ee _].
  assert (s = clockValue (startTime apt)) by congruence.
  assert (e = clockValue (endTime apt)) by congruence. subst s e.
  assert (Htoday : In apt (filterAppointmentsByDate appointments
                             currentDateStr))
    by (apply filterAppointmentsByDate_In; split; assumption).
  unfold renderDayView. split.
  - intros [t [shown [Hrow Hshown]]].
    apply in_map_iff in Hrow. destruct Hrow as [t' [E Ht]].
    inversion E; subst t' shown; clear E.
    destruct (timeSlots_hours t Ht) as [Hc [Hr Hv]].
    apply (aptsAtTime_minutes _ _ _ (isHHmm_isClock _ Hc) Cs Ce) in Hshown.
    exists (clockValue t / 60). split; [exact Hr|]. rewrite <- Hv. tauto.
  - intros [h [Hr Hh]].
    destruct (hour_in_timeSlots h Hr) as [t [Ht Hv]].
    destruct (timeSlots_hours t Ht) as [Hc _].
    exists t, (aptsAtTime (filterAppointmentsByDate appointments
                             currentDateStr) t).
    split.
    + apply in_map_iff. exists t. split; [reflexivity|exact Ht].
    + apply (aptsAtTime_minutes _ _ _ (isHHmm_isClock _ Hc) Cs Ce).
      split; [exact Htoday|]. rewrite Hv. exact Hh.
Qed.

Lemma day_view_visible_iff_witness :
  In Demo.apt_003 Demo.demoAppointments
  /\ date Demo.apt_003 = Demo.tomorrowStr
  /\ isHHmm (startTime Demo.apt_003) = true
  /\ isHHmm (endTime Demo.apt_003) = true
  /\ timeToMinutes (startTime Demo.apt_003) = Js.Int 570
  /\ timeToMinutes (endTime Demo.apt_003) = Js.Int 600
  /\ ((exists t shown,
          In (t, shown) (renderDayView Demo.demoAppointments Demo.tomorrowStr)
          /\ In Demo.apt_003 shown)
      <-> exists h, 8 <= h <= 19 /\ 570 <= 60 * h < 600).
Proof.
  assert (H1 : In Demo.apt_003 Demo.demoAppointments)
    by (right; right; left; reflexivity).
  assert (H2 : date Demo.apt_003 = Demo.tomorrowStr) by reflexivity.
  assert (H3 : isHHmm (startTime Demo.apt_003) = true) by reflexivity.
  assert (H4 : isHHmm (endTime Demo.apt_003) = true) by reflexivity.
  assert (H5 : timeToMinutes (startTime Demo.apt_003) = Js.Int 570)
    by reflexivity.
  assert (H6 : timeToMinutes (endTime Demo.apt_003) = Js.Int 600)
    by reflexivity.
  repeat (split; [assumption|]).
  exact (day_view_visible_iff Demo.demoAppointments Demo.tomorrowStr
           Demo.apt_003 570 600 H1 H2 H3 H4 H5 H6).
Defined.

(** The demo appointment of 09:30-10:00 is in no row of its day. *)
Example day_view_hides_apt_003 :
  map (fun row => map id (snd row))
      (renderDayView Demo.demoAppointments Demo.tomorrowStr)
  = [[]; []; []; []; []; []; []; []; []; []; []; []].
Proof. reflexivity. Qed.

End DayViewMinutes.

(** ** Drops, seen from the calendar *)

Section DropComposition.
Import Types App Calendar Clock.

Lemma handleDrop_slot (appointmentId dateStr t : string) :
  In t timeSlots ->
  handleDrop appointmentId dateStr (Some t) = (appointmentId, dateStr, t).
Proof.
  intros H. unfold handleDrop.
  destruct t as [|c r]; [|reflexivity].
  cbn in H. repeat (destruct H as [H|H]; [discriminate H|]). contradiction.
Qed.

Lemma findAppointment_Some (l : list Appointment) (appointmentId : string)
    (a : Appointment) :
  findAppointment l appointmentId = Some a ->
  In a l /\ id a = appointmentId.
Proof.
  unfold findAppointment. intros H. apply find_some in H.
  now rewrite String.eqb_eq in H.
Qed.

(** After the update of the handler, looking the id up again finds the
    updated appointment. *)
Lemma findAppointment_map_update (f : Appointment -> Appointment)
    (appointmentId : string) (Hid : forall x, id (f x) = id x) :
  forall (l : list Appointment) (a : Appointment),
    findAppointment l appointmentId = Some a ->
    findAppointment
      (map (fun apt => if String.eqb (id apt) appointmentId
                       then f apt else apt) l) appointmentId
    = Some (f a).
Proof.
  unfold findAppointment. induction l as [|x r IH]; intros a H;
    [discriminate|].
  cbn [map find] in *.
  destruct (String.eqb_spec (id x) appointmentId) as [E|N].
  - inversion H; subst a. rewrite Hid.
    destruct (String.eqb_spec (id x) appointmentId); [reflexivity|easy].
  - destruct (String.eqb_spec (id x) appointmentId); [easy|]. now apply IH.
Qed.

Lemma ltNum_false_le (a b : string) :
  isHHmm a = true -> isHHmm b = true ->
  Js.ltNum (timeToMinutes b) (timeToMinutes a) = false ->
  clockValue a <= clockValue b.
Proof.
  intros Ha Hb H.
  destruct (isClock_timeToMinutes _ (isHHmm_isClock _ Ha)) as [Ea _].
  destruct (isClock_timeToMinutes _ (isHHmm_isClock _ Hb)) as [Eb _].
  rewrite Ea, Eb in H. cbn [Js.ltNum] in H. now apply Z.ltb_ge in H.
Qed.

(** X3.  A drop on a row of the day view lands in that row: when an
    appointment with HH:mm times and a positive duration is dropped on the
    slot [t] of the displayed date, the day view of the new list draws it,
    moved to that date with start [t], in the row of [t]. *)
Theorem drop_lands_in_its_row
    (updateAppointment : string -> DropPatch -> bool)
    (currentDoctorId : option string) (appointments : list Appointment)
    (appointmentId dateStr t : string) (target : Appointment)
    (Hpresent : findAppointment appointments appointmentId = Some target)
    (Hstart : isHHmm (startTime target) = true)
    (Hend : isHHmm (endTime target) = true)
    (Hpositive : Js.lt (startTime target) (endTime target) = true)
    (Hslot : In t timeSlots) :
  let drop := handleDrop appointmentId dateStr (Some t) in
  let after :=
    appointments_after
      (handleAppointmentDrop updateAppointment currentDoctorId appointments
         appointments (fst (fst drop)) (snd (fst drop)) (snd drop)) in
  exists shown moved,
    In (t, shown) (renderDayView after dateStr)
    /\ In moved shown
    /\ moved = withSchedule target dateStr t (endTime moved).
Proof.
  cbv zeta. rewrite (handleDrop_slot _ _ _ Hslot). cbn [fst snd].
  rewrite appointments_after_drop, Hpresent.
  destruct (timeSlots_hours t Hslot) as [Ht _].
  destruct (findAppointment_Some _ _ _ Hpresent) as [Hin Hid].
  pose proof (proj1 (clock_lt_value _ _ (isHHmm_isClock _ Hstart)
                       (isHHmm_isClock _ Hend)) Hpositive) as Hlt.
  destruct (newEndTimeOf_clock target t Hstart Hend Ht ltac:(lia))
    as [_ [Hc Hv]].
  set (moved := withSchedule target dateStr t (newEndTimeOf target t)).
  set (after := map _ appointments).
  assert (Hafter : In moved after).
  { unfold after. apply in_map_iff. exists target. split; [|exact Hin].
    destruct (String.eqb_spec (id target) appointmentId); [reflexivity|easy]. }
  exists (aptsAtTime (filterAppointmentsByDate after dateStr) t), moved.
  split; [|split; [|reflexivity]].
  - unfold renderDayView. apply in_map_iff. exists t. now split.
  - apply aptsAtTime_minutes;
      [now apply isHHmm_isClock|now apply isHHmm_isClock|exact Hc|].
    split.
    + apply filterAppointmentsByDate_In. now split.
    + cbn [moved withSchedule startTime endTime]. rewrite Hv. lia.
Qed.

Lemma drop_lands_in_its_row_witness :
  findAppointment Demo.demoAppointments "apt-002" = Some Demo.apt_002
  /\ isHHmm (startTime Demo.apt_002) = true
  /\ isHHmm (endTime Demo.apt_002) = true
  /\ Js.lt (startTime Demo.apt_002) (endTime Demo.apt_002) = true
  /\ In "16:00" timeSlots
  /\ (let drop := handleDrop "apt-002" Demo.tomorrowStr (Some "16:00") in
      let after :=
        appointments_after
          (handleAppointmentDrop (fun _ _ => true) None Demo.demoAppointments
             Demo.demoAppointments (fst (fst drop)) (snd (fst drop))
             (snd drop)) in
      exists shown moved,
        In ("16:00", shown) (renderDayView after Demo.tomorrowStr)
        /\ In moved shown
        /\ moved = withSchedule Demo.apt_002 Demo.tomorrowStr "16:00"
                     (endTime moved)).
Proof.
  assert (H1 : findAppointment Demo.demoAppointments "apt-002"
               = Some Demo.apt_002) by reflexivity.
  assert (H2 : isHHmm (startTime Demo.apt_002) = true) by reflexivity.
  assert (H3 : isHHmm (endTime Demo.apt_002) = true) by reflexivity.
  assert (H4 : Js.lt (startTime Demo.apt_002) (endTime Demo.apt_002) = true)
    by reflexivity.
  assert (H5 : In "16:00" timeSlots) by (cbn; tauto).
  repeat (split; [assumption|]).
  exact (drop_lands_in_its_row (fun _ _ => true) None Demo.demoAppointments
           "apt-002" Demo.tomorrowStr "16:00" Demo.apt_002 H1 H2 H3 H4 H5).
Defined.



(** X5.  The optimistic update and the request agree, and the update never
    waits for the backend: an id that is not in the list changes nothing
    and sends nothing; otherwise the list after the drop is the same
    whoever is logged in and whatever the backend answers, and a request,
    when one is sent, is for the dropped id and carries the date, start and
    end that were written into the list. *)
Theorem drop_request_matches_update
    (updateAppointment : string -> DropPatch -> bool)
    (currentDoctorId : option string) (appointments prev : list Appointment)
    (appointmentId newDate newStartTime : string) :
  let r := handleAppointmentDrop updateAppointment currentDoctorId
             appointments prev appointmentId newDate newStartTime in
  (findAppointment appointments appointmentId = None ->
   r = mkDropResult prev [] None)
  /\ (forall updateAppointment' currentDoctorId',
        appointments_after
          (handleAppointmentDrop updateAppointment' currentDoctorId'
             appointments prev appointmentId newDate newStartTime)
        = appointments_after r)
  /\ (forall i patch,
        backendCall r = Some (i, patch) ->
        i = appointmentId
        /\ currentDoctorId <> Some "demo-doctor-1"
        /\ forall apt, In apt (appointments_after r) ->
                       id apt = appointmentId ->
                       date apt = patch_date patch
                       /\ startTime apt = patch_startTime patch
                       /\ endTime apt = patch_endTime patch).
Proof.
  cbv zeta. split; [|split].
  - intros H. unfold handleAppointmentDrop. now rewrite H.
  - intros. now rewrite !appointments_after_drop.
  - intros i patch Hcall. rewrite appointments_after_drop.
    unfold handleAppointmentDrop in Hcall.
    destruct (findAppointment appointments appointmentId) as [a|];
      [|discriminate Hcall].
    cbv zeta in Hcall.
    assert (Hpatch : (i, patch)
                     = (appointmentId,
                        mkPatch newDate newStartTime
                          (newEndTimeOf a newStartTime))
                     /\ currentDoctorId <> Some "demo-doctor-1").
    { destruct currentDoctorId as [d|].
      - destruct (String.eqb_spec d "demo-doctor-1") as [->|N];
          [discriminate Hcall|].
        split; [|congruence].
        destruct (updateAppointment _ _); cbn [backendCall] in Hcall;
          now inversion Hcall.
      - split; [|discriminate].
        destruct (updateAppointment _ _); cbn [backendCall] in Hcall;
          now inversion Hcall. }
    destruct Hpatch as [Hp Hd]. inversion Hp; subst i patch.
    split; [reflexivity|]. split; [exact Hd|].
    intros apt Hin Hid. apply in_map_iff in Hin.
    destruct Hin as [x [Hx _]].
    destruct (String.eqb_spec (id x) appointmentId) as [E|N].
    + subst apt. cbn. auto.
    + subst apt. easy.
Qed.

(** X6.  The last drop wins: for an appointment with HH:mm times that does
    not end before it starts, dropping it on one HH:mm target and then on
    another gives the list that the second drop alone gives; in particular
    repeating a drop changes nothing more. *)
Theorem last_drop_wins
    (upd1 upd2 upd3 : string -> DropPatch -> bool)
    (doc1 doc2 doc3 : option string) (appointments : list Appointment)
    (appointmentId date1 time1 date2 time2 : string) (target : Appointment)
    (Hpresent : findAppointment appointments appointmentId = Some target)
    (Hstart : isHHmm (startTime target) = true)
    (Hend : isHHmm (endTime target) = true)
    (Horder : Js.ltNum (timeToMinutes (endTime target))
                (timeToMinutes (startTime target)) = false)
    (Htime1 : isHHmm time1 = true) (Htime2 : isHHmm time2 = true) :
  let once :=
    appointments_after
      (handleAppointmentDrop upd1 doc1 appointments appointments
         appointmentId date1 time1) in
  appointments_after
    (handleAppointmentDrop upd2 doc2 once once appointmentId date2 time2)
  = appointments_after
      (handleAppointmentDrop upd3 doc3 appointments appointments
         appointmentId date2 time2).
Proof.
  cbv zeta. rewrite !appointments_after_drop, Hpresent.
  rewrite (findAppointment_map_update
             (fun apt => withSchedule apt date1 time1
                           (newEndTimeOf target time1))
             appointmentId (fun x => eq_refl) appointments target Hpresent).
  destruct (isHHmm_minutes _ Hstart) as [s [Es Rs]].
  destruct (isHHmm_minutes _ Hend) as [e [Ee Re]].
  destruct (isHHmm_minutes _ Htime1) as [n1 [E1 R1]].
  destruct (isHHmm_minutes _ Htime2) as [n2 [E2 R2]].
  rewrite Es, Ee in Horder. cbn [Js.ltNum] in Horder.
  apply Z.ltb_ge in Horder.
  assert (Hsame : newEndTimeOf
                    (withSchedule target date1 time1
                       (newEndTimeOf target time1)) time2
                  = newEndTimeOf target time2).
  { rewrite !(newEndTimeOf_printClock _ time2).
    cbn [withSchedule startTime endTime].
    rewrite (newEndTimeOf_minutes target time1 s e n1 Es Ee E1 ltac:(lia)).
    rewrite E1, Es, Ee. cbn [Js.sub]. do 3 f_equal. lia. }
  rewrite Hsame, map_map. apply map_ext. intros x.
  destruct (String.eqb_spec (id x) appointmentId) as [E|N].
  - cbn [withSchedule id].
    destruct (String.eqb_spec (id x) appointmentId); [reflexivity|easy].
  - destruct (String.eqb_spec (id x) appointmentId); [easy|reflexivity].
Qed.

Lemma last_drop_wins_witness :
  findAppointment Demo.demoAppointments "apt-001" = Some Demo.apt_001
  /\ isHHmm (startTime Demo.apt_001) = true
  /\ isHHmm (endTime Demo.apt_001) = true
  /\ Js.ltNum (timeToMinutes (endTime Demo.apt_001))
       (timeToMinutes (startTime Demo.apt_001)) = false
  /\ isHHmm "18:00" = true /\ isHHmm "10:00" = true
  /\ (let once :=
        appointments_after
          (handleAppointmentDrop (fun _ _ => true) None Demo.demoAppointments
             Demo.demoAppointments "apt-001" Demo.tomorrowStr "18:00") in
      appointments_after
        (handleAppointmentDrop (fun _ _ => false) None once once "apt-001"
           Demo.today "10:00")
      = appointments_after
          (handleAppointmentDrop (fun _ _ => true) (Some "demo-doctor-1")
             Demo.demoAppointments Demo.demoAppointments "apt-001"
             Demo.today "10:00")).
Proof.
  assert (H1 : findAppointment Demo.demoAppointments "apt-001"
               = Some Demo.apt_001) by reflexivity.
  assert (H2 : isHHmm (startTime Demo.apt_001) = true) by reflexivity.
  assert (H3 : isHHmm (endTime Demo.apt_001) = true) by reflexivity.
  assert (H4 : Js.ltNum (timeToMinutes (endTime Demo.apt_001))
                 (timeToMinutes (startTime Demo.apt_001)) = false)
    by reflexivity.
  assert (H5 : isHHmm "18:00" = true) by reflexivity.
  assert (H6 : isHHmm "10:00" = true) by reflexivity.
  repeat (split; [assumption|]).
  exact (last_drop_wins (fun _ _ => true) (fun _ _ => false)
           (fun _ _ => true) None None (Some "demo-doctor-1")
           Demo.demoAppointments "apt-001" Demo.tomorrowStr "18:00"
           Demo.today "10:00" Demo.apt_001 H1 H2 H3 H4 H5 H6).
Defined.

End DropComposition.

(** ** The month grid *)

Section MonthGrid.
Import Types Calendar CalendarGrid.

(** X7.  A cell of the month view accounts for every appointment of its
    day: it draws the first two and its "+n more" line counts exactly the
    others; the line is absent exactly when the day has at most two. *)
Theorem month_cell_accounts_for_all (appointments : list Appointment)
    (dayStr : string) :
  let day := weekCell appointments dayStr in
  let shown := fst (monthCell appointments dayStr) in
  let more := snd (monthCell appointments dayStr) in
  day = (shown ++ skipn 2 day)%list
  /\ (List.length shown <= 2)%nat
  /\ Z.of_nat (List.length shown)
     + match more with Some n => n | None => 0 end
     = Z.of_nat (List.length day)
  /\ (more = None <-> (List.length day <= 2)%nat).
Proof.
  cbv zeta. unfold monthCell, weekCell. cbn [fst snd].
  set (day := filterAppointmentsByDate appointments dayStr).
  split; [symmetry; apply firstn_skipn|].
  split; [apply firstn_le_length|].
  rewrite length_firstn.
  destruct (Z.gtb_spec (Z.of_nat (List.length day)) 2) as [G|G].
  - split; [lia|]. split; [discriminate|lia].
  - split; [lia|]. split; [lia|reflexivity].
Qed.

End MonthGrid.

(** ** The patient list *)

Section PatientList.
Import Types PatientPanel.

Lemma insertSorted_perm {A} (compare : A -> A -> Z) (x : A) (l : list A) :
  Permutation (x :: l) (insertSorted compare x l).
Proof.
  induction l as [|y r IH]; cbn [insertSorted]; [reflexivity|].
  destruct (compare x y <=? 0); [reflexivity|].
  rewrite perm_swap. now apply perm_skip.
Qed.

Lemma sort_perm {A} (compare : A -> A -> Z) (l : list A) :
  Permutation l (sort compare l).
Proof.
  unfold sort. induction l as [|x r IH]; cbn [fold_right]; [reflexivity|].
  rewrite <- insertSorted_perm. now apply perm_skip.
Qed.




(** [includes] finds [q] exactly when [s] is some text, then [q], then some
    text. *)
Lemma prefix_append (q s : string) :
  String.prefix q s = true <-> exists b, s = q ++ b.
Proof.
  revert s. induction q as [|c q IH]; intros s.
  - destruct s; cbn; split; eauto.
  - destruct s as [|d s]; cbn [String.prefix].
    + split; [discriminate|]. intros [b H]. discriminate H.
    + destruct (Ascii.ascii_dec c d) as [->|N].
      * rewrite IH. split; intros [b H]; exists b.
        -- cbn. now f_equal.
        -- cbn in H. now inversion H.
      * split; [discriminate|]. intros [b H]. cbn in H. inversion H.
        now elim N.
Qed.

Lemma includes_append (s q : string) :
  includes s q = true <-> exists a b, s = a ++ q ++ b.
Proof.
  induction s as [|c s IH]; cbn [includes]; rewrite orb_true_iff,
    prefix_append.
  - split.
    + intros [[b H]|H]; [|discriminate]. now exists EmptyString, b.
    + intros [a [b H]]. left. destruct a; [now exists b|discriminate H].
  - rewrite IH. split.
    + intros [[b H]|[a [b H]]].
      * now exists EmptyString, b.
      * exists (String c a), b. cbn. now f_equal.
    + intros [a [b H]]. destruct a as [|d a].
      * left. now exists b.
      * right. cbn in H. inversion H. now exists a, b.
Qed.

Lemma append_assoc (a b c : string) : (a ++ b) ++ c = a ++ (b ++ c).
Proof. induction a as [|x a IH]; cbn; [reflexivity|now f_equal]. Qed.

Lemma toLowerCase_append (a b : string) :
  toLowerCase (a ++ b) = toLowerCase a ++ toLowerCase b.
Proof. induction a as [|x a IH]; cbn; [reflexivity|now f_equal]. Qed.

Lemma includes_trans (s q q' : string) :
  includes s q = true -> includes q q' = true -> includes s q' = true.
Proof.
  rewrite !includes_append. intros [a [b ->]] [a' [b' ->]].
  exists (a ++ a'), (b' ++ b). now rewrite !append_assoc.
Qed.

Lemma includes_toLowerCase (q q' : string) :
  includes q q' = true ->
  includes (toLowerCase q) (toLowerCase q') = true.
Proof.
  rewrite !includes_append. intros [a [b ->]].
  exists (toLowerCase a), (toLowerCase b).
  now rewrite !toLowerCase_append.
Qed.

(** X9.  Narrowing an ASCII search never brings a patient back: for a
    query of ASCII characters, every patient listed for the query is listed
    for each part of it, in particular for what was typed before it and for
    the empty search box.  (The query is ASCII so that lowering it and
    taking a part of it commute, which a capital sigma at the end of a part
    would break.) *)
Theorem search_narrows (patients : list Patient) (query part : string)
    (patient : Patient)
    (Hascii : isAscii query = true)
    (Hpart : includes query part = true)
    (Hlisted : In patient (sortedPatients patients query)) :
  In patient (sortedPatients patients part)
  /\ In patient (sortedPatients patients EmptyString).
Proof.
  assert (M : forall q, In patient (sortedPatients patients q)
                        <-> In patient patients /\ matches q patient = true).
  { intros q. unfold sortedPatients, filteredPatients.
    rewrite <- filter_In. split; intros H.
    - eapply Permutation_in; [apply Permutation_sym, sort_perm|exact H].
    - eapply Permutation_in; [apply sort_perm|exact H]. }
  apply M in Hlisted. destruct Hlisted as [Hin Hm].
  pose proof (includes_toLowerCase _ _ Hpart) as Hp.
  split; apply M; (split; [exact Hin|]).
  - unfold matches in *. rewrite !orb_true_iff in *.
    destruct Hm as [[H|H]|H];
      [left; left|left; right|right]; eapply includes_trans; eauto.
  - unfold matches. cbn [toLowerCase].
    destruct (toLowerCase (patient_name patient)); reflexivity.
Qed.

Lemma search_narrows_witness :
  isAscii "Sharma" = true
  /\ includes "Sharma" "Sha" = true
  /\ In Dashboard.pat_002 (sortedPatients Dashboard.demoPatients "Sharma")
  /\ In Dashboard.pat_002 (sortedPatients Dashboard.demoPatients "Sha")
  /\ In Dashboard.pat_002 (sortedPatients Dashboard.demoPatients EmptyString).
Proof.
  assert (H0 : isAscii "Sharma" = true) by reflexivity.
  assert (H1 : includes "Sharma" "Sha" = true) by reflexivity.
  assert (H2 : In Dashboard.pat_002
                 (sortedPatients Dashboard.demoPatients "Sharma"))
    by (vm_compute; left; reflexivity).
  split; [exact H0|]. split; [exact H1|]. split; [exact H2|].
  exact (search_narrows Dashboard.demoPatients "Sharma" "Sha"
           Dashboard.pat_002 H0 H1 H2).
Defined.

End PatientList.

(** ** The settings panel *)

Section SettingsPanel.
Import AiModel Settings.

(** X10.  Emptying a number field of the settings panel does not make the
    preferences invalid: [parseInt] of a text with no leading number is NaN,
    the constraint becomes NaN, and preferences that passed
    [validateDoctorPreferences] before still pass. *)
Theorem cleared_number_field_passes_validation (st : PanelState)
    (field : ConstraintField) (text : string)
    (Hvalid : validateDoctorPreferences (preferences st) = true)
    (Hnan : Js.parseInt (Some text) = Js.NaN) :
  readConstraint (constraints (preferences (onNumberInput st field text)))
    field = Js.NaN
  /\ validateDoctorPreferences (preferences (onNumberInput st field text))
     = true.
Proof.
  unfold onNumberInput. rewrite Hnan.
  split; [now destruct field|].
  apply validateDoctorPreferences_true_iff.
  apply validateDoctorPreferences_true_iff in Hvalid.
  destruct Hvalid as [Hid [Hday [Hm Hd]]].
  cbn [handleConstraintChange preferences withConstraints doctorId
       workingHours constraints].
  split; [exact Hid|]. split; [exact Hday|].
  split; destruct field;
    cbn [withConstraintField maxPatientsPerDay defaultConsultationDuration];
    first [assumption | reflexivity].
Qed.

Lemma cleared_number_field_passes_validation_witness :
  validateDoctorPreferences
    (preferences
       (mkPanelState (getDefaultDoctorPreferences "demo-doctor-1") false
          false)) = true
  /\ Js.parseInt (Some EmptyString) = Js.NaN
  /\ (readConstraint
        (constraints
           (preferences
              (onNumberInput
                 (mkPanelState (getDefaultDoctorPreferences "demo-doctor-1")
                    false false)
                 key_maxPatientsPerDay EmptyString)))
        key_maxPatientsPerDay = Js.NaN
      /\ validateDoctorPreferences
           (preferences
              (onNumberInput
                 (mkPanelState (getDefaultDoctorPreferences "demo-doctor-1")
                    false false)
                 key_maxPatientsPerDay EmptyString)) = true).
Proof.
  assert (H1 : validateDoctorPreferences
                 (preferences
                    (mkPanelState
                       (getDefaultDoctorPreferences "demo-doctor-1") false
                       false)) = true) by reflexivity.
  assert (H2 : Js.parseInt (Some EmptyString) = Js.NaN) by reflexivity.
  split; [exact H1|]. split; [exact H2|].
  exact (cleared_number_field_passes_validation
           (mkPanelState (getDefaultDoctorPreferences "demo-doctor-1") false
              false)
           key_maxPatientsPerDay EmptyString H1 H2).
Defined.

Lemma removeAt_app_last {A} (l : list A) (x : A) :
  removeAt (List.length l) (l ++ [x]) = l.
Proof. induction l as [|y r IH]; cbn; [reflexivity|now f_equal]. Qed.

Lemma removeAt_out_of_range {A} (l : list A) :
  forall index, (List.length l <= index)%nat -> removeAt index l = l.
Proof.
  induction l as [|y r IH]; intros [|i] H; cbn in *; try reflexivity;
    try lia.
  f_equal. apply IH. lia.
Qed.

Lemma removeAt_in_range {A} (l : list A) :
  forall index, (index < List.length l)%nat ->
    removeAt index l = (firstn index l ++ skipn (S index) l)%list.
Proof.
  induction l as [|y r IH]; intros [|i] H; cbn in *; try reflexivity;
    try lia.
  f_equal. apply IH. lia.
Qed.

(** X11.  Break times are removed by position: removing the break that was
    just added gives back the preferences as they were; an index inside the
    list takes out that one break and keeps the others in order; an index
    outside the list leaves the preferences as they are. *)
Theorem break_time_add_remove (st : PanelState) (index : nat) :
  let breaks := breakTimes (constraints (preferences st)) in
  preferences (removeBreakTime (addBreakTime st) (List.length breaks))
  = preferences st
  /\ breakTimes (constraints (preferences (removeBreakTime st index)))
     = (if (index <? List.length breaks)%nat
        then firstn index breaks ++ skipn (S index) breaks
        else breaks)%list
  /\ workingHours (preferences (removeBreakTime st index))
     = workingHours (preferences st).
Proof.
  cbv zeta. destruct st as [[i w [m d e b buf n a] ai sp] sv ch].
  cbn [removeBreakTime addBreakTime preferences withConstraints
       withBreakTimes constraints breakTimes doctorId workingHours
       aiPreferences specialtySettings maxPatientsPerDay
       defaultConsultationDuration emergencyConsultationDuration
       bufferBetweenAppointments minNoticeForAppointment maxAdvanceBooking].
  rewrite removeAt_app_last. split; [reflexivity|]. split; [|reflexivity].
  destruct (Nat.ltb_spec index (List.length b)).
  - now apply removeAt_in_range.
  - now apply removeAt_out_of_range.
Qed.

Lemma existsb_enabled_withDay (w : WorkingHours) (day : Day)
    (s e : string) :
  existsb (fun d => enabled d)
    (Object_values (withDay w day (mkDay s e false))) = true
  <-> exists other, other <> day /\ enabled (dayOf w other) = true.
Proof.
  split.
  - intros H. destruct day; cbn in H;
      repeat (apply orb_true_iff in H; destruct H as [H|H]);
      try discriminate H;
      first [ exists Monday; split; [discriminate|exact H]
            | exists Tuesday; split; [discriminate|exact H]
            | exists Wednesday; split; [discriminate|exact H]
            | exists Thursday; split; [discriminate|exact H]
            | exists Friday; split; [discriminate|exact H]
            | exists Saturday; split; [discriminate|exact H]
            | exists Sunday; split; [discriminate|exact H] ].
  - intros [other [Hne He]].
    destruct day, other; try (now elim Hne); cbn in *; rewrite He;
      repeat rewrite orb_true_r; reflexivity.
Qed.

(** X12.  The last working day cannot be switched off: for preferences that
    pass [validateDoctorPreferences], switching a day off gives preferences
    that still pass exactly when some other day is enabled. *)
Theorem switching_off_the_last_day_fails_validation (st : PanelState)
    (day : Day)
    (Hvalid : validateDoctorPreferences (preferences st) = true) :
  validateDoctorPreferences
    (preferences (handleWorkingHoursChange st day (field_enabled false)))
  = true
  <-> exists other,
        other <> day
        /\ enabled (dayOf (workingHours (preferences st)) other) = true.
Proof.
  apply validateDoctorPreferences_true_iff in Hvalid.
  destruct Hvalid as [Hid [_ [Hm Hd]]].
  rewrite validateDoctorPreferences_true_iff, <- existsb_exists.
  cbn [handleWorkingHoursChange preferences withWorkingHours doctorId
       workingHours constraints withDayField].
  rewrite existsb_enabled_withDay. tauto.
Qed.

Lemma switching_off_the_last_day_fails_validation_witness :
  validateDoctorPreferences
    (preferences
       (mkPanelState (getDefaultDoctorPreferences "demo-doctor-1") false
          false)) = true
  /\ (validateDoctorPreferences
        (preferences
           (handleWorkingHoursChange
              (mkPanelState (getDefaultDoctorPreferences "demo-doctor-1")
                 false false)
              Monday (field_enabled false))) = true
      <-> exists other,
            other <> Monday
            /\ enabled
                 (dayOf
                    (workingHours
                       (preferences
                          (mkPanelState
                             (getDefaultDoctorPreferences "demo-doctor-1")
                             false false)))
                    other) = true).
Proof.
  assert (H1 : validateDoctorPreferences
                 (preferences
                    (mkPanelState
                       (getDefaultDoctorPreferences "demo-doctor-1") false
                       false)) = true) by reflexivity.
  split; [exact H1|].
  exact (switching_off_the_last_day_fails_validation
           (mkPanelState (getDefaultDoctorPreferences "demo-doctor-1") false
              false)
           Monday H1).
Defined.

End SettingsPanel.

(** ** The command panel *)

Section CommandPanel.
Import Records AiModel NlpInterface.

Lemma trimStart_empty (s : string) :
  Js.trimStart s = EmptyString <-> allWhite s = true.
Proof.
  induction s as [|c r IH]; cbn [Js.trimStart allWhite]; [tauto|].
  destruct (Js.isWhite c); cbn [andb]; [exact IH|].
  split; discriminate.
Qed.

Lemma trimStart_allWhite (s : string) :
  allWhite (Js.trimStart s) = true -> allWhite s = true.
Proof.
  induction s as [|c r IH]; cbn [Js.trimStart allWhite]; [tauto|].
  destruct (Js.isWhite c) eqn:E; cbn [andb]; [exact IH|].
  cbn [allWhite]. now rewrite E.
Qed.

Lemma reverse_allWhite (s : string) :
  forall acc, allWhite (reverse s acc) = allWhite s && allWhite acc.
Proof.
  induction s as [|c r IH]; intros acc; cbn [reverse allWhite];
    [reflexivity|].
  rewrite IH. cbn [allWhite].
  destruct (Js.isWhite c), (allWhite r), (allWhite acc); reflexivity.
Qed.

Lemma reverse_empty (s : string) :
  reverse s EmptyString = EmptyString -> s = EmptyString.
Proof.
  destruct s as [|c r]; [reflexivity|]. cbn [reverse]. intros H.
  assert (L : forall t acc, String.length (reverse t acc)
                            = (String.length t + String.length acc)%nat).
  { induction t as [|d t IH]; intros acc; cbn; [reflexivity|].
    rewrite IH. cbn. lia. }
  apply (f_equal String.length) in H. rewrite L in H. cbn in H. lia.
Qed.

(** The trimmed input is empty exactly when every character is white
    space. *)
Lemma trim_empty (s : string) :
  Js.truthy (trim s) = negb (allWhite s).
Proof.
  unfold trim.
  destruct (allWhite s) eqn:E.
  - apply trimStart_empty in E. now rewrite E.
  - destruct (reverse _ EmptyString) as [|c r] eqn:R; [|reflexivity].
    exfalso. apply reverse_empty, trimStart_empty in R.
    rewrite reverse_allWhite in R. cbn [allWhite] in R.
    rewrite andb_true_r in R. apply trimStart_allWhite in R. congruence.
Qed.

(** X13.  The panel submits a command exactly when the input holds a
    character that is not white space and no command is in process; the
    command goes out as it was typed, untrimmed, and once.  A failed
    submission keeps the input, the command under review and the history;
    a successful one empties the input. *)
Theorem handleSubmit_calls (onCommandSubmit : string -> Completion NLPCommand)
    (st : PanelState) :
  let out := handleSubmit onCommandSubmit st in
  (calls out
   = if negb (allWhite (panel_input st)) && negb (isProcessing st)
     then [CommandSubmit (panel_input st)] else [])
  /\ ((forall command, calls out = [CommandSubmit (panel_input st)] ->
         onCommandSubmit (panel_input st) = Return command ->
         panel_input (state out) = EmptyString
         /\ currentCommand (state out) = Some command)
      /\ (forall error, calls out = [CommandSubmit (panel_input st)] ->
            onCommandSubmit (panel_input st) = Throw error ->
            panel_input (state out) = panel_input st
            /\ currentCommand (state out) = currentCommand st
            /\ commandHistory (state out) = commandHistory st
            /\ console out = [("Error processing command:", error)])).
Proof.
  cbv zeta. unfold handleSubmit. rewrite trim_empty, negb_involutive.
  destruct (allWhite (panel_input st)), (isProcessing st); cbn [orb negb andb].
  1-3: split; [reflexivity|split; intros ? H; discriminate H].
  destruct (onCommandSubmit (panel_input st)) as [c|e];
    (split; [reflexivity|]); split; intros ? _ H; inversion H; subst;
    repeat split.
Qed.

(** X14.  Whatever is typed, submitted, accepted or rejected, the history
    of the panel never holds more than ten commands, and a command under
    review is the newest entry of the history. *)
Theorem history_is_capped (st : PanelState) (Hreach : reachable st) :
  (List.length (commandHistory st) <= 10)%nat
  /\ forall command, currentCommand st = Some command ->
                     hd_error (commandHistory st) = Some command.
Proof.
  induction Hreach as [|st text _ IH|st f _ IH|st _ IH|st _ IH].
  - split; [cbn; lia|discriminate].
  - exact IH.
  - destruct IH as [IHl IHc]. unfold handleSubmit.
    destruct (negb _ || _); [now split|].
    destruct (f (panel_input st)) as [c|e]; cbn [state commandHistory
      currentCommand]; [|now split].
    split; [apply firstn_le_length|].
    intros command H. inversion H; subst. reflexivity.
  - destruct IH as [IHl IHc]. unfold handleAccept.
    destruct (currentCommand st) eqn:E;
      cbn [state commandHistory currentCommand];
      (split; [exact IHl|]); [|rewrite E]; discriminate.
  - destruct IH as [IHl IHc]. unfold handleReject.
    destruct (currentCommand st) eqn:E;
      cbn [state commandHistory currentCommand];
      (split; [exact IHl|]); [|rewrite E]; discriminate.
Qed.

Lemma history_is_capped_witness :
  reachable Samples.submitted
  /\ ((List.length (commandHistory Samples.submitted) <= 10)%nat
      /\ forall command,
           currentCommand Samples.submitted = Some command ->
           hd_error (commandHistory Samples.submitted) = Some command).
Proof.
  assert (H : reachable Samples.submitted)
    by (apply reach_submit, reach_input, reach_initial).
  split; [exact H|].
  exact (history_is_capped Samples.submitted H).
Defined.

End CommandPanel.

(** ** The dashboard: notifications and suggestions *)

Section DashboardLists.
Import Types Records AiModel Fx Api Dashboard NotificationPanel.

Lemma unreadCount_markRead (id : string) (l : list Notification) :
  unreadCount (List.map (markRead id) l)
  = unreadCount l
    - Z.of_nat
        (List.length
           (filter (fun n => String.eqb (notification_id n) id
                             && negb (read n)) l)).
Proof.
  unfold unreadCount.
  induction l as [|n r IH]; [reflexivity|].
  cbn [List.map filter]. unfold markRead at 1.
  destruct (String.eqb (notification_id n) id), (read n) eqn:E;
    cbn [read negb andb List.length]; rewrite ?E; cbn [negb List.length];
    lia.
Qed.

Lemma markRead_idempotent (id : string) (l : list Notification) :
  List.map (markRead id) (List.map (markRead id) l)
  = List.map (markRead id) l.
Proof.
  rewrite map_map. apply map_ext. intros n. unfold markRead.
  destruct (String.eqb (notification_id n) id) eqn:E;
    cbn [notification_id]; now rewrite E.
Qed.

(** X15.  Marking a notification as read is local and silent: whatever the
    backend does, the handler returns, shows no toast and logs no error, the
    notifications with that id are marked and no others, the unread count
    falls by the number of unread notifications with that id, and marking
    again changes nothing. *)
Theorem mark_read_is_local (out : Outside) (snap : State) (id : string)
    (w : World) :
  let after := handleMarkNotificationAsRead out snap id w in
  fst after = Return tt
  /\ notifications (data (ui (snd after)))
     = List.map (markRead id) (notifications (data (ui w)))
  /\ unreadCount (notifications (data (ui (snd after))))
     = unreadCount (notifications (data (ui w)))
       - Z.of_nat
           (List.length
              (filter (fun n => String.eqb (notification_id n) id
                                && negb (read n))
                 (notifications (data (ui w)))))
  /\ notifications
       (data (ui (snd (handleMarkNotificationAsRead out snap id
                         (snd after)))))
     = notifications (data (ui (snd after)))
  /\ toasts (snd after) = toasts w
  /\ errors (snd after) = errors w.
Proof.
  cbv zeta.
  assert (H : forall w0,
    let after := handleMarkNotificationAsRead out snap id w0 in
    fst after = Return tt
    /\ notifications (data (ui (snd after)))
       = List.map (markRead id) (notifications (data (ui w0)))
    /\ toasts (snd after) = toasts w0
    /\ errors (snd after) = errors w0).
  { intros w0. cbv zeta.
    unfold handleMarkNotificationAsRead, catch, bind, set, api, zoom,
      modify, pure, console_log, markNotificationAsRead, apiRequest,
      fetchJson.
    destruct (isDemo snap); cbn; [repeat split|].
    destruct (backend out _ _) as [|[[|] text [value|]]]; cbn;
      repeat split. }
  destruct (H w) as [H1 [H2 [H3 H4]]].
  destruct (H (snd (handleMarkNotificationAsRead out snap id w)))
    as [_ [H2' _]].
  repeat split; try assumption.
  - rewrite H2. apply unreadCount_markRead.
  - rewrite H2', H2. apply markRead_idempotent.
Qed.

Lemma withoutSuggestion_spec (id : string) (l : list AIScheduleSuggestion)
    (s : AIScheduleSuggestion) :
  In s (withoutSuggestion id l) <-> In s l /\ suggestion_id s <> id.
Proof.
  unfold withoutSuggestion. rewrite filter_In, negb_true_iff.
  rewrite <- String.eqb_neq. tauto.
Qed.

(** X16.  Rejecting a suggestion always takes it off the list: in demo
    mode, when the backend confirms and when the backend fails alike, the
    handler returns, the suggestions with that id are gone, the others stay
    in their order, the appointments are as before and one information
    toast is shown. *)
Theorem reject_always_removes (out : Outside) (snap : State) (id : string)
    (w : World) :
  let after := handleRejectAISuggestion out snap id w in
  fst after = Return tt
  /\ aiSuggestions (data (ui (snd after)))
     = withoutSuggestion id (aiSuggestions (data (ui w)))
  /\ (forall s, In s (aiSuggestions (data (ui (snd after))))
                <-> In s (aiSuggestions (data (ui w)))
                    /\ suggestion_id s <> id)
  /\ appointments (data (ui (snd after))) = appointments (data (ui w))
  /\ exists text, toasts (snd after) = (toasts w ++ [(toast_info, text)])%list.
Proof.
  cbv zeta.
  assert (H : let after := handleRejectAISuggestion out snap id w in
    fst after = Return tt
    /\ aiSuggestions (data (ui (snd after)))
       = withoutSuggestion id (aiSuggestions (data (ui w)))
    /\ appointments (data (ui (snd after))) = appointments (data (ui w))
    /\ exists text,
         toasts (snd after) = (toasts w ++ [(toast_info, text)])%list).
  { cbv zeta.
    unfold handleRejectAISuggestion, catch, bind, set, toast, api, zoom,
      modify, pure, console_error, rejectAISuggestion, apiRequest,
      fetchJson.
    destruct (isDemo snap); cbn; [repeat split; eauto|].
    destruct (backend out _ _) as [|[[|] text [value|]]]; cbn;
      repeat split; eauto. }
  destruct H as [H1 [H2 [H3 H4]]].
  split; [exact H1|]. split; [exact H2|].
  split; [|split; assumption].
  intros s. rewrite H2. apply withoutSuggestion_spec.
Qed.

End DashboardLists.

(** ** The dashboard: loading *)

Section DashboardLoading.
Import Types Records AiModel Fx Api AiService Dashboard.

Lemma generate_on_console (env : Env) (p : DoctorPreferences)
    (a : list Appointment) (q : list Patient) (c : Console) :
  exists l lines,
    run (generateAIScheduleSuggestions env p a q) = (Return l, lines)
    /\ generateAIScheduleSuggestions env p a q c
       = (Return l, (c ++ lines)%list).
Proof.
  unfold run, generateAIScheduleSuggestions, try_catch, AiModel.bind,
    await_fetch, AiModel.console_error, ret, throw, await_json.
  destruct (fetch env GenerateSuggestions _) as [|[[|] [b|]]]; cbn;
    eexists; eexists; (split; [reflexivity|]);
    rewrite ?app_nil_r; reflexivity.
Qed.

Lemma detect_on_console (env : Env) (doctorId : string)
    (a : list Appointment) (p : DoctorPreferences) (c : Console) :
  exists l lines,
    run (detectScheduleConflicts env doctorId a p) = (Return l, lines)
    /\ detectScheduleConflicts env doctorId a p c
       = (Return l, (c ++ lines)%list).
Proof.
  unfold run, detectScheduleConflicts, try_catch, AiModel.bind,
    await_fetch, AiModel.console_error, ret, throw, await_json.
  destruct (fetch env DetectConflicts _) as [|[[|] [b|]]]; cbn;
    eexists; eexists; (split; [reflexivity|]);
    rewrite ?app_nil_r; reflexivity.
Qed.

(** What [loadAISuggestions] does, in full: it returns, leaves the browser
    alone, and writes the answers of the AI service. *)
Lemma loadAISuggestions_run (out : Outside) (snap : State)
    (doctorId : string) (currentAppointments : list Appointment)
    (currentPatients : list Patient) (w : World) :
  let after := loadAISuggestions out snap doctorId currentAppointments
                 currentPatients w in
  fst after = Return tt
  /\ browser (snd after) = browser w
  /\ session (ui (snd after)) = session (ui w)
  /\ sheet (ui (snd after)) = sheet (ui w)
  /\ toasts (snd after) = toasts w
  /\ logged (snd after) = logged w
  /\ stats (data (ui (snd after))) = stats (data (ui w))
  /\ appointments (data (ui (snd after))) = appointments (data (ui w))
  /\ patients (data (ui (snd after))) = patients (data (ui w))
  /\ notifications (data (ui (snd after))) = notifications (data (ui w))
  /\ auditLog (data (ui (snd after))) = auditLog (data (ui w))
  /\ match doctorPreferences (session snap) with
     | None => snd after = w
     | Some preferences =>
         result (generateAIScheduleSuggestions (aiEnv out w) preferences
                   currentAppointments currentPatients)
         = Return (aiSuggestions (data (ui (snd after))))
         /\ result (detectScheduleConflicts (aiEnv out w) doctorId
                      currentAppointments preferences)
            = Return (conflicts (data (ui (snd after))))
     end.
Proof.
  cbv zeta. unfold loadAISuggestions, catch.
  destruct (doctorPreferences (session snap)) as [p|];
    [|cbn; repeat split].
  unfold Fx.bind, onConsole, set, modify.
  destruct (generate_on_console (aiEnv out w) p currentAppointments
              currentPatients (errors w)) as [l [lines [Hr Hc]]].
  rewrite Hc.
  match goal with
  | |- context [detectScheduleConflicts ?env _ _ _ ?c] =>
      destruct (detect_on_console env doctorId currentAppointments p c)
        as [l' [lines' [Hr' Hc']]]
  end.
  rewrite Hc'. cbn.
  unfold result. rewrite Hr.
  repeat split. exact (f_equal fst Hr').
Qed.

Lemma orElse_api_run {A} (m : M Browser A) (fallback : A) (w : World) :
  orElse (api m) fallback w
  = (Return (match fst (m (browser w)) with
             | Return v => v
             | Throw _ => fallback
             end),
     withBrowser (snd (m (browser w))) w).
Proof.
  unfold orElse, catch, api, zoom, pure.
  now destruct (m (browser w)) as [[v|e] b'].
Qed.

Lemma orElse_api_some_run {A} (m : M Browser A) (w : World) :
  orElse (Fx.bind (api m) (fun s => pure (Some s))) None w
  = (Return (match fst (m (browser w)) with
             | Return v => Some v
             | Throw _ => None
             end),
     withBrowser (snd (m (browser w))) w).
Proof.
  unfold orElse, catch, Fx.bind, api, zoom, pure.
  now destruct (m (browser w)) as [[v|e] b'].
Qed.

Lemma apiRequest_token (backend : Backend) (c : Call) (endpoint : string)
    (options : RequestInit) (b : Browser) :
  authTokenItem (snd (apiRequest backend c endpoint options b))
  = authTokenItem b.
Proof.
  unfold apiRequest, fetchJson.
  now destruct (backend c _) as [|[[|] text [value|]]].
Qed.

Lemma orElse_api_frame {A} (m : M Browser A) (fallback : A) (w : World)
    (Hm : forall b, authTokenItem (snd (m b)) = authTokenItem b) :
  exists v b',
    orElse (api m) fallback w = (Return v, withBrowser b' w)
    /\ authTokenItem b' = authTokenItem (browser w).
Proof.
  rewrite orElse_api_run. eexists. eexists. split; [reflexivity|apply Hm].
Qed.

Lemma orElse_api_some_frame {A} (m : M Browser A) (w : World)
    (Hm : forall b, authTokenItem (snd (m b)) = authTokenItem b) :
  exists v b',
    orElse (Fx.bind (api m) (fun s => pure (Some s))) None w
    = (Return v, withBrowser b' w)
    /\ authTokenItem b' = authTokenItem (browser w).
Proof.
  rewrite orElse_api_some_run. eexists. eexists.
  split; [reflexivity|apply Hm].
Qed.

Lemma aiEnv_token (out : Outside) (w w' : World) :
  authTokenItem (browser w') = authTokenItem (browser w) ->
  aiEnv out w' = aiEnv out w.
Proof. unfold aiEnv. now intros ->. Qed.

Lemma loadDashboardData_run (out : Outside) (snap : State)
    (doctorId : string) (w : World) :
  let after := loadDashboardData out snap doctorId w in
  fst after = Return tt
  /\ authTokenItem (browser (snd after)) = authTokenItem (browser w)
  /\ session (ui (snd after)) = session (ui w)
  /\ sheet (ui (snd after)) = sheet (ui w)
  /\ toasts (snd after) = toasts w
  /\ logged (snd after) = logged w
  /\ match doctorPreferences (session snap) with
     | None =>
         aiSuggestions (data (ui (snd after))) = aiSuggestions (data (ui w))
         /\ conflicts (data (ui (snd after))) = conflicts (data (ui w))
         /\ errors (snd after) = errors w
     | Some preferences =>
         result (generateAIScheduleSuggestions (aiEnv out w) preferences
                   (appointments (data (ui (snd after))))
                   (patients (data (ui (snd after)))))
         = Return (aiSuggestions (data (ui (snd after))))
         /\ result (detectScheduleConflicts (aiEnv out w) doctorId
                      (appointments (data (ui (snd after)))) preferences)
            = Return (conflicts (data (ui (snd after))))
     end.
Proof.
  intros after. assert (E : after = loadDashboardData out snap doctorId w)
    by reflexivity.
  clearbody after. unfold loadDashboardData, catch in E.
  unfold Fx.bind at 1 in E.
  destruct (orElse_api_some_frame
              (getDashboardStats (backend out) doctorId) w)
    as [v1 [b1 [E1 T1]]];
    [intros b; exact (apiRequest_token _ call_getDashboardStats _ _ b)|].
  rewrite E1 in E. cbv iota beta in E. set (w1 := withBrowser b1 w) in *.
  unfold Fx.bind at 1 in E.
  destruct (orElse_api_frame
              (getAppointments (backend out) doctorId (monthStart out)
                 (monthEnd out)) [] w1)
    as [v2 [b2 [E2 T2]]];
    [intros b; exact (apiRequest_token _ call_getAppointments _ _ b)|].
  rewrite E2 in E. cbv iota beta in E. set (w2 := withBrowser b2 w1) in *.
  unfold Fx.bind at 1 in E.
  destruct (orElse_api_frame (getPatients (backend out) doctorId) [] w2)
    as [v3 [b3 [E3 T3]]];
    [intros b; exact (apiRequest_token _ call_getPatients _ _ b)|].
  rewrite E3 in E. cbv iota beta in E. set (w3 := withBrowser b3 w2) in *.
  unfold Fx.bind at 1 in E.
  destruct (orElse_api_frame (getNotifications (backend out) doctorId) []
              w3)
    as [v4 [b4 [E4 T4]]];
    [intros b; exact (apiRequest_token _ call_getNotifications _ _ b)|].
  rewrite E4 in E. cbv iota beta in E. set (w4 := withBrowser b4 w3) in *.
  unfold Fx.bind at 1 in E.
  destruct (orElse_api_frame (getAuditLog (backend out) doctorId) [] w4)
    as [v5 [b5 [E5 T5]]];
    [intros b; exact (apiRequest_token _ call_getAuditLog _ _ b)|].
  rewrite E5 in E. cbv iota beta in E. set (w5 := withBrowser b5 w4) in *.
  assert (T : authTokenItem b5 = authTokenItem (browser w)).
  { rewrite T5. cbn. rewrite T4. cbn. rewrite T3. cbn. rewrite T2. cbn.
    exact T1. }
  clear E1 E2 E3 E4 E5 T1 T2 T3 T4 T5.
  unfold Fx.bind, set, modify in E. cbv iota beta in E.
  destruct (doctorPreferences (session snap)) as [p|] eqn:Hp.
  - match type of E with
    | context [loadAISuggestions out snap doctorId ?a ?q ?w0] =>
        pose proof (loadAISuggestions_run out snap doctorId a q w0) as L;
        destruct (loadAISuggestions out snap doctorId a q w0) as [r w6]
    end.
    cbv zeta in L. rewrite Hp in L. cbn [fst snd] in L.
    destruct L as [L1 [L2 [L3 [L4 [L5 [L6 [L7 [L8 [L9 [L10 [L11 [L12 L13]]]]]]]]]]]].
    rewrite L1 in E. subst after. cbn [fst snd].
    rewrite (aiEnv_token out w) in L12, L13 by exact T.
    rewrite L8, L9. cbn in L2, L3, L4, L5, L6 |- *.
    rewrite L2, L3, L4, L5, L6.
    repeat split; assumption.
  - subst after. cbn. repeat split. exact T.
Qed.

(** X17.  [loadAISuggestions] never reaches its fallback to the REST API:
    the two calls of the AI service catch their own errors, so the handler
    returns, sends nothing through [lib/api.ts] ([getAISuggestions] and
    [getScheduleConflicts] are never called), and the lists it sets are the
    answers of the AI service, empty when the service fails; without
    preferences in the snapshot it does nothing at all. *)
Theorem suggestions_never_come_from_the_api (out : Outside) (snap : State)
    (doctorId : string) (currentAppointments : list Appointment)
    (currentPatients : list Patient) (w : World) :
  let after := loadAISuggestions out snap doctorId currentAppointments
                 currentPatients w in
  fst after = Return tt
  /\ sent (browser (snd after)) = sent (browser w)
  /\ match doctorPreferences (session snap) with
     | None => snd after = w
     | Some preferences =>
         result (generateAIScheduleSuggestions (aiEnv out w) preferences
                   currentAppointments currentPatients)
         = Return (aiSuggestions (data (ui (snd after))))
         /\ result (detectScheduleConflicts (aiEnv out w) doctorId
                      currentAppointments preferences)
            = Return (conflicts (data (ui (snd after))))
     end.
Proof.
  intros after.
  destruct (loadAISuggestions_run out snap doctorId currentAppointments
              currentPatients w)
    as [L1 [L2 [_ [_ [_ [_ [_ [_ [_ [_ [_ L12]]]]]]]]]]].
  fold after in L1, L2, L12.
  split; [exact L1|]. split; [now rewrite L2|exact L12].
Qed.

(** X18.  At start-up no AI suggestion is asked for.  [initializeApp] runs
    as the closure of the first render, in which the preferences are still
    null, so [loadDashboardData] skips [loadAISuggestions] even after the
    preferences of the doctor have been fetched: the handler returns with
    the loading flag off, a doctor and preferences set, and the suggestions
    and conflicts empty, whatever the backends answer.  Either the settings
    panel is shown with the default preferences (first-time set-up, or the
    mock doctor when a request failed), or the doctor had completed the
    set-up. *)
Theorem startup_loads_no_suggestions (out : Outside) (b : Browser) :
  let w := mkWorld initialState b [] [] [] in
  let after := initializeApp out initialState w in
  fst after = Return tt
  /\ isLoading (session (ui (snd after))) = false
  /\ aiSuggestions (data (ui (snd after))) = []
  /\ conflicts (data (ui (snd after))) = []
  /\ exists doctor preferences,
       currentDoctor (session (ui (snd after))) = Some doctor
       /\ doctorPreferences (session (ui (snd after))) = Some preferences
       /\ (showSettings (session (ui (snd after))) = true
           /\ setupPending doctor = true
           /\ preferences = getDefaultDoctorPreferences (doctor_id doctor)
           \/ showSettings (session (ui (snd after))) = false
              /\ setupPending doctor = false).
Proof.
  intros w after.
  assert (E : after = initializeApp out initialState w) by reflexivity.
  clearbody after.
  unfold initializeApp, finally, catch in E.
  unfold Fx.bind at 1 in E. unfold set at 1, modify at 1 in E.
  cbv iota beta in E. unfold Fx.bind at 1 in E.
  unfold api at 1, zoom at 1 in E.
  destruct (getCurrentDoctor (backend out) _) as [[doctor|e] b1].
  2:{ subst after. cbn. repeat split.
      exists mockDoctor. eexists. repeat split. left. repeat split. }
  cbv iota beta in E. unfold Fx.bind at 1 in E.
  unfold set at 1, modify at 1 in E. cbv iota beta in E.
  destruct (setupPending doctor) eqn:Hs.
  { subst after. cbn. repeat split.
    exists doctor. eexists. repeat split. left. repeat split; exact Hs. }
  unfold Fx.bind at 1 in E. unfold api at 1, zoom at 1 in E.
  destruct (getDoctorPreferences (backend out) _ _) as [[p|e] b2].
  2:{ subst after. cbn. repeat split.
      exists mockDoctor. eexists. repeat split. left. repeat split. }
  cbv iota beta in E. unfold Fx.bind at 1 in E.
  unfold set at 1, modify at 1 in E. cbv iota beta in E.
  match type of E with
  | context [loadDashboardData out initialState ?d ?w0] =>
      pose proof (loadDashboardData_run out initialState d w0) as L;
      destruct (loadDashboardData out initialState d w0) as [r w6]
  end.
  cbv zeta in L. cbn [fst snd session initialState doctorPreferences] in L.
  destruct L as [L1 [L2 [L3 [L4 [L5 [L6 [L7 [L8 L9]]]]]]]].
  rewrite L1 in E. subst after. cbn [fst snd set modify ui withUi].
  cbn in L3, L7, L8.
  unfold setIsLoading, onSession. cbn. rewrite L3, L7, L8. cbn.
  repeat split.
  exists doctor, p. repeat split. right. now split.
Qed.

(** X19.  Saving preferences reloads the suggestions with the old ones.
    The handler is a closure of the render before the save, so the
    [loadAISuggestions] it calls reads the preferences of that render: after
    a save that the backend accepted, the state holds the new preferences,
    while the suggestions and conflicts are what the AI service answers for
    the preferences from before the save (for the appointments of the
    snapshot, or, at the end of a first-time set-up, for those just
    loaded). *)
Theorem saving_reloads_with_the_old_preferences (out : Outside)
    (snap : State) (preferences : DoctorPreferences) (w : World)
    (doctor : Doctor) (old : DoctorPreferences) (answer : Json)
    (Hdoctor : currentDoctor (session snap) = Some doctor)
    (Hold : doctorPreferences (session snap) = Some old)
    (Hsave : fst (saveDoctorPreferences (backend out) (doctor_id doctor)
                    preferences (browser w)) = Return answer) :
  let after := handleSavePreferences out snap preferences w in
  let shown := data (ui (snd after)) in
  let sentAppointments :=
    if setupPending doctor then appointments shown
    else appointments (data snap) in
  let sentPatients :=
    if setupPending doctor then patients shown else patients (data snap) in
  fst after = Return tt
  /\ doctorPreferences (session (ui (snd after))) = Some preferences
  /\ showSettings (session (ui (snd after))) = false
  /\ result (generateAIScheduleSuggestions (aiEnv out w) old
               sentAppointments sentPatients)
     = Return (aiSuggestions shown)
  /\ result (detectScheduleConflicts (aiEnv out w) (doctor_id doctor)
               sentAppointments old)
     = Return (conflicts shown).
Proof.
  intros after.
  assert (E : after = handleSavePreferences out snap preferences w)
    by reflexivity.
  clearbody after.
  unfold handleSavePreferences in E. rewrite Hdoctor in E.
  unfold catch in E. unfold Fx.bind at 1 in E.
  unfold api at 1, zoom at 1 in E.
  pose proof (apiRequest_token (backend out) call_saveDoctorPreferences
                ("/doctors/" ++ doctor_id doctor ++ "/preferences")
                (mkInit (Some "PUT") (Some (PreferencesPayload preferences)))
                (browser w)) as T.
  fold (saveDoctorPreferences (backend out) (doctor_id doctor) preferences)
    in T.
  destruct (saveDoctorPreferences (backend out) (doctor_id doctor)
              preferences (browser w)) as [[a|e] b1];
    [clear Hsave|discriminate Hsave].
  cbn [snd] in T. cbv iota beta in E.
  unfold Fx.bind at 1 in E. unfold set at 1, modify at 1 in E.
  cbv iota beta in E.
  unfold Fx.bind at 1 in E. unfold set at 1, modify at 1 in E.
  cbv iota beta in E.
  unfold Fx.bind at 1 in E. unfold toast at 1, modify at 1 in E.
  cbv iota beta in E.
  unfold Fx.bind at 1 in E.
  match type of E with
  | context [loadAISuggestions out snap ?d ?a ?q ?w0] =>
      pose proof (loadAISuggestions_run out snap d a q w0) as L;
      destruct (loadAISuggestions out snap d a q w0) as [r w1]
  end.
  cbv zeta in L. rewrite Hold in L. cbn [fst snd] in L.
  destruct L as [L1 [L2 [L3 [L4 [L5 [L6 [L7 [L8 [L9 [L10 [L11 [L12 L13]]]]]]]]]]]].
  rewrite L1 in E. cbv iota beta in E.
  rewrite (aiEnv_token out w) in L12, L13 by exact T.
  cbn in L2, L3.
  destruct (setupPending doctor).
  - unfold Fx.bind at 1 in E. unfold set at 1, modify at 1 in E.
    cbv iota beta in E.
    match type of E with
    | context [loadDashboardData out snap ?d ?w0] =>
        pose proof (loadDashboardData_run out snap d w0) as D;
        destruct (loadDashboardData out snap d w0) as [r' w2]
    end.
    cbv zeta in D. rewrite Hold in D. cbn [fst snd] in D.
    destruct D as [D1 [D2 [D3 [D4 [D5 [D6 [D7 D8]]]]]]].
    rewrite (aiEnv_token out w) in D7, D8
      by (cbn; rewrite L2; exact T).
    cbn in D3. rewrite L3 in D3. rewrite D1 in E.
    subst after. cbn [fst snd]. cbv zeta. rewrite D3. cbn.
    repeat split; assumption.
  - unfold pure at 1 in E. cbv iota beta in E.
    subst after. cbn [fst snd]. cbv zeta. rewrite L3. cbn.
    repeat split; assumption.
Qed.

Lemma saving_reloads_with_the_old_preferences_witness :
  currentDoctor (session (ui Samples.clinic)) = Some Samples.clinicDoctor
  /\ doctorPreferences (session (ui Samples.clinic))
     = Some (getDefaultDoctorPreferences "demo-doctor-1")
  /\ fst (saveDoctorPreferences (backend Samples.storing)
            (doctor_id Samples.clinicDoctor)
            (getDefaultDoctorPreferences "doctor-7")
            (browser Samples.clinic)) = Return JNull
  /\ (let after :=
        handleSavePreferences Samples.storing (ui Samples.clinic)
          (getDefaultDoctorPreferences "doctor-7") Samples.clinic in
      let shown := data (ui (snd after)) in
      let sentAppointments :=
        if setupPending Samples.clinicDoctor then appointments shown
        else appointments (data (ui Samples.clinic)) in
      let sentPatients :=
        if setupPending Samples.clinicDoctor then patients shown
        else patients (data (ui Samples.clinic)) in
      fst after = Return tt
      /\ doctorPreferences (session (ui (snd after)))
         = Some (getDefaultDoctorPreferences "doctor-7")
      /\ showSettings (session (ui (snd after))) = false
      /\ result (generateAIScheduleSuggestions
                   (aiEnv Samples.storing Samples.clinic)
                   (getDefaultDoctorPreferences "demo-doctor-1")
                   sentAppointments sentPatients)
         = Return (aiSuggestions shown)
      /\ result (detectScheduleConflicts
                   (aiEnv Samples.storing Samples.clinic)
                   (doctor_id Samples.clinicDoctor) sentAppointments
                   (getDefaultDoctorPreferences "demo-doctor-1"))
         = Return (conflicts shown)).
Proof.
  assert (H1 : currentDoctor (session (ui Samples.clinic))
               = Some Samples.clinicDoctor) by reflexivity.
  assert (H2 : doctorPreferences (session (ui Samples.clinic))
               = Some (getDefaultDoctorPreferences "demo-doctor-1"))
    by reflexivity.
  assert (H3 : fst (saveDoctorPreferences (backend Samples.storing)
                      (doctor_id Samples.clinicDoctor)
                      (getDefaultDoctorPreferences "doctor-7")
                      (browser Samples.clinic)) = Return JNull)
    by reflexivity.
  split; [exact H1|]. split; [exact H2|]. split; [exact H3|].
  exact (saving_reloads_with_the_old_preferences Samples.storing
           (ui Samples.clinic) (getDefaultDoctorPreferences "doctor-7")
           Samples.clinic Samples.clinicDoctor
           (getDefaultDoctorPreferences "demo-doctor-1") JNull H1 H2 H3).
Defined.

End DashboardLoading.

(** ** The dashboard: accepting a suggestion *)

Section DashboardAccept.
Import Types Records AiModel Fx Api AiService Dashboard.

(** X20.  In demo mode accepting a listed suggestion schedules it: the
    handler returns without a request, the suggestion leaves the list, and
    one appointment is added at the end, with the patient, date, times and
    priority of the suggestion, status scheduled and an id made from the
    clock; the calendar shows it on the suggested date. *)
Theorem accepting_in_demo_mode_schedules (out : Outside) (snap : State)
    (id : string) (w : World) (doctor : Doctor)
    (suggestion : AIScheduleSuggestion)
    (Hdoctor : currentDoctor (session snap) = Some doctor)
    (Hdemo : doctor_id doctor = "demo-doctor-1")
    (Hfound : find (fun s => String.eqb (suggestion_id s) id)
                (aiSuggestions (data snap)) = Some suggestion) :
  let after := handleAcceptAISuggestion out snap id w in
  fst after = Return tt
  /\ browser (snd after) = browser w
  /\ aiSuggestions (data (ui (snd after)))
     = withoutSuggestion id (aiSuggestions (data (ui w)))
  /\ exists apt,
       appointments (data (ui (snd after)))
       = (appointments (data (ui w)) ++ [apt])%list
       /\ Types.id apt = "apt-" ++ Js.toString (Js.Int (dateNow out))
       /\ patientId apt = suggestion_patientId suggestion
       /\ patientName apt = suggestion_patientName suggestion
       /\ date apt = suggestedDate suggestion
       /\ startTime apt = suggestedStartTime suggestion
       /\ endTime apt = suggestedEndTime suggestion
       /\ priority apt = suggestion_priority suggestion
       /\ status apt = scheduled
       /\ In apt (Calendar.filterAppointmentsByDate
                    (appointments (data (ui (snd after))))
                    (suggestedDate suggestion)).
Proof.
  intros after.
  assert (E : after = handleAcceptAISuggestion out snap id w)
    by reflexivity.
  clearbody after.
  unfold handleAcceptAISuggestion in E.
  rewrite Hdoctor, Hdemo, Hfound in E. cbn in E. subst after.
  cbn. repeat split.
  eexists. split; [reflexivity|]. repeat split.
  unfold Calendar.filterAppointmentsByDate. apply filter_In. split.
  - apply in_or_app. right. now left.
  - cbn. apply String.eqb_refl.
Qed.

(** X21.  When the backend does not confirm an acceptance, the handler
    still reports success: outside demo mode, if the request to accept
    fails, the handler returns, logs the error, takes the suggestion off
    the list and shows a success toast, and no appointment is added. *)
Theorem failed_accept_reports_success (out : Outside) (snap : State)
    (id : string) (w : World) (e : JsError)
    (Hreal : isDemo snap = false)
    (Hfail : fst (acceptAISuggestion (backend out) id (browser w))
             = Throw e) :
  let after := handleAcceptAISuggestion out snap id w in
  fst after = Return tt
  /\ appointments (data (ui (snd after))) = appointments (data (ui w))
  /\ aiSuggestions (data (ui (snd after)))
     = withoutSuggestion id (aiSuggestions (data (ui w)))
  /\ toasts (snd after)
     = (toasts w
        ++ [(toast_success, "AI suggestion accepted (Demo Mode)")])%list
  /\ errors (snd after)
     = (errors w ++ [("Error accepting suggestion:", e)])%list.
Proof.
  intros after.
  assert (E : after = handleAcceptAISuggestion out snap id w)
    by reflexivity.
  clearbody after.
  unfold handleAcceptAISuggestion, isDemo in *.
  destruct (currentDoctor (session snap)) as [doctor|];
    [rewrite Hreal in E|];
    unfold catch in E; unfold Fx.bind at 1 in E;
    unfold api at 1, zoom at 1 in E;
    destruct (acceptAISuggestion (backend out) id (browser w))
      as [[a|e'] b1]; cbn [fst] in Hfail; try discriminate Hfail;
    inversion Hfail; subst e'; subst after; cbn; repeat split.
Qed.

Lemma accepting_in_demo_mode_schedules_witness :
  currentDoctor (session (ui Samples.demo))
  = Some (withCompletedSetup mockDoctor)
  /\ doctor_id (withCompletedSetup mockDoctor) = "demo-doctor-1"
  /\ find (fun s => String.eqb (suggestion_id s) "ai-002")
       (aiSuggestions (data (ui Samples.demo)))
     = Some (suggestion_002 "demo-doctor-1" "2025-10-02T08:00:00.000Z")
  /\ (let after :=
        handleAcceptAISuggestion Samples.offline (ui Samples.demo) "ai-002"
          Samples.demo in
      fst after = Return tt
      /\ browser (snd after) = browser Samples.demo
      /\ aiSuggestions (data (ui (snd after)))
         = withoutSuggestion "ai-002"
             (aiSuggestions (data (ui Samples.demo)))
      /\ exists apt,
           appointments (data (ui (snd after)))
           = (appointments (data (ui Samples.demo)) ++ [apt])%list
           /\ Types.id apt
              = "apt-" ++ Js.toString (Js.Int (dateNow Samples.offline))
           /\ patientId apt
              = suggestion_patientId
                  (suggestion_002 "demo-doctor-1" "2025-10-02T08:00:00.000Z")
           /\ patientName apt
              = suggestion_patientName
                  (suggestion_002 "demo-doctor-1" "2025-10-02T08:00:00.000Z")
           /\ date apt
              = suggestedDate
                  (suggestion_002 "demo-doctor-1" "2025-10-02T08:00:00.000Z")
           /\ startTime apt
              = suggestedStartTime
                  (suggestion_002 "demo-doctor-1" "2025-10-02T08:00:00.000Z")
           /\ endTime apt
              = suggestedEndTime
                  (suggestion_002 "demo-doctor-1" "2025-10-02T08:00:00.000Z")
           /\ priority apt
              = suggestion_priority
                  (suggestion_002 "demo-doctor-1" "2025-10-02T08:00:00.000Z")
           /\ status apt = scheduled
           /\ In apt (Calendar.filterAppointmentsByDate
                        (appointments (data (ui (snd after))))
                        (suggestedDate
                           (suggestion_002 "demo-doctor-1"
                              "2025-10-02T08:00:00.000Z")))).
Proof.
  assert (H1 : currentDoctor (session (ui Samples.demo))
               = Some (withCompletedSetup mockDoctor)) by reflexivity.
  assert (H2 : doctor_id (withCompletedSetup mockDoctor) = "demo-doctor-1")
    by reflexivity.
  assert (H3 : find (fun s => String.eqb (suggestion_id s) "ai-002")
                 (aiSuggestions (data (ui Samples.demo)))
               = Some (suggestion_002 "demo-doctor-1"
                         "2025-10-02T08:00:00.000Z")) by reflexivity.
  split; [exact H1|]. split; [exact H2|]. split; [exact H3|].
  exact (accepting_in_demo_mode_schedules Samples.offline (ui Samples.demo)
           "ai-002" Samples.demo (withCompletedSetup mockDoctor)
           (suggestion_002 "demo-doctor-1" "2025-10-02T08:00:00.000Z")
           H1 H2 H3).
Defined.

Lemma failed_accept_reports_success_witness :
  isDemo (ui Samples.clinic) = false
  /\ fst (acceptAISuggestion (backend Samples.offline) "ai-001"
            (browser Samples.clinic))
     = Throw (TypeError "Failed to fetch")
  /\ (let after :=
        handleAcceptAISuggestion Samples.offline (ui Samples.clinic)
          "ai-001" Samples.clinic in
      fst after = Return tt
      /\ appointments (data (ui (snd after)))
         = appointments (data (ui Samples.clinic))
      /\ aiSuggestions (data (ui (snd after)))
         = withoutSuggestion "ai-001"
             (aiSuggestions (data (ui Samples.clinic)))
      /\ toasts (snd after)
         = (toasts Samples.clinic
            ++ [(toast_success, "AI suggestion accepted (Demo Mode)")])%list
      /\ errors (snd after)
         = (errors Samples.clinic
            ++ [("Error accepting suggestion:",
                 TypeError "Failed to fetch")])%list).
Proof.
  assert (H1 : isDemo (ui Samples.clinic) = false) by reflexivity.
  assert (H2 : fst (acceptAISuggestion (backend Samples.offline) "ai-001"
                      (browser Samples.clinic))
               = Throw (TypeError "Failed to fetch")) by reflexivity.
  split; [exact H1|]. split; [exact H2|].
  exact (failed_accept_reports_success Samples.offline (ui Samples.clinic)
           "ai-001" Samples.clinic (TypeError "Failed to fetch") H1 H2).
Defined.

End DashboardAccept.

(** ** The dashboard: commands and documents *)

Section DashboardCommands.
Import Types Records AiModel Fx Api AiService Dashboard.



(** X23.  With a patient selected, an upload always ends with one more
    document at the head of the list, and the handler returns.  Outside
    demo mode the document is the one the backend answers with, and an
    error toast is shown when it flags an emergency; in demo mode, and
    whenever the upload fails, the document is a stand-in without emergency
    indicators and the toast reports success. *)
Theorem upload_always_adds_a_document (out : Outside) (snap : State)
    (file : File) (w : World) (patient : Patient)
    (Hselected : selectedPatient (sheet snap) = Some patient) :
  let after := handleDocumentUpload out snap file w in
  let upload :=
    fst (uploadDocument (backend out) (patient_id patient) file
           (browser w)) in
  fst after = Return tt
  /\ exists doc lastToast,
       patientDocuments (sheet (ui (snd after)))
       = doc :: patientDocuments (sheet (ui w))
       /\ toasts (snd after)
          = (toasts w
             ++ [(toast_info, "Uploading and analyzing document...");
                 lastToast])%list
       /\ (isDemo snap = true \/ (exists e, upload = Throw e) ->
           doc = mockDoc out patient file
           /\ flagsEmergency doc = false
           /\ lastToast = (toast_success, "Document uploaded (Demo Mode)"))
       /\ (isDemo snap = false ->
           forall answer, upload = Return answer ->
             doc = answer
             /\ lastToast
                = if flagsEmergency answer
                  then (toast_error,
                        "Emergency indicators detected in "
                        ++ file_name file)
                  else (toast_success,
                        "Document uploaded and analyzed successfully")).
Proof.
  intros after upload.
  assert (E : after = handleDocumentUpload out snap file w) by reflexivity.
  clearbody after.
  unfold handleDocumentUpload in E. rewrite Hselected in E.
  unfold catch in E. unfold Fx.bind at 1 in E.
  unfold toast at 1, modify at 1 in E. cbv iota beta in E.
  destruct (isDemo snap) eqn:Hdemo.
  { subst after. cbn -[app]. rewrite <- app_assoc. cbn [app].
    split; [reflexivity|].
    eexists. eexists. split; [reflexivity|]. split; [reflexivity|].
    split; [repeat split|discriminate]. }
  unfold Fx.bind at 1 in E. unfold api at 1, zoom at 1 in E.
  cbn [browser] in E. subst upload.
  destruct (uploadDocument (backend out) (patient_id patient) file
              (browser w)) as [[d|e] b1]; cbn [fst] in *.
  - destruct (flagsEmergency d) eqn:Hflag; subst after; cbn -[app];
      rewrite <- app_assoc; cbn [app];
      (split; [reflexivity|]); eexists; eexists;
      (split; [reflexivity|]); (split; [reflexivity|]);
      (split; [intros [H|[e H]]; discriminate H|]);
      intros _ answer H; inversion H; subst answer; rewrite Hflag;
      now split.
  - subst after; cbn -[app]. rewrite <- app_assoc. cbn [app].
    split; [reflexivity|]. eexists. eexists.
    split; [reflexivity|]. split; [reflexivity|].
    split; [repeat split|]. intros _ answer H. discriminate H.
Qed.


Lemma upload_always_adds_a_document_witness :
  selectedPatient (sheet (ui (Samples.withSheet Samples.clinic)))
  = Some pat_001
  /\ (let after :=
        handleDocumentUpload Samples.offline
          (ui (Samples.withSheet Samples.clinic)) Samples.scan
          (Samples.withSheet Samples.clinic) in
      let upload :=
        fst (uploadDocument (backend Samples.offline) (patient_id pat_001)
               Samples.scan (browser (Samples.withSheet Samples.clinic))) in
      fst after = Return tt
      /\ exists doc lastToast,
           patientDocuments (sheet (ui (snd after)))
           = doc
             :: patientDocuments
                  (sheet (ui (Samples.withSheet Samples.clinic)))
           /\ toasts (snd after)
              = (toasts (Samples.withSheet Samples.clinic)
                 ++ [(toast_info, "Uploading and analyzing document...");
                     lastToast])%list
           /\ (isDemo (ui (Samples.withSheet Samples.clinic)) = true
               \/ (exists e, upload = Throw e) ->
               doc = mockDoc Samples.offline pat_001 Samples.scan
               /\ flagsEmergency doc = false
               /\ lastToast
                  = (toast_success, "Document uploaded (Demo Mode)"))
           /\ (isDemo (ui (Samples.withSheet Samples.clinic)) = false ->
               forall answer, upload = Return answer ->
                 doc = answer
                 /\ lastToast
                    = if flagsEmergency answer
                      then (toast_error,
                            "Emergency indicators detected in "
                            ++ file_name Samples.scan)
                      else (toast_success,
                            "Document uploaded and analyzed successfully"))).
Proof.
  assert (H1 : selectedPatient
                 (sheet (ui (Samples.withSheet Samples.clinic)))
               = Some pat_001) by reflexivity.
  split; [exact H1|].
  exact (upload_always_adds_a_document Samples.offline
           (ui (Samples.withSheet Samples.clinic)) Samples.scan
           (Samples.withSheet Samples.clinic) pat_001 H1).
Defined.

End DashboardCommands.

(** ** The AI service: documents and no-shows *)

Section ServiceFailures.
Import Types Records AiModel AiService.

(** X24.  Document analysis and no-show prediction never throw, and a
    failure reads as a clean answer: when [fetch] rejects, the status is an
    error or the body is not JSON, [analyzeDocument] logs one line and
    returns an analysis without emergency indicators and with risk level
    none, and [predictNoShowProbability] logs one line and returns 0;
    otherwise both return what the service sent and log nothing. *)
Theorem service_failure_reads_as_clean (env : ServiceEnv)
    (patientId first second : string) :
  let analysis := run (analyzeDocument env patientId first second) in
  let prediction :=
    run (predictNoShowProbability env patientId first second) in
  match service_fetch env AnalyzeDocument
          (servicePost env AnalyzeDocument
             (mkAnalyzeDocumentRequest patientId first second)) with
  | Resolved {| ok := true; json := Some sent |} =>
      analysis = (Return sent, [])
  | _ =>
      exists e,
        analysis
        = (Return {| analysis_hasEmergencyIndicators := false;
                     analysis_riskLevel := risk_none;
                     analysis_extractedData := [];
                     analysis_summary := "Analysis unavailable" |},
           [("Error analyzing document:", e)])
  end
  /\ match service_fetch env PredictNoShow
             (servicePost env PredictNoShow
                (mkPredictNoShowRequest patientId first second)) with
     | Resolved {| ok := true; json := Some sent |} =>
         prediction = (Return (probability sent), [])
     | _ =>
         exists e,
           prediction = (Return 0%Q, [("Error predicting no-show:", e)])
     end.
Proof.
  cbv zeta.
  unfold run, analyzeDocument, predictNoShowProbability, try_catch,
    AiModel.bind, await_service, AiModel.console_error, ret, throw,
    await_json.
  split.
  - destruct (service_fetch env AnalyzeDocument _) as [|[[|] [a|]]]; cbn;
      eauto.
  - destruct (service_fetch env PredictNoShow _) as [|[[|] [a|]]]; cbn;
      eauto.
Qed.

End ServiceFailures.

(** ** Logging out *)

Section Logout.
Import Types Records AiModel Fx Api.

(** X25.  [logout] forgets the token only when the backend confirmed: it
    sends one POST request to /auth/logout that carries the token, and
    removes the token from the storage exactly when the response is ok and
    its body is JSON; when the backend cannot be reached, answers with an
    error status or with an empty body, [logout] throws and the token stays
    in the storage. *)
Theorem logout_keeps_the_token_on_failure (backend : Backend) (b : Browser) :
  let request :=
    {| api_url := "http://localhost:8000/api/auth/logout";
       api_method := Some "POST";
       api_headers :=
         [("Content-Type", "application/json");
          ("Authorization", "Bearer " ++ getAuthToken b)];
       api_body := None |} in
  let after := logout backend b in
  sent (snd after) = (sent b ++ [request])%list
  /\ match backend call_logout request with
     | Answered {| api_ok := true; api_json := Some _ |} =>
         fst after = Return tt /\ authTokenItem (snd after) = None
     | _ =>
         (exists e, fst after = Throw e)
         /\ authTokenItem (snd after) = authTokenItem b
     end.
Proof.
  cbv zeta. unfold logout, Fx.bind, apiRequest, fetchJson, modify.
  cbn [init_method init_body API_BASE_URL append].
  destruct (backend call_logout _) as [|[[|] text [value|]]]; cbn;
    repeat split; eauto.
Qed.

End Logout.

(** ** Break times in the heap *)

Section BreakAliasing.
Import AiModel BreakStore.

Lemma assign_same (h : Heap) (f : BreakTime -> BreakTime) :
  forall r old, nth_error h r = Some old ->
    nth_error (assign h r f) r = Some (f old).
Proof.
  induction h as [|b rest IH]; intros [|r] old H; cbn in *;
    try discriminate.
  - now inversion H.
  - now apply IH.
Qed.

Lemma assign_other (h : Heap) (f : BreakTime -> BreakTime) :
  forall r r', r' <> r -> nth_error (assign h r f) r' = nth_error h r'.
Proof.
  induction h as [|b rest IH]; intros [|r] [|r'] H; cbn; try reflexivity.
  - now elim H.
  - apply IH. intros ->. now elim H.
Qed.

Lemma contents_nth (h : Heap) (breaks : list Ref) (j : nat) :
  nth_error (contents h breaks) j
  = option_map (nth_error h) (nth_error breaks j).
Proof. unfold contents. apply nth_error_map. Qed.

(** X26.  Editing a break time changes the preferences the panel was opened
    with, without any save.  The edit assigns to the break object, which
    the array of the panel shares with the array of the prop: after an edit
    of break [index], every position of the initial array that holds that
    object shows the new value, the other positions show what they showed,
    and the initial array itself is as it was.  Right after opening, this
    is position [index] itself.  Adding and removing a break leave what the
    initial array shows alone. *)
Theorem break_edit_reaches_the_initial_preferences (p : Panel)
    (index : nat) (field : Field) (value : string) (r : Ref)
    (old : BreakTime)
    (Hindex : nth_error (panelBreaks p) index = Some r)
    (Hold : nth_error (heap p) r = Some old) :
  exists p',
    editBreak p index field value = Return p'
    /\ initialBreaks p' = initialBreaks p
    /\ (forall j,
          nth_error (contents (heap p') (initialBreaks p')) j
          = match nth_error (initialBreaks p) j with
            | Some r' =>
                if Nat.eqb r' r then Some (Some (write field value old))
                else nth_error (contents (heap p) (initialBreaks p)) j
            | None => None
            end)
    /\ (panelBreaks p = initialBreaks p ->
        nth_error (contents (heap p') (initialBreaks p')) index
        = Some (Some (write field value old)))
    /\ (forall j, (j < List.length (initialBreaks p))%nat ->
          (forall r', nth_error (initialBreaks p) j = Some r' ->
             (r' < List.length (heap p))%nat) ->
          nth_error (contents (heap (addBreak p)) (initialBreaks p)) j
          = nth_error (contents (heap p) (initialBreaks p)) j)
    /\ contents (heap (removeBreak p index)) (initialBreaks p)
       = contents (heap p) (initialBreaks p).
Proof.
  unfold editBreak. rewrite Hindex. eexists. split; [reflexivity|].
  cbn [heap initialBreaks panelBreaks].
  assert (A : forall j,
    nth_error (contents (assign (heap p) r (write field value))
                 (initialBreaks p)) j
    = match nth_error (initialBreaks p) j with
      | Some r' =>
          if Nat.eqb r' r then Some (Some (write field value old))
          else nth_error (contents (heap p) (initialBreaks p)) j
      | None => None
      end).
  { intros j. rewrite !contents_nth.
    destruct (nth_error (initialBreaks p) j) as [r'|]; [|reflexivity].
    cbn [option_map]. destruct (Nat.eqb_spec r' r) as [->|Hne].
    - now rewrite (assign_same _ _ _ _ Hold).
    - now rewrite assign_other. }
  split; [reflexivity|]. split; [exact A|]. split; [|split].
  - intros Hsame. rewrite A, <- Hsame, Hindex. now rewrite Nat.eqb_refl.
  - intros j Hj Hvalid. rewrite !contents_nth.
    destruct (nth_error (initialBreaks p) j) as [r'|] eqn:E;
      [|reflexivity].
    cbn [option_map]. f_equal. apply nth_error_app1. now apply Hvalid.
  - reflexivity.
Qed.

Lemma break_edit_reaches_the_initial_preferences_witness :
  nth_error (panelBreaks (openPanel [mkBreak "12:00" "13:00"] [O])) 0
  = Some O
  /\ nth_error (heap (openPanel [mkBreak "12:00" "13:00"] [O])) 0
     = Some (mkBreak "12:00" "13:00")
  /\ exists p',
       editBreak (openPanel [mkBreak "12:00" "13:00"] [O]) 0 field_start
         "12:30" = Return p'
       /\ contents (heap p') (initialBreaks p')
          = [Some (mkBreak "12:30" "13:00")].
Proof.
  assert (H1 : nth_error
                 (panelBreaks (openPanel [mkBreak "12:00" "13:00"] [O])) 0
               = Some O) by reflexivity.
  assert (H2 : nth_error (heap (openPanel [mkBreak "12:00" "13:00"] [O])) 0
               = Some (mkBreak "12:00" "13:00")) by reflexivity.
  split; [exact H1|]. split; [exact H2|].
  destruct (break_edit_reaches_the_initial_preferences
              (openPanel [mkBreak "12:00" "13:00"] [O]) 0 field_start
              "12:30" O (mkBreak "12:00" "13:00") H1 H2)
    as [p' [E _]].
  exists p'. split; [exact E|].
  cbn in E. inversion E. reflexivity.
Defined.

End BreakAliasing.

(** ** The dashboard: clicks *)

Section DashboardClicks.
Import Types Records AiModel Fx Api Dashboard NotificationPanel.

(** X27.  A notification is marked at most once: a click on an unread
    notification asks for it to be marked as read, once; after the
    dashboard has handled that, every notification with that id is read and
    a click on it asks for nothing more; a click on a read notification
    never asks for it. *)
Theorem clicking_marks_once (out : Outside) (snap : State) (w : World)
    (notification : Notification) :
  let id := notification_id notification in
  let asked := handleNotificationClick false notification in
  let after := handleMarkNotificationAsRead out snap id w in
  (asked = if read notification then [] else [MarkAsRead id])
  /\ (forall n, In n (notifications (data (ui (snd after)))) ->
                notification_id n = id ->
                read n = true
                /\ handleNotificationClick false n = [])
  /\ (forall n, In n (notifications (data (ui w))) ->
                notification_id n <> id ->
                In n (notifications (data (ui (snd after)))))
  /\ List.length (notifications (data (ui (snd after))))
     = List.length (notifications (data (ui w))).
Proof.
  cbv zeta.
  assert (H : notifications
                (data (ui (snd (handleMarkNotificationAsRead out snap
                                  (notification_id notification) w))))
              = List.map (markRead (notification_id notification))
                  (notifications (data (ui w)))).
  { unfold handleMarkNotificationAsRead, catch, Fx.bind, set, api, zoom,
      modify, pure, console_log, markNotificationAsRead, apiRequest,
      fetchJson.
    destruct (isDemo snap); cbn; [reflexivity|].
    destruct (backend out _ _) as [|[[|] text [value|]]]; reflexivity. }
  rewrite H. split; [|split; [|split]].
  - unfold handleNotificationClick. now destruct (read notification).
  - intros n Hin Hid. apply in_map_iff in Hin.
    destruct Hin as [m [Hm _]]. subst n. unfold markRead in *.
    destruct (String.eqb (notification_id m) (notification_id notification))
      eqn:E.
    + split; reflexivity.
    + apply String.eqb_neq in E. now elim E.
  - intros n Hin Hne. apply in_map_iff. exists n. split; [|exact Hin].
    unfold markRead. apply String.eqb_neq in Hne. now rewrite Hne.
  - apply length_map.
Qed.

Lemma handlePatientClick_run (out : Outside) (snap : State)
    (patient : Patient) (w : World) :
  let after := handlePatientClick out snap patient w in
  fst after = Return tt
  /\ selectedPatient (sheet (ui (snd after))) = Some patient
  /\ patientSheetOpen (sheet (ui (snd after))) = true
  /\ patientAppointments (sheet (ui (snd after)))
     = filter (fun apt => String.eqb (patientId apt) (patient_id patient))
         (appointments (data snap))
  /\ patientDocuments (sheet (ui (snd after)))
     = match fst (getPatientDocuments (backend out) (patient_id patient)
                    (browser w)) with
       | Return docs => docs
       | Throw _ => []
       end
  /\ data (ui (snd after)) = data (ui w)
  /\ errors (snd after) = errors w
  /\ toasts (snd after) = toasts w.
Proof.
  intros after.
  assert (E : after = handlePatientClick out snap patient w)
    by reflexivity.
  clearbody after. unfold handlePatientClick in E.
  unfold Fx.bind at 1 in E. unfold set at 1, modify at 1 in E.
  cbv iota beta in E.
  unfold Fx.bind at 1 in E. unfold set at 1, modify at 1 in E.
  cbv iota beta in E. unfold catch in E.
  unfold Fx.bind at 1 in E. rewrite orElse_api_run in E.
  cbv iota beta in E.
  unfold Fx.bind at 1 in E. rewrite orElse_api_run in E.
  cbv iota beta in E.
  subst after. cbn. repeat split.
Qed.

(** X28.  A click on an appointment opens the sheet of its patient and
    never fails.  When no patient of the list has the appointment's
    [patientId], nothing changes and nothing is requested.  Otherwise the
    sheet opens on the first such patient and lists the appointments of the
    snapshot with that [patientId], the clicked one among them when it is
    one of the snapshot, also when the requests for the documents and the
    health events fail, which only leaves those lists empty. *)
Theorem appointment_click_opens_the_patient (out : Outside) (snap : State)
    (appointment : Appointment) (w : World) :
  let after := handleAppointmentClick out snap appointment w in
  fst after = Return tt
  /\ match find (fun p => String.eqb (patient_id p) (patientId appointment))
             (patients (data snap)) with
     | None => snd after = w
     | Some patient =>
         patient_id patient = patientId appointment
         /\ In patient (patients (data snap))
         /\ selectedPatient (sheet (ui (snd after))) = Some patient
         /\ patientSheetOpen (sheet (ui (snd after))) = true
         /\ (forall apt,
               In apt (patientAppointments (sheet (ui (snd after))))
               <-> In apt (appointments (data snap))
                   /\ patientId apt = patientId appointment)
         /\ (forall e,
               fst (getPatientDocuments (backend out) (patient_id patient)
                      (browser w)) = Throw e ->
               patientDocuments (sheet (ui (snd after))) = [])
         /\ data (ui (snd after)) = data (ui w)
         /\ errors (snd after) = errors w
     end.
Proof.
  cbv zeta. unfold handleAppointmentClick.
  destruct (find _ (patients (data snap))) as [patient|] eqn:F;
    [|split; reflexivity].
  destruct (find_some _ _ F) as [Hin Hid]. apply String.eqb_eq in Hid.
  destruct (handlePatientClick_run out snap patient w)
    as [H1 [H2 [H3 [H4 [H5 [H6 [H7 H8]]]]]]].
  split; [exact H1|]. split; [exact Hid|]. split; [exact Hin|].
  split; [exact H2|]. split; [exact H3|].
  split; [|split; [|split; assumption]].
  - intros apt. rewrite H4, filter_In, String.eqb_eq, Hid. tauto.
  - intros e Hfail. rewrite H5, Hfail. reflexivity.
Qed.

End DashboardClicks.
